(** * jotta_tray: status polling, CLI gateway, formatting and autostart

    A shallow embedding of the Python sources of [jotta_tray]
    ([utils.py], [cli_interface.py], [status_monitor.py], [autostart.py],
    [main.py]) together with the properties of its specification.

    Conventions of the embedding:
    - Python values that come out of [json.loads] are the inductive [pyval];
      a [dict] is a [gmap string pyval].
    - Code that may raise returns a [result]; the raised exception carries
      its class and the text that [str(e)] yields.
    - Mutable objects ([StatusMonitor], the file system) are threaded
      explicitly; log lines and calls to collaborators are collected in
      a trace of events.
    - A finite binary64 float is the rational it denotes; every arithmetic
      operation rounds to nearest, ties to even ([Float64.round]). *)

From Stdlib Require Import ZArith QArith Qabs Qpower Lia Bool Ascii String.
From stdpp Require Import base option gmap strings list.

#[local] Open Scope Z_scope.

(** ** Exceptions and results *)

Module Py.

(** The classes of [Exception] that the sources raise or catch. *)
Inductive exn_class :=
  | Exception
  | JottaCLIError
  | DaemonOfflineError
  | CLINotFoundError
  | AutostartError
  | OSError
  | FileNotFoundError
  | PermissionError
  | FileExistsError
  | TimeoutExpired
  | ValueError
  | JSONDecodeError
  | AttributeError
  | TypeError
  | ArithmeticError
  | ZeroDivisionError
  | OverflowError
  | RuntimeError.

#[global] Instance exn_class_eq_dec : EqDecision exn_class.
Proof. solve_decision. Defined.

(** The direct base class; [Exception] is the root of what is modelled. *)
Definition base_class (c : exn_class) : option exn_class :=
  match c with
  | Exception => None
  | DaemonOfflineError | CLINotFoundError => Some JottaCLIError
  | FileNotFoundError | PermissionError | FileExistsError => Some OSError
  | JSONDecodeError => Some ValueError
  | ZeroDivisionError | OverflowError => Some ArithmeticError
  | _ => Some Exception
  end.

Fixpoint subclass_fuel (fuel : nat) (c d : exn_class) : bool :=
  if decide (c = d) then true
  else match fuel with
       | O => false
       | S fuel' =>
           match base_class c with
           | Some b => subclass_fuel fuel' b d
           | None => false
           end
       end.

(** [issubclass c d]; the hierarchy above has depth 2. *)
Definition issubclass (c d : exn_class) : bool := subclass_fuel 3 c d.

(** An exception instance: its class and [str(e)]. *)
Record exn := Exn { exn_class_of : exn_class; exn_str : string }.

#[global] Instance exn_eq_dec : EqDecision exn.
Proof. solve_decision. Defined.

(** [isinstance e c], the test of an [except c:] clause. *)
Definition isinstance (e : exn) (c : exn_class) : bool :=
  issubclass (exn_class_of e) c.
#[global] Arguments isinstance : simpl never.

Inductive result (A : Type) :=
  | Ok (a : A)
  | Raise (e : exn).
Arguments Ok {A} a.
Arguments Raise {A} e.

Definition bind {A B} (r : result A) (k : A -> result B) : result B :=
  match r with
  | Ok a => k a
  | Raise e => Raise e
  end.

End Py.

Import Py.

#[global] Instance result_ret : MRet result := fun A a => Ok a.
#[global] Instance result_bind : MBind result := fun A B k r => Py.bind r k.

(** ** Binary64 floats *)

Module Float64.

(** [2^e] as a rational, for any integer exponent. *)
Definition pow2 (e : Z) : Q := Qpower 2 e.

(** Round to the nearest integer, ties to the even one. *)
Definition rne (x : Q) : Z :=
  let n := Qnum x in
  let d := Zpos (Qden x) in
  let q := n / d in
  let r := n mod d in
  match 2 * r ?= d with
  | Lt => q
  | Gt => q + 1
  | Eq => if Z.even q then q else q + 1
  end.

(** [floor (log2 x)] for [x > 0]. *)
Definition ilog2 (x : Q) : Z :=
  let t := Z.log2 (Qnum x) - Z.log2 (Zpos (Qden x)) in
  if Qle_bool (pow2 t) x then t else t - 1.

(** The parameters of binary64: bits of the significand, exponent of the
    smallest unit in the last place, and exponent of the first power of two
    beyond the finite numbers. *)
Definition prec : Z := 53.
Definition emin : Z := -1074.
Definition emax : Z := 1024.

(** Round a non-negative rational to binary64 precision: the unit in the
    last place is [2^e] with [e = max (ilog2 x - 52) emin]. [None] when the
    rounded value does not fit below [2^emax]. *)
Definition round_pos (x : Q) : option Q :=
  let e := Z.max (ilog2 x - (prec - 1)) emin in
  let m := rne (x / pow2 e) in
  let r := Qred (inject_Z m * pow2 e) in
  if Qle_bool (pow2 emax) r then None else Some r.

(** Round to nearest even; [None] is overflow. *)
Definition round (x : Q) : option Q :=
  match Qnum x with
  | Z0 => Some 0%Q
  | Zpos _ => round_pos x
  | Zneg _ => Qopp <$> round_pos (Qopp x)
  end.

(** The positive normal binary64 numbers: a 53-bit significand times a
    power of two in range. *)
Definition representable (x : Q) : Prop :=
  exists m e : Z,
    2 ^ 52 <= m < 2 ^ 53 /\ emin <= e /\ e + prec <= emax
    /\ (x == inject_Z m * pow2 e)%Q.

(** A Python [float]. *)
Inductive float :=
  | FFin (q : Q)
  | FInf (negative : bool)
  | FNan.

(** Sign and zero tests on the exact value. *)
Definition is_neg (q : Q) : bool := Qnum q <? 0.
Definition is_zero (q : Q) : bool := Qnum q =? 0.

(** Rounding of an exact result of float arithmetic: overflow gives an
    infinity. *)
Definition fround (x : Q) : float :=
  match round x with
  | Some r => FFin r
  | None => FInf (is_neg x)
  end.

(** [float(n)] for an [int]. *)
Definition of_int (n : Z) : result float :=
  match round (inject_Z n) with
  | Some r => Ok (FFin r)
  | None => Raise (Exn OverflowError "int too large to convert to float")
  end.

(** [a * b] on floats. *)
Definition fmul (a b : float) : float :=
  match a, b with
  | FNan, _ | _, FNan => FNan
  | FFin x, FFin y => fround (x * y)
  | FInf s, FFin y | FFin y, FInf s =>
      if is_zero y then FNan else FInf (xorb s (is_neg y))
  | FInf s, FInf t => FInf (xorb s t)
  end.

(** [a / b] on floats. *)
Definition fdiv (a b : float) : result float :=
  match a, b with
  | _, FFin y =>
      if is_zero y then Raise (Exn ZeroDivisionError "float division by zero")
      else match a with
           | FFin x => Ok (fround (x / y))
           | FInf s => Ok (FInf (xorb s (is_neg y)))
           | FNan => Ok FNan
           end
  | FNan, _ | _, FNan => Ok FNan
  | FFin _, FInf _ => Ok (FFin 0)
  | FInf _, FInf _ => Ok FNan
  end.

(** [a >= b] on floats. *)
Definition fge (a b : float) : bool :=
  match a, b with
  | FNan, _ | _, FNan => false
  | FFin x, FFin y => Qle_bool y x
  | FInf s, FInf t => implb s t
  | FInf s, FFin _ => negb s
  | FFin _, FInf t => t
  end.

(** [int(x)] for a finite float: truncation towards zero. *)
Definition trunc (q : Q) : Z := Z.quot (Qnum q) (Zpos (Qden q)).

End Float64.

Import Float64.

(** ** Python strings *)

Module PyStr.

(** The text of a line feed. *)
Definition newline : string := String "010"%char EmptyString.

(** The character of the decimal digit [d]. *)
Definition digit_char (d : Z) : ascii := ascii_of_nat (Z.to_nat (48 + d)).

(** The decimal digits of [n >= 0], most significant first, in front of
    [acc]. [fuel] bounds the number of digits. *)
Fixpoint digits_go (fuel : nat) (n : Z) (acc : string) : string :=
  match fuel with
  | O => acc
  | S fuel' =>
      let acc' := String (digit_char (n mod 10)) acc in
      if n / 10 =? 0 then acc' else digits_go fuel' (n / 10) acc'
  end.

(** The decimal digits of [n >= 0]; a number has at most as many decimal
    digits as binary ones. *)
Definition str_nonneg (n : Z) : string :=
  digits_go (S (Z.to_nat (Z.log2 n))) n "".

(** [str(n)] for an [int]. *)
Definition str_int (n : Z) : string :=
  if n <? 0 then "-" +:+ str_nonneg (- n) else str_nonneg n.

(** Exactly [d] decimal digits of [r], zero padded on the left. *)
Fixpoint pad_digits (d : nat) (r : Z) (acc : string) : string :=
  match d with
  | O => acc
  | S d' => pad_digits d' (r / 10) (String (digit_char (r mod 10)) acc)
  end.

(** [f"{x:.{d}f}"] for a finite float [x]: the exact value is rounded to
    [d] decimals, ties to even; no point is printed when [d = 0]. *)
Definition format_fixed (x : Q) (d : nat) : string :=
  let p := 10 ^ Z.of_nat d in
  let scaled := rne (Qabs x * inject_Z p) in
  (if is_neg x then "-" else "")
    +:+ str_nonneg (scaled / p)
    +:+ match d with
        | O => ""
        | S _ => "." +:+ pad_digits d (scaled mod p) ""
        end.

(** [f"{x:.{d}f}"] for any float. *)
Definition format_float (x : float) (d : nat) : string :=
  match x with
  | FFin q => format_fixed q d
  | FInf false => "inf"
  | FInf true => "-inf"
  | FNan => "nan"
  end.

(** ['0' <= c <= '9']. *)
Definition is_digit (c : ascii) : bool :=
  let n := nat_of_ascii c in ((48 <=? n) && (n <=? 57))%nat.

(** Whether a text consists of decimal digits only. *)
Fixpoint all_digits (s : string) : bool :=
  match s with
  | String c s' => is_digit c && all_digits s'
  | EmptyString => true
  end.

(** The number that a text of decimal digits denotes, read after [acc]. *)
Fixpoint int_of_digits_from (acc : Z) (s : string) : Z :=
  match s with
  | String c s' =>
      int_of_digits_from (10 * acc + (Z.of_nat (nat_of_ascii c) - 48)) s'
  | EmptyString => acc
  end.

(** The number that a text of decimal digits denotes. *)
Definition int_of_digits (s : string) : Z := int_of_digits_from 0 s.

(** The ASCII characters that [str.strip()] removes. *)
Definition is_space (c : ascii) : bool :=
  let n := nat_of_ascii c in
  ((9 <=? n) && (n <=? 13) || (28 <=? n) && (n <=? 32))%nat.

(** [s.lstrip()]. *)
Fixpoint lstrip (s : string) : string :=
  match s with
  | String c s' => if is_space c then lstrip s' else s
  | EmptyString => EmptyString
  end.

(** [s.strip()]. *)
Definition strip (s : string) : string :=
  String.rev (lstrip (String.rev (lstrip s))).

(** [s.lower()], on ASCII letters. *)
Definition lower_char (c : ascii) : ascii :=
  let n := nat_of_ascii c in
  if ((65 <=? n) && (n <=? 90))%nat then ascii_of_nat (n + 32) else c.

Fixpoint lower (s : string) : string :=
  match s with
  | String c s' => String (lower_char c) (lower s')
  | EmptyString => EmptyString
  end.

(** [needle in hay]. *)
Fixpoint contains (needle hay : string) : bool :=
  String.prefix needle hay
  || match hay with
     | String _ hay' => contains needle hay'
     | EmptyString => false
     end.

(** [s.split('\n')[0]]. *)
Fixpoint first_line (s : string) : string :=
  match s with
  | String c s' =>
      if Ascii.eqb c "010"%char then EmptyString else String c (first_line s')
  | EmptyString => EmptyString
  end.

End PyStr.

Import PyStr.

(** ** Python values *)

#[warnings="-register-all"]
Inductive pyval :=
  | PNone
  | PBool (b : bool)
  | PInt (z : Z)
  | PFloat (f : float)
  | PStr (s : string)
  | PList (l : list pyval)
  | PDict (m : gmap string pyval).

Module PyVal.

Definition type_name (v : pyval) : string :=
  match v with
  | PNone => "NoneType"
  | PBool _ => "bool"
  | PInt _ => "int"
  | PFloat _ => "float"
  | PStr _ => "str"
  | PList _ => "list"
  | PDict _ => "dict"
  end.

(** [bool(v)]. *)
Definition truthy (v : pyval) : bool :=
  match v with
  | PNone => false
  | PBool b => b
  | PInt z => negb (z =? 0)
  | PFloat (FFin q) => negb (is_zero q)
  | PFloat _ => true
  | PStr s => negb (String.eqb s "")
  | PList l => match l with [] => false | _ => true end
  | PDict m => negb (Nat.eqb (size m) 0)
  end.

(** [v.get(key, default)]: only a [dict] has the method. *)
Definition get (v : pyval) (key : string) (dflt : pyval) : result pyval :=
  match v with
  | PDict m => Ok (default dflt (m !! key))
  | _ =>
      Raise (Exn AttributeError
               ("'" +:+ type_name v +:+ "' object has no attribute 'get'"))
  end.

(** [len(v)] of a [dict]. *)
Definition dict_len (m : gmap string pyval) : Z := Z.of_nat (size m).

(** The numeric reading of a value: an [int] (a [bool] is one) or a
    [float]. *)
Definition as_number (v : pyval) : option (Z + float) :=
  match v with
  | PBool b => Some (inl (if b then 1 else 0))
  | PInt z => Some (inl z)
  | PFloat f => Some (inr f)
  | _ => None
  end.

(** [v == 0]. *)
Definition eq_zero (v : pyval) : bool :=
  match as_number v with
  | Some (inl z) => z =? 0
  | Some (inr (FFin q)) => is_zero q
  | _ => false
  end.

Definition to_float (n : Z + float) : result float :=
  match n with
  | inl z => of_int z
  | inr f => Ok f
  end.

(** [a / b], true division. Two [int]s give the correctly rounded
    quotient; otherwise both operands become floats first. *)
Definition truediv (a b : pyval) : result float :=
  match as_number a, as_number b with
  | Some (inl x), Some (inl y) =>
      if y =? 0 then Raise (Exn ZeroDivisionError "division by zero")
      else match round (inject_Z x / inject_Z y) with
           | Some r => Ok (FFin r)
           | None =>
               Raise (Exn OverflowError
                        "integer division result too large for a float")
           end
  | Some x, Some y =>
      fx ← to_float x; fy ← to_float y; fdiv fx fy
  | _, _ =>
      Raise (Exn TypeError
               ("unsupported operand type(s) for /: '" +:+ type_name a
                  +:+ "' and '" +:+ type_name b +:+ "'"))
  end.

End PyVal.

(** ** utils.py *)

Module Utils.

Definition units : list string := ["B"; "KB"; "MB"; "GB"; "TB"; "PB"].

(** The [while] loop of [format_bytes]: divide by [1024.0] while the value
    is at least [1024.0] and a larger unit remains. Each pass increments
    [unit_index], so [length units] passes always suffice as fuel. *)
Fixpoint scale_loop (fuel : nat) (value : float) (unit_index : nat)
  : result (float * nat) :=
  match fuel with
  | O => Ok (value, unit_index)
  | S fuel' =>
      if fge value (FFin 1024) && (unit_index <? length units - 1)%nat then
        value' ← fdiv value (FFin 1024);
        scale_loop fuel' value' (S unit_index)
      else Ok (value, unit_index)
  end.

(** [format_bytes(bytes_value, decimal_places)]. A negative
    [decimal_places] is rejected by the format specification. *)
Definition format_bytes (bytes_value : Z) (decimal_places : Z) : result string :=
  if bytes_value <? 0 then Ok "0 B"
  else
    value ← of_int bytes_value;
    '(value, unit_index) ← scale_loop (length units) value 0%nat;
    let unit := nth unit_index units "" in
    if Nat.eqb unit_index 0 then
      match value with
      | FFin q => Ok (str_int (trunc q) +:+ " " +:+ unit)
      | FInf _ =>
          Raise (Exn OverflowError "cannot convert float infinity to integer")
      | FNan => Raise (Exn ValueError "cannot convert float NaN to integer")
      end
    else if decimal_places <? 0 then
      Raise (Exn ValueError "Format specifier missing precision")
    else Ok (format_float value (Z.to_nat decimal_places) +:+ " " +:+ unit).

(** The default of [decimal_places]. *)
Definition default_decimal_places : Z := 1.

(** [parse_sync_state(state_data)]. *)
Definition parse_sync_state (state_data : pyval) : result string :=
  uploading ← PyVal.get state_data "Uploading" (PDict ∅);
  downloading ← PyVal.get state_data "Downloading" (PDict ∅);
  let has_uploads :=
    match uploading with PDict m => 0 <? PyVal.dict_len m | _ => false end in
  let has_downloads :=
    match downloading with PDict m => 0 <? PyVal.dict_len m | _ => false end in
  if has_uploads || has_downloads then Ok "syncing" else Ok "idle".

(** The default of [threshold_percent]. *)
Definition default_threshold_percent : float := FFin 90.

(** [detect_quota_warning(used, total, threshold_percent)]. *)
Definition detect_quota_warning (used total : pyval) (threshold_percent : float)
  : result bool :=
  if PyVal.eq_zero total then Ok false
  else
    ratio ← PyVal.truediv used total;
    let usage_percent := fmul ratio (FFin 100) in
    Ok (fge usage_percent threshold_percent).

End Utils.

(** ** Snapshots, callbacks and observable events *)

(** A [datetime], in microseconds since [datetime.min]. *)
Definition datetime := Z.
Definition datetime_min : datetime := 0.

(** [timedelta(seconds=s)], in microseconds. *)
Definition timedelta_seconds (s : Z) : Z := s * 1000000.

(** The dataclass [SyncStatus]. The byte and file figures hold whatever
    the payload holds; the two transfer counts come from [len]. *)
Record SyncStatus := {
  state : string;
  used_bytes : pyval;
  total_bytes : pyval;
  local_files : pyval;
  remote_files : pyval;
  uploading_count : Z;
  downloading_count : Z;
  last_update : datetime;
  quota_warning : bool;
}.

(** A subscriber: its [__name__] and what a call does with a snapshot,
    returning normally ([None]) or raising an [Exception]. *)
Record callback := {
  cb_name : string;
  cb_call : SyncStatus -> option exn;
}.

Inductive log_level := DEBUG | INFO | WARNING | ERROR.

(** One constructor per [logger] call of the sources, with the values the
    message interpolates. *)
Inductive log_msg :=
  | RunningCommand (cmd : list string)
  | CommandTimedOut (timeout : Z) (cmd : list string)
  | StatusRetrieved
  | StatusJsonFailed (e : string)
  | RawOutput (stdout : string)
  | BackupPaused
  | BackupResumed
  | LogFileFound (path : string)
  | LogFileNotFound (path : string)
  | RegisteredCallback (name : string)
  | MonitorAlreadyRunning
  | MonitorStarted
  | MonitorStopping
  | MonitorStopped
  | MonitorLoopStarted
  | MonitorLoopExited
  | StatusChanged (state : string)
  | CallbackError (name : string) (e : exn)
  | MonitorLoopError (e : exn)
  | DaemonOffline
  | QuotaUpdated (used total : pyval)
  | AdjustingInterval (old new : Z)
  | AppStarting
  | CliNotAvailable
  | CliNotFoundInPath
  | AppStarted
  | AutostartDirectory (dir : string)
  | AutostartInstalled (dest : string)
  | AutostartInstallFailed (e : exn)
  | AutostartPermissionDenied (e : exn)
  | AutostartInstallUnexpected (e : exn)
  | AutostartFileNotFound (dest : string)
  | AutostartRemoved (dest : string)
  | AutostartRemoveUnexpected (e : exn).

(** What a run does to the outside, in order. *)
Inductive event :=
  | Log (level : log_level) (msg : log_msg)
  | Invoke (name : string) (status : SyncStatus)
  | Sleep (seconds : Z)
  | ThreadStart (name : string)
  | ErrorDialog (title text : string)
  | SysExit (code : Z)
  | TrayUpdateStatus (status : SyncStatus)
  | GtkMain.

(** ** cli_interface.py *)

Module CLI.

Record CompletedProcess := {
  returncode : Z;
  stdout : string;
  stderr : string;
}.

(** What [subprocess.run] does for one call: it raises, or the process
    completes. A missing executable is a [FileNotFoundError], a process
    that outlives the timeout a [TimeoutExpired]. *)
Inductive proc_outcome :=
  | ProcRaised (e : exn)
  | ProcCompleted (p : CompletedProcess).

Record CLIInterface := {
  cli_path : string;
  timeout : Z;
}.

(** [CLIInterface()] with the defaults of [__init__]. *)
Definition default_cli : CLIInterface :=
  {| cli_path := "jotta-cli"; timeout := 5 |}.

Section Gateway.

(** [json.loads]: the decoded value, or the text of the
    [JSONDecodeError]. *)
Variable json_loads : string -> pyval + string.

Variable self : CLIInterface.

(** [_run_command(args, timeout)]. *)
Definition _run_command (args : list string) (timeout_arg : option Z)
    (o : proc_outcome) : list event * result CompletedProcess :=
  let timeout := default (timeout self) timeout_arg in
  let cmd := cli_path self :: args in
  let tr := [Log DEBUG (RunningCommand cmd)] in
  match o with
  | ProcCompleted p => (tr, Ok p)
  | ProcRaised e =>
      if isinstance e FileNotFoundError then
        (tr, Raise (Exn CLINotFoundError
                      ("jotta-cli not found at: " +:+ cli_path self)))
      else if isinstance e TimeoutExpired then
        (tr ++ [Log ERROR (CommandTimedOut timeout cmd)], Raise e)
      else (tr, Raise e)
  end.

(** The clause [except subprocess.TimeoutExpired: raise JottaCLIError(msg)]
    that closes every command method. *)
Definition on_timeout {A} (msg : string) (r : list event * result A)
  : list event * result A :=
  match r with
  | (tr, Raise e) =>
      if isinstance e TimeoutExpired then (tr, Raise (Exn JottaCLIError msg))
      else (tr, Raise e)
  | _ => r
  end.

(** [run_status()]. *)
Definition run_status (o : proc_outcome) : list event * result pyval :=
  on_timeout "Status command timed out - daemon may be unresponsive"
    (let '(tr, r) := _run_command ["status"; "--json"] None o in
     match r with
     | Raise e => (tr, Raise e)
     | Ok result =>
         if negb (returncode result =? 0) then
           let error_msg := strip (stderr result) in
           if contains "connection refused" (lower error_msg)
              || contains "not running" (lower error_msg)
           then (tr, Raise (Exn DaemonOfflineError "Jotta daemon is not running"))
           else (tr, Raise (Exn JottaCLIError
                              ("jotta-cli status failed: " +:+ error_msg)))
         else
           match json_loads (stdout result) with
           | inl status_data =>
               (tr ++ [Log DEBUG StatusRetrieved], Ok status_data)
           | inr e =>
               (tr ++ [Log ERROR (StatusJsonFailed e);
                       Log DEBUG (RawOutput (stdout result))],
                Raise (Exn JottaCLIError
                         ("Invalid JSON from jotta-cli: " +:+ e)))
           end
     end).

(** [run_pause()]. *)
Definition run_pause (o : proc_outcome) : list event * result bool :=
  on_timeout "Pause command timed out"
    (let '(tr, r) := _run_command ["pause"] None o in
     match r with
     | Raise e => (tr, Raise e)
     | Ok result =>
         if negb (returncode result =? 0) then
           (tr, Raise (Exn JottaCLIError
                         ("Pause failed: " +:+ strip (stderr result))))
         else (tr ++ [Log INFO BackupPaused], Ok true)
     end).

(** [run_resume()]. *)
Definition run_resume (o : proc_outcome) : list event * result bool :=
  on_timeout "Resume command timed out"
    (let '(tr, r) := _run_command ["resume"] None o in
     match r with
     | Raise e => (tr, Raise e)
     | Ok result =>
         if negb (returncode result =? 0) then
           (tr, Raise (Exn JottaCLIError
                         ("Resume failed: " +:+ strip (stderr result))))
         else (tr ++ [Log INFO BackupResumed], Ok true)
     end).

(** [get_logfile_path()]; [path_exists] is [Path(p).exists()]. *)
Definition get_logfile_path (path_exists : string -> bool) (o : proc_outcome)
  : list event * result (option string) :=
  on_timeout "Logfile command timed out"
    (let '(tr, r) := _run_command ["logfile"] None o in
     match r with
     | Raise e => (tr, Raise e)
     | Ok result =>
         if negb (returncode result =? 0) then
           (tr, Raise (Exn JottaCLIError
                         ("Logfile command failed: " +:+ strip (stderr result))))
         else
           let logfile_path := first_line (strip (stdout result)) in
           if negb (String.eqb logfile_path "") && path_exists logfile_path
           then (tr ++ [Log DEBUG (LogFileFound logfile_path)],
                 Ok (Some logfile_path))
           else (tr ++ [Log WARNING (LogFileNotFound logfile_path)], Ok None)
     end).

(** [check_available()]. *)
Definition check_available (o : proc_outcome) : list event * result bool :=
  let '(tr, r) := run_status o in
  match r with
  | Ok _ => (tr, Ok true)
  | Raise e =>
      if isinstance e CLINotFoundError || isinstance e DaemonOfflineError
      then (tr, Ok false)
      else if isinstance e JottaCLIError then (tr, Ok true)
      else (tr, Raise e)
  end.

End Gateway.

End CLI.

(** ** status_monitor.py *)

Module Monitor.

Import CLI.

(** The fields of a [StatusMonitor] that the polling code reads and
    writes. *)
Record StatusMonitor := {
  cli : CLIInterface;
  _running : bool;
  _callbacks : list callback;
  _last_status : option SyncStatus;
  _last_quota_check : datetime;
  _cached_quota : option (pyval * pyval);
  _current_interval : Z;
}.

Definition IDLE_INTERVAL : Z := 10.
Definition ACTIVE_INTERVAL : Z := 2.
Definition OFFLINE_INTERVAL : Z := 30.
Definition QUOTA_CACHE_TTL : Z := 300.

(** [StatusMonitor(cli)]. *)
Definition __init__ (c : CLIInterface) : StatusMonitor :=
  {| cli := c;
     _running := false;
     _callbacks := [];
     _last_status := None;
     _last_quota_check := datetime_min;
     _cached_quota := None;
     _current_interval := IDLE_INTERVAL |}.

Definition set_running (b : bool) (m : StatusMonitor) : StatusMonitor :=
  {| cli := cli m; _running := b; _callbacks := _callbacks m;
     _last_status := _last_status m;
     _last_quota_check := _last_quota_check m;
     _cached_quota := _cached_quota m;
     _current_interval := _current_interval m |}.

Definition set_callbacks (l : list callback) (m : StatusMonitor)
  : StatusMonitor :=
  {| cli := cli m; _running := _running m; _callbacks := l;
     _last_status := _last_status m;
     _last_quota_check := _last_quota_check m;
     _cached_quota := _cached_quota m;
     _current_interval := _current_interval m |}.

Definition set_last_status (s : SyncStatus) (m : StatusMonitor)
  : StatusMonitor :=
  {| cli := cli m; _running := _running m; _callbacks := _callbacks m;
     _last_status := Some s;
     _last_quota_check := _last_quota_check m;
     _cached_quota := _cached_quota m;
     _current_interval := _current_interval m |}.

Definition set_quota (q : pyval * pyval) (now : datetime) (m : StatusMonitor)
  : StatusMonitor :=
  {| cli := cli m; _running := _running m; _callbacks := _callbacks m;
     _last_status := _last_status m;
     _last_quota_check := now;
     _cached_quota := Some q;
     _current_interval := _current_interval m |}.

Definition set_interval (i : Z) (m : StatusMonitor) : StatusMonitor :=
  {| cli := cli m; _running := _running m; _callbacks := _callbacks m;
     _last_status := _last_status m;
     _last_quota_check := _last_quota_check m;
     _cached_quota := _cached_quota m;
     _current_interval := i |}.

(** [add_callback(callback)]. *)
Definition add_callback (cb : callback) (m : StatusMonitor)
  : list event * StatusMonitor :=
  ([Log DEBUG (RegisteredCallback (cb_name cb))],
   set_callbacks (_callbacks m ++ [cb]) m).

(** [get_current_status()]. *)
Definition get_current_status (m : StatusMonitor) : option SyncStatus :=
  _last_status m.

(** [_determine_state(status_data)]. *)
Definition _determine_state (status_data : pyval) : result string :=
  sync_data ← PyVal.get status_data "Sync" (PDict ∅);
  sync_enabled ← PyVal.get sync_data "Enabled" (PBool true);
  if negb (PyVal.truthy sync_enabled) then Ok "paused"
  else
    state_data ← PyVal.get status_data "State" (PDict ∅);
    Utils.parse_sync_state state_data.

(** The payload reads of [_get_quota]: [User.AccountInfo.Usage] and
    [.Capacity], each defaulting to [0]. *)
Definition read_quota (status_data : pyval) : result (pyval * pyval) :=
  user_data ← PyVal.get status_data "User" (PDict ∅);
  account_info ← PyVal.get user_data "AccountInfo" (PDict ∅);
  used ← PyVal.get account_info "Usage" (PInt 0);
  total ← PyVal.get account_info "Capacity" (PInt 0);
  Ok (used, total).

(** [_get_quota(status_data)], with [now] the value of [datetime.now()]. *)
Definition _get_quota (status_data : pyval) (now : datetime)
    (m : StatusMonitor)
  : list event * result (pyval * pyval) * StatusMonitor :=
  match _cached_quota m with
  | Some cached =>
      if now - _last_quota_check m <? timedelta_seconds QUOTA_CACHE_TTL
      then ([], Ok cached, m)
      else
        match read_quota status_data with
        | Ok (used, total) =>
            ([Log DEBUG (QuotaUpdated used total)], Ok (used, total),
             set_quota (used, total) now m)
        | Raise e => ([], Raise e, m)
        end
  | None =>
      match read_quota status_data with
      | Ok (used, total) =>
          ([Log DEBUG (QuotaUpdated used total)], Ok (used, total),
           set_quota (used, total) now m)
      | Raise e => ([], Raise e, m)
      end
  end.

(** [_has_changed(new_status)]. *)
Definition _has_changed (new_status : SyncStatus) (m : StatusMonitor) : bool :=
  match _last_status m with
  | None => true
  | Some last =>
      negb (String.eqb (state new_status) (state last))
      || negb (uploading_count new_status =? uploading_count last)
      || negb (downloading_count new_status =? downloading_count last)
      || negb (Bool.eqb (quota_warning new_status) (quota_warning last))
  end.

(** [_adjust_interval(state)]. *)
Definition _adjust_interval (st : string) (m : StatusMonitor)
  : list event * StatusMonitor :=
  let new_interval :=
    if String.eqb st "syncing" then ACTIVE_INTERVAL
    else if String.eqb st "offline" then OFFLINE_INTERVAL
    else IDLE_INTERVAL in
  if negb (new_interval =? _current_interval m) then
    ([Log DEBUG (AdjustingInterval (_current_interval m) new_interval)],
     set_interval new_interval m)
  else ([], m).

(** What the outside supplies during one pass of the loop: the outcome of
    the status command, the two readings of [datetime.now()], and whether
    [stop()] clears [_running] before the loop tests it again. *)
Record cycle_input := {
  proc : proc_outcome;
  now_quota : datetime;
  now_status : datetime;
  stop_requested : bool;
}.

Section Polling.

Variable json_loads : string -> pyval + string.

(** The [try] block of [_fetch_status]. *)
Definition fetch_live (inp : cycle_input) (m : StatusMonitor)
  : list event * result SyncStatus * StatusMonitor :=
  let '(tr, r) := run_status json_loads (cli m) (proc inp) in
  match r with
  | Raise e => (tr, Raise e, m)
  | Ok status_data =>
      match _determine_state status_data with
      | Raise e => (tr, Raise e, m)
      | Ok st =>
          let '(tr_q, r_q, m') := _get_quota status_data (now_quota inp) m in
          match r_q with
          | Raise e => (tr ++ tr_q, Raise e, m')
          | Ok (used, total) =>
              (tr ++ tr_q,
               sync_data ← PyVal.get status_data "Sync" (PDict ∅);
               local_count ← PyVal.get sync_data "Count" (PDict ∅);
               remote_count ← PyVal.get sync_data "RemoteCount" (PDict ∅);
               state_data ← PyVal.get status_data "State" (PDict ∅);
               uploading ← PyVal.get state_data "Uploading" (PDict ∅);
               downloading ← PyVal.get state_data "Downloading" (PDict ∅);
               let upload_count :=
                 match uploading with
                 | PDict d => PyVal.dict_len d
                 | _ => 0
                 end in
               let download_count :=
                 match downloading with
                 | PDict d => PyVal.dict_len d
                 | _ => 0
                 end in
               warn ← Utils.detect_quota_warning used total
                        Utils.default_threshold_percent;
               local ← PyVal.get local_count "Files" (PInt 0);
               remote ← PyVal.get remote_count "Files" (PInt 0);
               Ok {| state := st;
                     used_bytes := used;
                     total_bytes := total;
                     local_files := local;
                     remote_files := remote;
                     uploading_count := upload_count;
                     downloading_count := download_count;
                     last_update := now_status inp;
                     quota_warning := warn |},
               m')
          end
      end
  end.

(** The [except DaemonOfflineError] clause of [_fetch_status]. *)
Definition fetch_offline (inp : cycle_input) (m : StatusMonitor)
  : list event * SyncStatus :=
  let '(used, total) := default (PInt 0, PInt 0) (_cached_quota m) in
  ([Log WARNING DaemonOffline],
   {| state := "offline";
      used_bytes := used;
      total_bytes := total;
      local_files := PInt 0;
      remote_files := PInt 0;
      uploading_count := 0;
      downloading_count := 0;
      last_update := now_status inp;
      quota_warning := false |}).

(** [_fetch_status()]. *)
Definition _fetch_status (inp : cycle_input) (m : StatusMonitor)
  : list event * result SyncStatus * StatusMonitor :=
  let '(tr, r, m') := fetch_live inp m in
  match r with
  | Raise e =>
      if isinstance e DaemonOfflineError then
        let '(tr', s) := fetch_offline inp m' in (tr ++ tr', Ok s, m')
      else (tr, Raise e, m')
  | Ok s => (tr, Ok s, m')
  end.

(** The [for callback in self._callbacks] loop with its inner
    [try]/[except Exception]: the events, and the exception that leaves
    the loop if the clause does not catch it. *)
Fixpoint notify (callbacks : list callback) (status : SyncStatus)
  : list event * result unit :=
  match callbacks with
  | [] => ([], Ok tt)
  | cb :: rest =>
      match cb_call cb status with
      | None =>
          let '(tr, r) := notify rest status in
          (Invoke (cb_name cb) status :: tr, r)
      | Some e =>
          if isinstance e Exception then
            let '(tr, r) := notify rest status in
            (Invoke (cb_name cb) status
               :: Log ERROR (CallbackError (cb_name cb) e) :: tr, r)
          else ([Invoke (cb_name cb) status], Raise e)
      end
  end.

(** The [try] block of the loop body. *)
Definition cycle_body (inp : cycle_input) (m : StatusMonitor)
  : list event * result unit * StatusMonitor :=
  let '(tr, r, m1) := _fetch_status inp m in
  match r with
  | Raise e => (tr, Raise e, m1)
  | Ok status =>
      if _has_changed status m1 then
        let m2 := set_last_status status m1 in
        let '(tr_cb, r_cb) := notify (_callbacks m2) status in
        match r_cb with
        | Raise e =>
            (tr ++ Log INFO (StatusChanged (state status)) :: tr_cb,
             Raise e, m2)
        | Ok _ =>
            let '(tr_i, m3) := _adjust_interval (state status) m2 in
            (tr ++ Log INFO (StatusChanged (state status)) :: tr_cb ++ tr_i,
             Ok tt, m3)
        end
      else
        let m2 := set_last_status status m1 in
        let '(tr_i, m3) := _adjust_interval (state status) m2 in
        (tr ++ tr_i, Ok tt, m3)
  end.

(** One pass of the [while] loop: the [try] block, the outer
    [except Exception] clause, and the [sleep]. *)
Definition cycle (inp : cycle_input) (m : StatusMonitor)
  : list event * result unit * StatusMonitor :=
  let '(tr, r, m') := cycle_body inp m in
  match r with
  | Ok _ => (tr ++ [Sleep (_current_interval m')], Ok tt, m')
  | Raise e =>
      if isinstance e Exception then
        (tr ++ [Log ERROR (MonitorLoopError e); Sleep (_current_interval m')],
         Ok tt, m')
      else (tr, Raise e, m')
  end.

(** [_monitor_loop()], observed over the passes whose inputs are given.
    [Raise e] means that [e] left the loop and ended the thread. *)
Fixpoint loop_from (inputs : list cycle_input) (m : StatusMonitor)
  : list event * result unit * StatusMonitor :=
  match inputs with
  | [] => ([], Ok tt, m)
  | inp :: rest =>
      if _running m then
        let '(tr, r, m') := cycle inp m in
        match r with
        | Raise e => (tr, Raise e, m')
        | Ok _ =>
            let m'' :=
              if stop_requested inp then set_running false m' else m' in
            let '(tr', r', m_end) := loop_from rest m'' in
            (tr ++ tr', r', m_end)
        end
      else ([Log DEBUG MonitorLoopExited], Ok tt, m)
  end.

Definition _monitor_loop (inputs : list cycle_input) (m : StatusMonitor)
  : list event * result unit * StatusMonitor :=
  let '(tr, r, m') := loop_from inputs m in
  (Log DEBUG MonitorLoopStarted :: tr, r, m').

(** [start()]: the thread runs [_monitor_loop]. *)
Definition start (m : StatusMonitor) : list event * StatusMonitor :=
  if _running m then ([Log WARNING MonitorAlreadyRunning], m)
  else ([ThreadStart "StatusMonitor"; Log INFO MonitorStarted],
        set_running true m).

(** [stop()], up to the [join] of the thread. *)
Definition stop (m : StatusMonitor) : list event * StatusMonitor :=
  if negb (_running m) then ([], m)
  else ([Log INFO MonitorStopping; Log INFO MonitorStopped],
        set_running false m).

End Polling.

End Monitor.

(** ** main.py *)

Module App.

Import CLI.

Section Start.

Variable json_loads : string -> pyval + string.

(** [JottaTrayApp]: the components that [start] uses. *)
Record JottaTrayApp := {
  app_cli : CLIInterface;
  monitor : Monitor.StatusMonitor;
}.

(** [JottaTrayApp(args)]. *)
Definition __init__ : JottaTrayApp :=
  {| app_cli := default_cli; monitor := Monitor.__init__ default_cli |}.

(** [_show_error_and_exit(title, message)]: the dialog, then
    [sys.exit(1)]. *)
Definition _show_error_and_exit (title message : string) : list event :=
  [ErrorDialog title message; SysExit 1].

(** The subscriber that [start] registers, [_on_status_change]; it hands
    the snapshot to the GUI thread and returns. *)
Definition _on_status_change : callback :=
  {| cb_name := "_on_status_change"; cb_call := fun _ => None |}.

(** [start()]. [o] is the outcome of the status command of the
    availability probe; [initial] is what [get_current_status()] returns
    right after the thread was started. The result is [Ok (Some code)] when
    the process exits with [code], [Ok None] when the GTK main loop was
    entered. *)
Definition start (self : JottaTrayApp) (o : proc_outcome)
    (initial : option SyncStatus)
  : list event * result (option Z) * JottaTrayApp :=
  let tr0 := [Log INFO AppStarting] in
  let '(tr1, r) := check_available json_loads (app_cli self) o in
  let continue_ (tr : list event) :=
    let '(tr2, m1) := Monitor.add_callback _on_status_change (monitor self) in
    let '(tr3, m2) := Monitor.start m1 in
    let tr4 :=
      match initial with
      | Some s => [TrayUpdateStatus s]
      | None => []
      end in
    (tr ++ tr2 ++ tr3 ++ tr4 ++ [Log INFO AppStarted; GtkMain], Ok None,
     {| app_cli := app_cli self; monitor := m2 |}) in
  match r with
  | Ok available =>
      if negb available then
        continue_ (tr0 ++ tr1 ++ [Log ERROR CliNotAvailable])
      else continue_ (tr0 ++ tr1)
  | Raise e =>
      if isinstance e CLINotFoundError then
        (tr0 ++ tr1 ++ [Log ERROR CliNotFoundInPath]
           ++ _show_error_and_exit "Jotta CLI Not Found"
                ("jotta-cli is not installed or not in PATH." +:+ newline
                   +:+ "Please install Jotta CLI before using this widget."),
         Ok (Some 1), self)
      else (tr0 ++ tr1, Raise e, self)
  end.

End Start.

End App.

(** ** autostart.py *)

Module Autostart.

(** A [Path], as its components below the root. *)
Abbreviation path := (list string) (only parsing).

(** [str(p)]. *)
Fixpoint path_str (p : path) : string :=
  match p with
  | [] => ""
  | c :: p' => "/" +:+ c +:+ path_str p'
  end.

(** The part of the file system that matters here: regular files with
    their contents, and directories. *)
Record filesystem := {
  files : gmap path string;
  dirs : gset path;
}.

(** What the platform decides: where the module lives, what [Path.home()]
    yields, and for each mutating call whether the system refuses it
    (with, for instance, a [PermissionError]). *)
Record platform := {
  module_dir : path;
  home : result path;
  mkdir_refused : option exn;
  copy_refused : option exn;
  unlink_refused : option exn;
}.

(** Code that reads and writes the file system, logs, and may raise. *)
Definition io (A : Type) : Type :=
  filesystem -> list event * result A * filesystem.

Definition io_ret {A} (a : A) : io A := fun fs => ([], Ok a, fs).

Definition io_bind {A B} (m : io A) (k : A -> io B) : io B :=
  fun fs =>
    let '(tr, r, fs') := m fs in
    match r with
    | Raise e => (tr, Raise e, fs')
    | Ok a => let '(tr', r', fs'') := k a fs' in (tr ++ tr', r', fs'')
    end.

Definition io_raise {A} (e : exn) : io A := fun fs => ([], Raise e, fs).

Definition io_log (l : log_level) (msg : log_msg) : io unit :=
  fun fs => ([Log l msg], Ok tt, fs).

Definition io_lift {A} (r : result A) : io A := fun fs => ([], r, fs).

(** [try: body  except c1 as e: h1 e  except c2 as e: h2 e ...]: the first
    clause whose class the exception is an instance of handles it; without
    one the exception propagates. *)
Fixpoint handle {A} (clauses : list (exn_class * (exn -> io A))) (e : exn)
  : io A :=
  match clauses with
  | [] => io_raise e
  | (c, h) :: rest => if isinstance e c then h e else handle rest e
  end.

Definition try_except {A} (body : io A)
    (clauses : list (exn_class * (exn -> io A))) : io A :=
  fun fs =>
    let '(tr, r, fs') := body fs in
    match r with
    | Ok a => (tr, Ok a, fs')
    | Raise e => let '(tr', r', fs'') := handle clauses e fs' in
                 (tr ++ tr', r', fs'')
    end.

Notation "x ⇐ m ; k" := (io_bind m (fun x => k))
  (at level 20, m at level 100, k at level 200, only parsing).

(** [p.exists()]. *)
Definition exists_ (p : path) : io bool :=
  fun fs => ([], Ok (bool_decide (is_Some (files fs !! p))
                     || bool_decide (p ∈ dirs fs)), fs).

(** All non-empty prefixes of [p]: the directory and its parents. *)
Fixpoint with_parents (p : path) : list path :=
  match p with
  | [] => []
  | c :: p' => [c] :: map (cons c) (with_parents p')
  end.

(** [p.mkdir(parents=True, exist_ok=True)]. *)
Definition mkdir (sys : platform) (p : path) : io unit :=
  fun fs =>
    match mkdir_refused sys with
    | Some e => ([], Raise e, fs)
    | None =>
        if bool_decide (Exists (fun q => is_Some (files fs !! q))
                          (with_parents p))
        then ([], Raise (Exn FileExistsError
                           ("[Errno 17] File exists: '" +:+ path_str p +:+ "'")),
              fs)
        else ([], Ok tt,
              {| files := files fs;
                 dirs := dirs fs ∪ list_to_set (with_parents p) |})
    end.

(** The directory that holds [p]. *)
Definition parent (p : path) : path := removelast p.

(** [shutil.copy2(source, dest)], contents only. *)
Definition copy2 (sys : platform) (source dest : path) : io unit :=
  fun fs =>
    match copy_refused sys with
    | Some e => ([], Raise e, fs)
    | None =>
        match files fs !! source with
        | Some content =>
            if bool_decide (parent dest ∈ dirs fs)
               && negb (bool_decide (dest ∈ dirs fs))
            then ([], Ok tt,
                  {| files := <[dest := content]> (files fs);
                     dirs := dirs fs |})
            else ([], Raise (Exn OSError
                               ("cannot write '" +:+ path_str dest +:+ "'")),
                  fs)
        | None =>
            ([], Raise (Exn FileNotFoundError
                          ("[Errno 2] No such file or directory: '"
                             +:+ path_str source +:+ "'")), fs)
        end
    end.

(** [p.unlink()]. *)
Definition unlink (sys : platform) (p : path) : io unit :=
  fun fs =>
    match unlink_refused sys with
    | Some e => ([], Raise e, fs)
    | None =>
        match files fs !! p with
        | Some _ =>
            ([], Ok tt, {| files := delete p (files fs); dirs := dirs fs |})
        | None =>
            ([], Raise (Exn OSError
                          ("cannot remove '" +:+ path_str p +:+ "'")), fs)
        end
    end.

Section Functions.

Variable sys : platform.

(** [get_desktop_file_path()]. *)
Definition get_desktop_file_path : io path :=
  let desktop_file := module_dir sys ++ ["jotta-tray.desktop"] in
  found ⇐ exists_ desktop_file;
  if negb found then
    io_raise (Exn AutostartError
                ("Desktop file template not found at "
                   +:+ path_str desktop_file +:+ ". "
                   +:+ "This may indicate an incomplete installation."))
  else io_ret desktop_file.

(** [get_autostart_dir()]. *)
Definition get_autostart_dir : io path :=
  h ⇐ io_lift (home sys);
  let config_home := h ++ [".config"] in
  io_ret (config_home ++ ["autostart"]).

(** [get_autostart_file_path()]. *)
Definition get_autostart_file_path : io path :=
  d ⇐ get_autostart_dir;
  io_ret (d ++ ["jotta-tray.desktop"]).

(** [is_autostart_enabled()]. *)
Definition is_autostart_enabled : io bool :=
  p ⇐ get_autostart_file_path;
  exists_ p.

(** The [try] block of [install_autostart]. *)
Definition install_body : io (bool * string) :=
  source ⇐ get_desktop_file_path;
  dest ⇐ get_autostart_file_path;
  autostart_dir ⇐ get_autostart_dir;
  _ ⇐ mkdir sys autostart_dir;
  _ ⇐ io_log DEBUG (AutostartDirectory (path_str autostart_dir));
  _ ⇐ copy2 sys source dest;
  _ ⇐ io_log INFO (AutostartInstalled (path_str dest));
  io_ret (true,
          "Autostart enabled successfully." +:+ newline
            +:+ "Desktop file installed to:" +:+ newline +:+ path_str dest).

(** The [except] clauses of [install_autostart], in order. *)
Definition install_clauses : list (exn_class * (exn -> io (bool * string))) :=
  [ (AutostartError, fun e =>
       _ ⇐ io_log ERROR (AutostartInstallFailed e);
       io_ret (false, exn_str e));
    (PermissionError, fun e =>
       _ ⇐ io_log ERROR (AutostartPermissionDenied e);
       io_ret (false,
               "Permission denied: Unable to write to autostart directory."
                 +:+ newline +:+ exn_str e));
    (Exception, fun e =>
       _ ⇐ io_log ERROR (AutostartInstallUnexpected e);
       io_ret (false,
               "Failed to install autostart:" +:+ newline +:+ exn_str e)) ].

(** [install_autostart()]. *)
Definition install_autostart : io (bool * string) :=
  try_except install_body install_clauses.

(** The [try] block of [uninstall_autostart]. *)
Definition uninstall_body : io (bool * string) :=
  dest ⇐ get_autostart_file_path;
  found ⇐ exists_ dest;
  if negb found then
    _ ⇐ io_log WARNING (AutostartFileNotFound (path_str dest));
    io_ret (true, "Autostart is already disabled.")
  else
    _ ⇐ unlink sys dest;
    _ ⇐ io_log INFO (AutostartRemoved (path_str dest));
    io_ret (true, "Autostart disabled successfully.").

(** The [except] clauses of [uninstall_autostart], in order. *)
Definition uninstall_clauses
  : list (exn_class * (exn -> io (bool * string))) :=
  [ (PermissionError, fun e =>
       _ ⇐ io_log ERROR (AutostartPermissionDenied e);
       io_ret (false,
               "Permission denied: Unable to remove autostart file."
                 +:+ newline +:+ exn_str e));
    (Exception, fun e =>
       _ ⇐ io_log ERROR (AutostartRemoveUnexpected e);
       io_ret (false,
               "Failed to remove autostart:" +:+ newline +:+ exn_str e)) ].

(** [uninstall_autostart()]. *)
Definition uninstall_autostart : io (bool * string) :=
  try_except uninstall_body uninstall_clauses.

End Functions.

End Autostart.

(** ** Observations on traces *)

(** The subscriber calls of a trace, in order: who was called, with which
    snapshot. *)
Fixpoint invocations (tr : list event) : list (string * SyncStatus) :=
  match tr with
  | [] => []
  | Invoke name status :: tr' => (name, status) :: invocations tr'
  | _ :: tr' => invocations tr'
  end.

(** The [sleep] calls of a trace, in order. *)
Fixpoint sleeps (tr : list event) : list Z :=
  match tr with
  | [] => []
  | Sleep s :: tr' => s :: sleeps tr'
  | _ :: tr' => sleeps tr'
  end.

(** A trace without subscriber calls and sleeps. *)
Definition quiet (tr : list event) : Prop :=
  invocations tr = [] /\ sleeps tr = [].

(** Whether the process was told to exit. *)
Definition exits (tr : list event) : bool :=
  existsb (fun ev => match ev with SysExit _ => true | _ => false end) tr.

(** Whether an error dialog was shown. *)
Definition shows_dialog (tr : list event) : bool :=
  existsb (fun ev => match ev with ErrorDialog _ _ => true | _ => false end) tr.

(** Two snapshots differ on one of the four compared fields. *)
Definition differs (new last : SyncStatus) : Prop :=
  state new ≠ state last
  ∨ uploading_count new ≠ uploading_count last
  ∨ downloading_count new ≠ downloading_count last
  ∨ quota_warning new ≠ quota_warning last.

(** ** Sample inputs *)

Module Samples.

(** A decoder that rejects every text. *)
Definition no_json (_ : string) : pyval + string := inr "Expecting value".

(** Sample payloads of the status command. *)
Definition payload_with (enabled : bool) (uploading downloading : pyval)
  : gmap string pyval :=
  {[ "Sync" := PDict {[ "Enabled" := PBool enabled ]};
     "State" := PDict {[ "Uploading" := uploading;
                         "Downloading" := downloading ]} ]}.

Definition one_transfer : pyval :=
  PDict {[ "/home/u/a.txt" := PDict ∅ ]}.

(** A payload that reports [used] of [total] bytes. *)
Definition payload_quota (used total : Z) : pyval :=
  PDict {[ "User" :=
             PDict {[ "AccountInfo" :=
                        PDict {[ "Usage" := PInt used;
                                 "Capacity" := PInt total ]} ]} ]}.

(** A monitor whose quota cache holds 95 of 100 bytes, read at [t]. *)
Definition monitor_cached (t : datetime) : Monitor.StatusMonitor :=
  Monitor.set_quota (PInt 95, PInt 100) t (Monitor.__init__ CLI.default_cli).

(** The status command fails because the daemon refuses the connection. *)
Definition refused : CLI.proc_outcome :=
  CLI.ProcCompleted
    {| CLI.returncode := 1;
       CLI.stdout := "";
       CLI.stderr := "Error: dial unix: connect: connection refused" |}.

Definition offline_input : Monitor.cycle_input :=
  {| Monitor.proc := refused;
     Monitor.now_quota := 1000;
     Monitor.now_status := 2000;
     Monitor.stop_requested := false |}.

(** A subscriber that returns, and one that raises. *)
Definition listener (name : string) : callback :=
  {| cb_name := name; cb_call := fun _ => None |}.

Definition failing_listener (name : string) : callback :=
  {| cb_name := name;
     cb_call := fun _ => Some (Exn RuntimeError "listener failed") |}.

(** The monitor with 95 of 100 bytes cached and two subscribers, the
    first of which raises. *)
Definition monitor_subscribed : Monitor.StatusMonitor :=
  Monitor.set_running true
    (Monitor.set_callbacks [failing_listener "first"; listener "second"]
       (monitor_cached 0)).

(** The snapshot that [offline_input] yields on [monitor_subscribed]. *)
Definition offline_status : SyncStatus :=
  {| state := "offline";
     used_bytes := PInt 95;
     total_bytes := PInt 100;
     local_files := PInt 0;
     remote_files := PInt 0;
     uploading_count := 0;
     downloading_count := 0;
     last_update := 2000;
     quota_warning := false |}.

(** An earlier offline snapshot with other byte figures and time. *)
Definition earlier_status : SyncStatus :=
  {| state := "offline";
     used_bytes := PInt 1;
     total_bytes := PInt 2;
     local_files := PInt 0;
     remote_files := PInt 0;
     uploading_count := 0;
     downloading_count := 0;
     last_update := 500;
     quota_warning := false |}.

(** A file system with the bundled template and a home directory. *)
Definition disk : Autostart.filesystem :=
  {| Autostart.files :=
       {[ ["opt"; "jotta_tray"; "jotta-tray.desktop"] := "[Desktop Entry]" ]};
     Autostart.dirs :=
       {[ ["opt"]; ["opt"; "jotta_tray"]; ["home"]; ["home"; "u"] ]} |}.

(** A platform that lets every call through, and one that refuses to
    create directories. *)
Definition permissive : Autostart.platform :=
  {| Autostart.module_dir := ["opt"; "jotta_tray"];
     Autostart.home := Ok ["home"; "u"];
     Autostart.mkdir_refused := None;
     Autostart.copy_refused := None;
     Autostart.unlink_refused := None |}.

Definition read_only : Autostart.platform :=
  {| Autostart.module_dir := ["opt"; "jotta_tray"];
     Autostart.home := Ok ["home"; "u"];
     Autostart.mkdir_refused :=
       Some (Exn PermissionError "[Errno 13] Permission denied");
     Autostart.copy_refused := None;
     Autostart.unlink_refused := None |}.

End Samples.

(** ** Further observations *)

(** The test by which [run_status] recognises an unreachable daemon in
    the error text of a failed command. *)
Definition reports_offline (p : CLI.CompletedProcess) : bool :=
  contains "connection refused" (lower (strip (CLI.stderr p)))
  || contains "not running" (lower (strip (CLI.stderr p))).

(** Whether a text has a line feed. *)
Fixpoint has_newline (s : string) : bool :=
  match s with
  | String c s' => Ascii.eqb c "010"%char || has_newline s'
  | EmptyString => false
  end.

(** What [subprocess.run] can do with the command line of the gateway:
    complete, fail to find the executable, or run into the timeout. *)
Definition subprocess_outcome (o : CLI.proc_outcome) : Prop :=
  match o with
  | CLI.ProcCompleted _ => True
  | CLI.ProcRaised e =>
      exn_class_of e = FileNotFoundError \/ exn_class_of e = TimeoutExpired
  end.

(** The autostart directory and file below the home directory [h]. *)
Definition autostart_dir_of (h : list string) : list string :=
  h ++ [".config"; "autostart"].

Definition autostart_file_of (h : list string) : list string :=
  h ++ [".config"; "autostart"; "jotta-tray.desktop"].

(** The bundled template below the module directory [d]. *)
Definition template_of (d : list string) : list string :=
  d ++ ["jotta-tray.desktop"].

(** A platform that refuses no call. *)
Definition refuses_nothing (sys : Autostart.platform) : Prop :=
  Autostart.mkdir_refused sys = None
  /\ Autostart.copy_refused sys = None
  /\ Autostart.unlink_refused sys = None.

(** ** utils.py, the other formatters *)

Module UtilsMore.

Import Utils.

(** [format_quota(used, total)]. *)
Definition format_quota (used total : Z) : result (string * float) :=
  if total =? 0 then Ok ("Unknown quota", FFin 0)
  else
    ratio ← PyVal.truediv (PInt used) (PInt total);
    let percentage := fmul ratio (FFin 100) in
    used_str ← format_bytes used default_decimal_places;
    total_str ← format_bytes total default_decimal_places;
    Ok (used_str +:+ " / " +:+ total_str
          +:+ " (" +:+ format_float percentage 0 +:+ "%)",
        percentage).

(** [a < b] on floats. *)
Definition flt (a b : float) : bool :=
  match a, b with
  | FNan, _ | _, FNan => false
  | _, _ => negb (fge a b)
  end.

Definition speed_units : list string := ["B/s"; "KB/s"; "MB/s"; "GB/s"].

(** The [while] loop of [format_transfer_speed]; each pass increments
    [unit_index], so [length speed_units] passes suffice as fuel. *)
Fixpoint speed_loop (fuel : nat) (value : float) (unit_index : nat)
  : result (float * nat) :=
  match fuel with
  | O => Ok (value, unit_index)
  | S fuel' =>
      if fge value (FFin 1024)
         && (unit_index <? length speed_units - 1)%nat
      then
        value' ← fdiv value (FFin 1024);
        speed_loop fuel' value' (S unit_index)
      else Ok (value, unit_index)
  end.

(** [format_transfer_speed(bytes_per_second, decimal_places)] for a
    [float] argument. *)
Definition format_transfer_speed (bytes_per_second : float)
    (decimal_places : Z) : result string :=
  if flt bytes_per_second (FFin 0) then Ok "0 B/s"
  else
    '(value, unit_index) ← speed_loop (length speed_units) bytes_per_second 0%nat;
    let unit := nth unit_index speed_units "" in
    if Nat.eqb unit_index 0 then
      match value with
      | FFin q => Ok (str_int (trunc q) +:+ " " +:+ unit)
      | FInf _ =>
          Raise (Exn OverflowError "cannot convert float infinity to integer")
      | FNan => Raise (Exn ValueError "cannot convert float NaN to integer")
      end
    else if decimal_places <? 0 then
      Raise (Exn ValueError "Format specifier missing precision")
    else Ok (format_float value (Z.to_nat decimal_places) +:+ " " +:+ unit).

End UtilsMore.

(** ** tray_widget.py, the handlers that call the gateway *)

Module Tray.

Import CLI.

(** The [logger] calls of the handlers below. *)
Inductive tray_log :=
  | ResumeRequested
  | PauseRequested
  | PauseResumeFailed (e : exn)
  | OpenedLogFile (path : string)
  | GetLogFileFailed (e : exn).

(** What a handler does, in order: what the gateway does, its own log
    lines, an error dialog, a URL handed to [webbrowser.open]. *)
Inductive ui_event :=
  | Gateway (ev : event)
  | TrayLog (level : log_level) (msg : tray_log)
  | Dialog (title text : string)
  | OpenUrl (url : string).

(** The fields of a [TrayWidget] that the handlers read. *)
Record TrayWidget := {
  cli : CLIInterface;
  _current_state : string;
  _current_status : option SyncStatus;
}.

(** [ICON_STATES]. *)
Definition ICON_STATES : gmap string string :=
  {[ "idle" := "jotta-idle";
     "syncing" := "jotta-syncing";
     "paused" := "jotta-paused";
     "error" := "jotta-error";
     "offline" := "jotta-offline" ]}.

(** [_get_icon_name(state)]. *)
Definition _get_icon_name (st : string) : string :=
  default "jotta-idle" (ICON_STATES !! st).

(** The label that [_update_pause_resume_item(status)] sets. *)
Definition _update_pause_resume_item (status : SyncStatus) : string :=
  if String.eqb (state status) "paused" then "Resume Backup"
  else "Pause Backup".

(** [_show_error_dialog(title, message)]. *)
Definition _show_error_dialog (title message : string) : list ui_event :=
  [Dialog title message].

(** [_on_pause_resume(menuitem)]; [o] is what [subprocess.run] does with
    the command that the handler issues. A [SyncStatus] is always true as
    a condition, so the test is on its presence and its state. *)
Definition _on_pause_resume (self : TrayWidget) (o : proc_outcome)
  : list ui_event * result unit :=
  let paused :=
    match _current_status self with
    | Some status => String.eqb (state status) "paused"
    | None => false
    end in
  let '(tr, r) :=
    if paused then
      let '(tr, r) := run_resume (cli self) o in
      match r with
      | Ok _ => (map Gateway tr ++ [TrayLog INFO ResumeRequested], Ok tt)
      | Raise e => (map Gateway tr, Raise e)
      end
    else
      let '(tr, r) := run_pause (cli self) o in
      match r with
      | Ok _ => (map Gateway tr ++ [TrayLog INFO PauseRequested], Ok tt)
      | Raise e => (map Gateway tr, Raise e)
      end in
  match r with
  | Ok _ => (tr, Ok tt)
  | Raise e =>
      if isinstance e JottaCLIError then
        (tr ++ TrayLog ERROR (PauseResumeFailed e)
            :: _show_error_dialog "Action Failed" (exn_str e), Ok tt)
      else (tr, Raise e)
  end.


(** The command lines that a trace shows the gateway running. *)
Fixpoint commands_run (tr : list ui_event) : list (list string) :=
  match tr with
  | [] => []
  | Gateway (Log DEBUG (RunningCommand cmd)) :: tr' => cmd :: commands_run tr'
  | _ :: tr' => commands_run tr'
  end.

(** The dialogs that a trace shows. *)
Fixpoint dialogs (tr : list ui_event) : list (string * string) :=
  match tr with
  | [] => []
  | Dialog title text :: tr' => (title, text) :: dialogs tr'
  | _ :: tr' => dialogs tr'
  end.


End Tray.

(** ** Further sample data *)

Module MoreSamples.

(** A decoder that reads every text as [v]. *)
Definition decodes_to (v : pyval) (_ : string) : pyval + string := inl v.

(** A payload with one upload in flight and 95 of 100 bytes used. *)
Definition syncing_payload : pyval :=
  PDict (<[ "User" :=
              PDict {[ "AccountInfo" :=
                         PDict {[ "Usage" := PInt 95;
                                  "Capacity" := PInt 100 ]} ]} ]>
           (Samples.payload_with true Samples.one_transfer (PDict ∅))).

(** The status command exits with code 0 and prints [text]. *)
Definition printed (text : string) : CLI.CompletedProcess :=
  {| CLI.returncode := 0; CLI.stdout := text; CLI.stderr := "" |}.

(** The process of [Samples.refused]. *)
Definition refused_process : CLI.CompletedProcess :=
  {| CLI.returncode := 1;
     CLI.stdout := "";
     CLI.stderr := "Error: dial unix: connect: connection refused" |}.

(** The executable is missing; the command runs into its timeout. *)
Definition missing : CLI.proc_outcome :=
  CLI.ProcRaised
    (Exn FileNotFoundError "[Errno 2] No such file or directory: 'jotta-cli'").

Definition timed_out : CLI.proc_outcome :=
  CLI.ProcRaised (Exn TimeoutExpired "Command timed out after 10 seconds").

(** A pass in which the daemon answers, and one during which [stop()]
    arrives. *)
Definition live_input : Monitor.cycle_input :=
  {| Monitor.proc := CLI.ProcCompleted (printed "{}");
     Monitor.now_quota := 1000;
     Monitor.now_status := 2000;
     Monitor.stop_requested := false |}.

Definition stopping_input : Monitor.cycle_input :=
  {| Monitor.proc := Samples.refused;
     Monitor.now_quota := 3000;
     Monitor.now_status := 4000;
     Monitor.stop_requested := true |}.

Definition timeout_input : Monitor.cycle_input :=
  {| Monitor.proc := timed_out;
     Monitor.now_quota := 1000;
     Monitor.now_status := 2000;
     Monitor.stop_requested := false |}.

(** The snapshot that [live_input] yields with [syncing_payload] on a
    fresh monitor. *)
Definition syncing_status : SyncStatus :=
  {| state := "syncing";
     used_bytes := PInt 95;
     total_bytes := PInt 100;
     local_files := PInt 0;
     remote_files := PInt 0;
     uploading_count := 1;
     downloading_count := 0;
     last_update := 2000;
     quota_warning := true |}.

(** The disk of [Samples.disk] after a successful installation. *)
Definition disk_installed : Autostart.filesystem :=
  (Autostart.install_autostart Samples.permissive Samples.disk).2.

(** A platform that refuses to remove files. *)
Definition sticky : Autostart.platform :=
  {| Autostart.module_dir := ["opt"; "jotta_tray"];
     Autostart.home := Ok ["home"; "u"];
     Autostart.mkdir_refused := None;
     Autostart.copy_refused := None;
     Autostart.unlink_refused :=
       Some (Exn PermissionError "[Errno 13] Permission denied") |}.

(** A disk without the bundled template. *)
Definition bare_disk : Autostart.filesystem :=
  {| Autostart.files := ∅;
     Autostart.dirs := {[ ["opt"]; ["home"]; ["home"; "u"] ]} |}.

(** A tray that shows a paused snapshot, and one that has shown none. *)
Definition paused_status : SyncStatus :=
  {| state := "paused";
     used_bytes := PInt 95;
     total_bytes := PInt 100;
     local_files := PInt 0;
     remote_files := PInt 0;
     uploading_count := 0;
     downloading_count := 0;
     last_update := 2000;
     quota_warning := true |}.

Definition tray_paused : Tray.TrayWidget :=
  {| Tray.cli := CLI.default_cli;
     Tray._current_state := "paused";
     Tray._current_status := Some paused_status |}.


(** The [logfile] command prints a path, followed by a line feed. *)
Definition logfile_printed : CLI.proc_outcome :=
  CLI.ProcCompleted
    {| CLI.returncode := 0;
       CLI.stdout := "/home/u/.jottad/jottabackup.log" +:+ PyStr.newline;
       CLI.stderr := "" |}.

End MoreSamples.

(** * Properties *)

(** ** The exception hierarchy *)

Section Hierarchy.

(** Every modelled exception is an [Exception]: an [except Exception]
    clause catches it. *)
Lemma isinstance_Exception (e : exn) : isinstance e Exception = true.
Proof. destruct e as [[] ?]; reflexivity. Qed.

(** [TimeoutExpired] has no subclass here, and is not a [FileNotFoundError]. *)
Lemma isinstance_TimeoutExpired (e : exn) :
  isinstance e TimeoutExpired = true ->
  exn_class_of e = TimeoutExpired /\ isinstance e FileNotFoundError = false.
Proof. destruct e as [[] ?]; cbn; intros H; try discriminate H; auto. Qed.

Lemma isinstance_DaemonOfflineError (e : exn) :
  isinstance e DaemonOfflineError = true ->
  exn_class_of e = DaemonOfflineError.
Proof. destruct e as [[] ?]; cbn; intros H; try discriminate H; auto. Qed.

Lemma isinstance_FileNotFoundError (e : exn) :
  isinstance e FileNotFoundError = true ->
  exn_class_of e = FileNotFoundError.
Proof. destruct e as [[] ?]; cbn; intros H; try discriminate H; auto. Qed.

End Hierarchy.

(** ** The CLI gateway *)

Section GatewayProperties.

Import CLI.

Variable json_loads : string -> pyval + string.
Variable self : CLIInterface.

Lemma _run_command_timeout args t e :
  isinstance e TimeoutExpired = true ->
  _run_command self args t (ProcRaised e)
  = ([Log DEBUG (RunningCommand (cli_path self :: args));
      Log ERROR (CommandTimedOut (default (timeout self) t)
                   (cli_path self :: args))],
     Raise e).
Proof.
  intros H. destruct (isinstance_TimeoutExpired e H) as [_ Hnf].
  unfold _run_command. rewrite Hnf, H. reflexivity.
Qed.

Lemma _run_command_not_found args t e :
  isinstance e FileNotFoundError = true ->
  (_run_command self args t (ProcRaised e)).2
  = Raise (Exn CLINotFoundError ("jotta-cli not found at: " +:+ cli_path self)).
Proof. intros H. unfold _run_command. rewrite H. reflexivity. Qed.

(** C3 (as amended). When the external process outlives its timeout,
    every command of the gateway returns control to the caller by raising
    [JottaCLIError] -- the class that also reports a generic command
    failure -- with a text that names the timeout. There is no separate
    timeout class at the gateway's boundary. *)
Theorem gateway_timeout_raises_JottaCLIError (path_exists : string -> bool)
    (e : exn) :
  isinstance e TimeoutExpired = true ->
  (run_status json_loads self (ProcRaised e)).2
    = Raise (Exn JottaCLIError
               "Status command timed out - daemon may be unresponsive")
  /\ (run_pause self (ProcRaised e)).2
    = Raise (Exn JottaCLIError "Pause command timed out")
  /\ (run_resume self (ProcRaised e)).2
    = Raise (Exn JottaCLIError "Resume command timed out")
  /\ (get_logfile_path self path_exists (ProcRaised e)).2
    = Raise (Exn JottaCLIError "Logfile command timed out").
Proof.
  intros H.
  unfold run_status, run_pause, run_resume, get_logfile_path.
  rewrite !_run_command_timeout by assumption.
  unfold on_timeout. rewrite H. repeat split.
Qed.

(** The probe never lets [CLINotFoundError] through: it answers [False]. *)
Lemma check_available_not_found (e : exn) :
  isinstance e FileNotFoundError = true ->
  check_available json_loads self (ProcRaised e)
  = ([Log DEBUG (RunningCommand [cli_path self; "status"; "--json"])],
     Ok false).
Proof.
  intros H. unfold check_available, run_status, _run_command.
  rewrite H. reflexivity.
Qed.

End GatewayProperties.

(** A timeout at a concrete gateway. *)
Lemma gateway_timeout_witness :
  let e := Exn TimeoutExpired "Command timed out after 5 seconds" in
  let jl := fun _ : string => inr "Expecting value" : pyval + string in
  (CLI.run_status jl CLI.default_cli (CLI.ProcRaised e)).2
    = Raise (Exn JottaCLIError
               "Status command timed out - daemon may be unresponsive")
  /\ (CLI.run_pause CLI.default_cli (CLI.ProcRaised e)).2
    = Raise (Exn JottaCLIError "Pause command timed out")
  /\ (CLI.run_resume CLI.default_cli (CLI.ProcRaised e)).2
    = Raise (Exn JottaCLIError "Resume command timed out")
  /\ (CLI.get_logfile_path CLI.default_cli (fun _ => true) (CLI.ProcRaised e)).2
    = Raise (Exn JottaCLIError "Logfile command timed out").
Proof.
  intros e jl.
  apply (gateway_timeout_raises_JottaCLIError jl CLI.default_cli
           (fun _ => true) e).
  reflexivity.
Defined.

(** C3 (as stated) fails: the exception that the caller of [run_status]
    sees after a timeout is not a [TimeoutExpired], and it has the very
    class of the exception raised for a command that exits with an error. *)
Lemma gateway_timeout_counterexample :
  let jl := fun _ : string => inr "Expecting value" : pyval + string in
  let timed_out :=
    (CLI.run_status jl CLI.default_cli
       (CLI.ProcRaised (Exn TimeoutExpired "Command timed out after 5 seconds"))).2 in
  let failed :=
    (CLI.run_status jl CLI.default_cli
       (CLI.ProcCompleted
          {| CLI.returncode := 1; CLI.stdout := ""; CLI.stderr := "boom" |})).2 in
  timed_out = Raise (Exn JottaCLIError
                       "Status command timed out - daemon may be unresponsive")
  /\ failed = Raise (Exn JottaCLIError "jotta-cli status failed: boom")
  /\ isinstance (Exn JottaCLIError
                   "Status command timed out - daemon may be unresponsive")
       TimeoutExpired = false.
Proof. vm_compute. repeat split. Qed.

(** ** Application start *)

(** C1 (the code departs from it). With the executable missing,
    [subprocess.run] raises [FileNotFoundError]; [check_available] turns the
    resulting [CLINotFoundError] into [False], so the [except
    CLINotFoundError] clause of [start] is never entered: no dialog is
    shown, the process does not exit, and the GTK main loop is entered. *)
Theorem start_with_missing_cli_is_not_fatal
    (json_loads : string -> pyval + string) (self : App.JottaTrayApp)
    (msg : string) (initial : option SyncStatus) :
  let run := App.start json_loads self
               (CLI.ProcRaised (Exn FileNotFoundError msg)) initial in
  run.1.2 = Ok None
  /\ exits run.1.1 = false
  /\ shows_dialog run.1.1 = false
  /\ last run.1.1 = Some GtkMain.
Proof.
  intros run. subst run. unfold App.start.
  rewrite check_available_not_found by reflexivity.
  cbn [negb]. unfold Monitor.add_callback, Monitor.start.
  destruct (Monitor._running _), initial; cbn; repeat split.
Qed.

(** ** State derivation *)

Section StateDerivation.

Import Monitor Utils.

Lemma dict_len_pos (m : gmap string pyval) :
  m ≠ ∅ -> (0 <? PyVal.dict_len m) = true.
Proof.
  intros H. apply Z.ltb_lt. unfold PyVal.dict_len.
  assert (size m ≠ 0%nat) by (intros Hs; apply H, map_size_empty_iff, Hs).
  lia.
Qed.

Lemma dict_len_empty : PyVal.dict_len (∅ : gmap string pyval) = 0.
Proof. reflexivity. Qed.

(** [parse_sync_state] of a [dict] answers ["syncing"] or ["idle"]. *)
Lemma parse_sync_state_dict (st : gmap string pyval) :
  parse_sync_state (PDict st) = Ok "syncing"
  \/ parse_sync_state (PDict st) = Ok "idle".
Proof.
  unfold parse_sync_state. cbn.
  destruct (match default (PDict ∅) (st !! "Uploading") with
            | PDict m => 0 <? PyVal.dict_len m | _ => false end
            || match default (PDict ∅) (st !! "Downloading") with
               | PDict m => 0 <? PyVal.dict_len m | _ => false end); auto.
Qed.

Lemma parse_sync_state_not_paused (v : pyval) :
  parse_sync_state v ≠ Ok "paused".
Proof.
  destruct v; try (cbn; discriminate).
  destruct (parse_sync_state_dict m) as [-> | ->]; discriminate.
Qed.

(** C4. For a decoded payload with a [Sync] section: [Enabled = false]
    gives [paused] whatever the [State] section holds; [Enabled = true]
    with a non-empty [Uploading] or [Downloading] map gives [syncing];
    [Enabled = true] with both maps empty gives [idle]. *)
Theorem determine_state_derivation (p s : gmap string pyval) :
  p !! "Sync" = Some (PDict s) ->
  (s !! "Enabled" = Some (PBool false) ->
   _determine_state (PDict p) = Ok "paused")
  /\ (forall st key transfers,
        s !! "Enabled" = Some (PBool true) ->
        p !! "State" = Some (PDict st) ->
        key = "Uploading" \/ key = "Downloading" ->
        st !! key = Some (PDict transfers) ->
        transfers ≠ ∅ ->
        _determine_state (PDict p) = Ok "syncing")
  /\ (forall st,
        s !! "Enabled" = Some (PBool true) ->
        p !! "State" = Some (PDict st) ->
        st !! "Uploading" = Some (PDict ∅) ->
        st !! "Downloading" = Some (PDict ∅) ->
        _determine_state (PDict p) = Ok "idle").
Proof.
  intros Hs. unfold _determine_state. cbn. rewrite Hs. cbn.
  repeat split.
  - intros ->. reflexivity.
  - intros st key tr -> Hst Hkey Hk Hne. cbn. rewrite Hst. cbn.
    unfold parse_sync_state. cbn.
    destruct Hkey as [-> | ->]; rewrite Hk; cbn;
      rewrite (dict_len_pos _ Hne); cbn; [reflexivity |].
    destruct (match default (PDict ∅) (st !! "Uploading") with
              | PDict m => 0 <? PyVal.dict_len m | _ => false end);
      reflexivity.
  - intros st -> Hst Hu Hd. cbn. rewrite Hst. cbn.
    unfold parse_sync_state. cbn. rewrite Hu, Hd. reflexivity.
Qed.

(** C9. Without a [Sync] section, or without [Enabled] in it, the
    derivation is the one of an enabled sync -- the state is read from the
    [State] section -- and is never [paused]. *)
Theorem determine_state_missing_enabled (p : gmap string pyval) :
  (p !! "Sync" = None
   \/ exists s, p !! "Sync" = Some (PDict s) /\ s !! "Enabled" = None) ->
  _determine_state (PDict p)
    = parse_sync_state (default (PDict ∅) (p !! "State"))
  /\ _determine_state (PDict p) ≠ Ok "paused".
Proof.
  intros H.
  assert (E : _determine_state (PDict p)
              = parse_sync_state (default (PDict ∅) (p !! "State"))).
  { unfold _determine_state. cbn.
    destruct H as [-> | (s & -> & Hs)]; cbn; [| rewrite Hs]; reflexivity. }
  split; [exact E |].
  rewrite E. apply parse_sync_state_not_paused.
Qed.

End StateDerivation.

(** The three derivations at sample payloads. *)
Lemma determine_state_derivation_witness :
  Monitor._determine_state
    (PDict (Samples.payload_with false Samples.one_transfer (PDict ∅)))
    = Ok "paused"
  /\ Monitor._determine_state
       (PDict (Samples.payload_with true (PDict ∅) Samples.one_transfer))
     = Ok "syncing"
  /\ Monitor._determine_state
       (PDict (Samples.payload_with true (PDict ∅) (PDict ∅)))
     = Ok "idle".
Proof.
  split; [| split].
  - apply (determine_state_derivation
             (Samples.payload_with false Samples.one_transfer (PDict ∅))
             {[ "Enabled" := PBool false ]}); reflexivity.
  - refine (proj1 (proj2 (determine_state_derivation
             (Samples.payload_with true (PDict ∅) Samples.one_transfer)
             {[ "Enabled" := PBool true ]} eq_refl))
             {[ "Uploading" := PDict ∅; "Downloading" := Samples.one_transfer ]}
             "Downloading" {[ "/home/u/a.txt" := PDict ∅ ]}
             eq_refl eq_refl (or_intror eq_refl) eq_refl _).
    intros H. apply (f_equal size) in H. vm_compute in H. discriminate H.
  - refine (proj2 (proj2 (determine_state_derivation
             (Samples.payload_with true (PDict ∅) (PDict ∅))
             {[ "Enabled" := PBool true ]} eq_refl))
             {[ "Uploading" := PDict ∅; "Downloading" := PDict ∅ ]}
             eq_refl eq_refl eq_refl eq_refl).
Defined.

(** A payload without a [Sync] section, and one whose [Sync] section has
    no [Enabled] entry. *)
Lemma determine_state_missing_enabled_witness :
  Monitor._determine_state
    (PDict {[ "State" := PDict {[ "Uploading" := Samples.one_transfer ]} ]})
    ≠ Ok "paused"
  /\ Monitor._determine_state
       (PDict {[ "Sync" := PDict {[ "Count" := PDict ∅ ]} ]})
     ≠ Ok "paused".
Proof.
  split.
  - apply (determine_state_missing_enabled
             {[ "State" := PDict {[ "Uploading" := Samples.one_transfer ]} ]}).
    left. reflexivity.
  - apply (determine_state_missing_enabled
             {[ "Sync" := PDict {[ "Count" := PDict ∅ ]} ]}).
    right. exists {[ "Count" := PDict ∅ ]}. split; reflexivity.
Defined.

(** ** The quota cache *)

Section QuotaCache.

Import Monitor.

(** C6. Two resolutions in a row, the second within the TTL of the cache
    time stamp left by the first: the second returns the pair of the first,
    whatever its payload says, and leaves the monitor as it is. A
    resolution with no cache, or with a cache at least [QUOTA_CACHE_TTL]
    seconds old, returns the figures of the payload and stores them with
    the current time. *)
Theorem quota_cache_ttl (m : StatusMonitor) (p1 p2 : pyval) (t1 t2 : datetime) :
  (forall tr q m1,
     _get_quota p1 t1 m = (tr, Ok q, m1) ->
     t2 - _last_quota_check m1 < timedelta_seconds QUOTA_CACHE_TTL ->
     _get_quota p2 t2 m1 = ([], Ok q, m1))
  /\ (forall used total,
        _cached_quota m = None
        \/ timedelta_seconds QUOTA_CACHE_TTL <= t1 - _last_quota_check m ->
        read_quota p1 = Ok (used, total) ->
        _get_quota p1 t1 m
          = ([Log DEBUG (QuotaUpdated used total)], Ok (used, total),
             set_quota (used, total) t1 m)
        /\ _cached_quota (set_quota (used, total) t1 m) = Some (used, total)
        /\ _last_quota_check (set_quota (used, total) t1 m) = t1).
Proof.
  split.
  - intros tr q m1 H1 Hfresh.
    assert (Hc : _cached_quota m1 = Some q).
    { unfold _get_quota in H1.
      destruct (_cached_quota m) as [c |] eqn:Ec.
      - destruct (t1 - _last_quota_check m <? timedelta_seconds QUOTA_CACHE_TTL).
        + injection H1 as _ <- <-. exact Ec.
        + destruct (read_quota p1) as [[u t] | e];
            [injection H1 as _ <- <-; reflexivity | discriminate H1].
      - destruct (read_quota p1) as [[u t] | e];
          [injection H1 as _ <- <-; reflexivity | discriminate H1]. }
    unfold _get_quota. rewrite Hc.
    apply Z.ltb_lt in Hfresh. rewrite Hfresh. reflexivity.
  - intros used total Hstale Hread. split; [| split; reflexivity].
    unfold _get_quota. rewrite Hread.
    destruct Hstale as [-> | Hold]; [reflexivity |].
    destruct (_cached_quota m); [| reflexivity].
    apply Z.ltb_ge in Hold. rewrite Hold. reflexivity.
Qed.

End QuotaCache.

(** The cache at work: a first resolution at [t = 1 s] without a cache
    stores [(10, 100)]; a second one at [t = 200 s] with a payload that now
    says [(20, 100)] still answers [(10, 100)]; a third one at [t = 301 s]
    reads the payload again. *)
Lemma quota_cache_ttl_witness :
  let m0 := Monitor.__init__ CLI.default_cli in
  let m1 := Monitor.set_quota (PInt 10, PInt 100) 1000000 m0 in
  Monitor._get_quota (Samples.payload_quota 20 100) 200000000 m1
    = ([], Ok (PInt 10, PInt 100), m1)
  /\ Monitor._get_quota (Samples.payload_quota 20 100) 301000000 m1
     = ([Log DEBUG (QuotaUpdated (PInt 20) (PInt 100))],
        Ok (PInt 20, PInt 100),
        Monitor.set_quota (PInt 20, PInt 100) 301000000 m1).
Proof.
  intros m0 m1. split.
  - apply (proj1 (quota_cache_ttl m0 (Samples.payload_quota 10 100)
                    (Samples.payload_quota 20 100) 1000000 200000000)
             [Log DEBUG (QuotaUpdated (PInt 10) (PInt 100))]).
    + reflexivity.
    + reflexivity.
  - apply (proj2 (quota_cache_ttl m1 (Samples.payload_quota 20 100)
                    (Samples.payload_quota 20 100) 301000000 0)).
    + right. unfold timedelta_seconds, Monitor.QUOTA_CACHE_TTL. cbn. lia.
    + reflexivity.
Defined.

(** ** The offline snapshot *)

Section Offline.

Import Monitor CLI.

Variable json_loads : string -> pyval + string.

(** C2 (as amended). When the status query raises [DaemonOfflineError]
    the snapshot has state [offline], the cached quota pair as used and
    total bytes (0 and 0 without a cache), the four counts at zero, and
    [quota_warning] false -- the flag is not computed from the pair. The
    monitor itself is left unchanged. *)
Theorem offline_snapshot (inp : cycle_input) (m : StatusMonitor)
    (tr : list event) (e : exn) :
  run_status json_loads (cli m) (proc inp) = (tr, Raise e) ->
  isinstance e DaemonOfflineError = true ->
  _fetch_status json_loads inp m
  = (tr ++ [Log WARNING DaemonOffline],
     Ok {| state := "offline";
           used_bytes := (default (PInt 0, PInt 0) (_cached_quota m)).1;
           total_bytes := (default (PInt 0, PInt 0) (_cached_quota m)).2;
           local_files := PInt 0;
           remote_files := PInt 0;
           uploading_count := 0;
           downloading_count := 0;
           last_update := now_status inp;
           quota_warning := false |},
     m).
Proof.
  intros Hrun He. unfold _fetch_status, fetch_live. rewrite Hrun, He.
  unfold fetch_offline.
  destruct (default (PInt 0, PInt 0) (_cached_quota m)) as [used total].
  reflexivity.
Qed.

End Offline.

(** A refused connection with 95 of 100 bytes in the cache. *)
Lemma offline_snapshot_witness :
  Monitor._fetch_status Samples.no_json Samples.offline_input
    (Samples.monitor_cached 0)
  = ([Log DEBUG (RunningCommand ["jotta-cli"; "status"; "--json"]);
      Log WARNING DaemonOffline],
     Ok {| state := "offline";
           used_bytes := PInt 95;
           total_bytes := PInt 100;
           local_files := PInt 0;
           remote_files := PInt 0;
           uploading_count := 0;
           downloading_count := 0;
           last_update := 2000;
           quota_warning := false |},
     Samples.monitor_cached 0).
Proof.
  apply (offline_snapshot Samples.no_json Samples.offline_input
           (Samples.monitor_cached 0)
           [Log DEBUG (RunningCommand ["jotta-cli"; "status"; "--json"])]
           (Exn DaemonOfflineError "Jotta daemon is not running")).
  - reflexivity.
  - reflexivity.
Defined.

(** C2 (as stated) fails: with 95 of 100 bytes cached the offline snapshot
    carries [quota_warning = False], while the flag computed from the pair
    against the 90% threshold is [True]. *)
Lemma offline_quota_warning_counterexample :
  (Monitor._fetch_status Samples.no_json Samples.offline_input
     (Samples.monitor_cached 0)).1.2
  = Ok {| state := "offline";
          used_bytes := PInt 95;
          total_bytes := PInt 100;
          local_files := PInt 0;
          remote_files := PInt 0;
          uploading_count := 0;
          downloading_count := 0;
          last_update := 2000;
          quota_warning := false |}
  /\ Utils.detect_quota_warning (PInt 95) (PInt 100)
       Utils.default_threshold_percent = Ok true.
Proof. split; vm_compute; reflexivity. Qed.

(** ** The polling loop *)

Section PollingLoop.

Import Monitor CLI.

Variable json_loads : string -> pyval + string.

Lemma invocations_app (a b : list event) :
  invocations (a ++ b) = invocations a ++ invocations b.
Proof.
  induction a as [| ev a IH]; [reflexivity |].
  destruct ev; cbn; rewrite IH; reflexivity.
Qed.

Lemma sleeps_app (a b : list event) : sleeps (a ++ b) = sleeps a ++ sleeps b.
Proof.
  induction a as [| ev a IH]; [reflexivity |].
  destruct ev; cbn; rewrite IH; reflexivity.
Qed.

Lemma quiet_app (a b : list event) : quiet a -> quiet b -> quiet (a ++ b).
Proof.
  intros [Ha1 Ha2] [Hb1 Hb2]. split.
  - rewrite invocations_app, Ha1, Hb1. reflexivity.
  - rewrite sleeps_app, Ha2, Hb2. reflexivity.
Qed.

Lemma run_status_quiet (c : CLIInterface) (o : proc_outcome) :
  quiet (run_status json_loads c o).1.
Proof.
  unfold run_status, on_timeout, _run_command.
  destruct o as [e | p].
  - destruct (isinstance e FileNotFoundError); cbn; [split; reflexivity |].
    destruct (isinstance e TimeoutExpired) eqn:Ht; cbn; rewrite ?Ht;
      split; reflexivity.
  - destruct (negb (returncode p =? 0)).
    + destruct (contains "connection refused" (lower (strip (stderr p)))
                || contains "not running" (lower (strip (stderr p))));
        split; reflexivity.
    + destruct (json_loads (stdout p)); split; reflexivity.
Qed.

(** [_get_quota] writes the cache and its time stamp, nothing else. *)
Lemma _get_quota_frame (p : pyval) (t : datetime) (m : StatusMonitor) :
  let '(tr, _, m') := _get_quota p t m in
  quiet tr
  /\ _last_status m' = _last_status m
  /\ _callbacks m' = _callbacks m
  /\ _running m' = _running m.
Proof.
  unfold _get_quota.
  destruct (_cached_quota m);
    [destruct (t - _last_quota_check m <? timedelta_seconds QUOTA_CACHE_TTL) |];
    try destruct (read_quota p) as [[u tot] | e];
    repeat split.
Qed.

(** [_fetch_status] calls no subscriber, does not sleep, and leaves the
    stored snapshot, the subscribers and the running flag alone. *)
Lemma _fetch_status_frame (inp : cycle_input) (m : StatusMonitor) :
  let '(tr, _, m') := _fetch_status json_loads inp m in
  quiet tr
  /\ _last_status m' = _last_status m
  /\ _callbacks m' = _callbacks m
  /\ _running m' = _running m.
Proof.
  unfold _fetch_status.
  assert (L : let '(tr, _, m') := fetch_live json_loads inp m in
              quiet tr /\ _last_status m' = _last_status m
              /\ _callbacks m' = _callbacks m /\ _running m' = _running m).
  { unfold fetch_live.
    pose proof (run_status_quiet (cli m) (proc inp)) as Hq.
    destruct (run_status json_loads (cli m) (proc inp)) as [tr [v | e]];
      cbn in Hq; [| auto].
    destruct (_determine_state v) as [st | e]; [| auto].
    pose proof (_get_quota_frame v (now_quota inp) m) as Hg.
    destruct (_get_quota v (now_quota inp) m) as [[tq [[u t] | e]] m'];
      destruct Hg as (Hq' & ? & ? & ?); repeat split; auto;
        apply quiet_app; assumption. }
  destruct (fetch_live json_loads inp m) as [[tr [s | e]] m'];
    [exact L |].
  destruct L as (Hq & H1 & H2 & H3).
  destruct (isinstance e DaemonOfflineError); [| auto].
  unfold fetch_offline.
  destruct (default (PInt 0, PInt 0) (_cached_quota m')).
  split; [apply quiet_app; [exact Hq | split; reflexivity] | auto].
Qed.

(** The fan-out reaches every subscriber, in order, with the same
    snapshot; no exception leaves it. *)
Lemma notify_all (cbs : list callback) (status : SyncStatus) :
  (notify cbs status).2 = Ok tt
  /\ invocations (notify cbs status).1
     = map (fun cb => (cb_name cb, status)) cbs
  /\ sleeps (notify cbs status).1 = [].
Proof.
  induction cbs as [| cb cbs (IH1 & IH2 & IH3)]; [repeat split |].
  cbn [notify].
  destruct (cb_call cb status) as [e |].
  - rewrite isinstance_Exception.
    destruct (notify cbs status) as [tr r]. cbn in *.
    rewrite IH2. auto.
  - destruct (notify cbs status) as [tr r]. cbn in *.
    rewrite IH2. auto.
Qed.

(** An exception of a subscriber is logged. *)
Lemma notify_logs (cbs : list callback) (status : SyncStatus)
    (cb : callback) (e : exn) :
  cb ∈ cbs -> cb_call cb status = Some e ->
  Log ERROR (CallbackError (cb_name cb) e) ∈ (notify cbs status).1.
Proof.
  intros Hin Hcall.
  induction cbs as [| c cbs IH]; [inversion Hin |].
  cbn [notify].
  apply elem_of_cons in Hin as [<- | Hin].
  - rewrite Hcall, isinstance_Exception.
    destruct (notify cbs status). cbn. set_solver.
  - specialize (IH Hin).
    destruct (cb_call c status) as [e' |];
      rewrite ?isinstance_Exception;
      destruct (notify cbs status); cbn in *; set_solver.
Qed.

Lemma _adjust_interval_frame (st : string) (m : StatusMonitor) :
  let '(tr, m') := _adjust_interval st m in
  quiet tr
  /\ _last_status m' = _last_status m
  /\ _running m' = _running m.
Proof.
  unfold _adjust_interval.
  destruct (negb (_ =? _current_interval m)); repeat split.
Qed.

Lemma _has_changed_differs (status : SyncStatus) (m : StatusMonitor) :
  _has_changed status m = true
  <-> match _last_status m with
      | None => True
      | Some last => differs status last
      end.
Proof.
  unfold _has_changed, differs.
  destruct (_last_status m) as [last |]; [| tauto].
  rewrite !orb_true_iff, !negb_true_iff.
  rewrite String.eqb_neq, !Z.eqb_neq, eqb_false_iff. tauto.
Qed.

Lemma _has_changed_frame (status : SyncStatus) (m m' : StatusMonitor) :
  _last_status m' = _last_status m ->
  _has_changed status m' = _has_changed status m.
Proof. unfold _has_changed. intros ->. reflexivity. Qed.

(** What one pass does once [_fetch_status] has produced a snapshot. *)
Lemma cycle_with_snapshot (inp : cycle_input) (m m1 : StatusMonitor)
    (tr0 : list event) (status : SyncStatus) :
  _fetch_status json_loads inp m = (tr0, Ok status, m1) ->
  let run := cycle json_loads inp m in
  run.1.2 = Ok tt
  /\ _last_status run.2 = Some status
  /\ invocations run.1.1
     = (if _has_changed status m
        then map (fun cb => (cb_name cb, status)) (_callbacks m)
        else []).
Proof.
  intros Hf. pose proof (_fetch_status_frame inp m) as Hfr.
  rewrite Hf in Hfr. destruct Hfr as ([Hq _] & Hl & Hc & _).
  unfold cycle, cycle_body. rewrite Hf.
  rewrite (_has_changed_frame status m m1 Hl).
  destruct (_has_changed status m).
  - cbn [_callbacks set_last_status]. rewrite Hc.
    destruct (notify_all (_callbacks m) status) as (Hn1 & Hn2 & _).
    destruct (notify (_callbacks m) status) as [trc rc]. cbn in Hn1, Hn2.
    subst rc.
    pose proof (_adjust_interval_frame (state status)
                  (set_last_status status m1)) as Ha.
    destruct (_adjust_interval (state status) (set_last_status status m1))
      as [tri m3].
    destruct Ha as ([Hqi _] & Hls & _). cbn.
    repeat split; [exact Hls |].
    rewrite !invocations_app. cbn. rewrite !invocations_app, Hq, Hn2, Hqi.
    cbn. rewrite ?app_nil_r. reflexivity.
  - pose proof (_adjust_interval_frame (state status)
                  (set_last_status status m1)) as Ha.
    destruct (_adjust_interval (state status) (set_last_status status m1))
      as [tri m3].
    destruct Ha as ([Hqi _] & Hls & _). cbn.
    repeat split; [exact Hls |].
    rewrite !invocations_app, Hq, Hqi. reflexivity.
Qed.

(** C5. In a pass that produces a snapshot, the snapshot counts as changed
    exactly when there is no previous one or one of [state],
    [uploading_count], [downloading_count], [quota_warning] differs from
    it; the subscribers are called, each once and in the order of the list
    that [add_callback] appends to, when it counts as changed and none is
    called otherwise; either way the snapshot becomes the stored last
    status. *)
Theorem poll_cycle_change_detection (inp : cycle_input)
    (m m1 : StatusMonitor) (tr0 : list event) (status : SyncStatus) :
  _fetch_status json_loads inp m = (tr0, Ok status, m1) ->
  let changed :=
    match _last_status m with
    | None => True
    | Some last => differs status last
    end in
  let run := cycle json_loads inp m in
  (changed ->
   invocations run.1.1 = map (fun cb => (cb_name cb, status)) (_callbacks m))
  /\ (~ changed -> invocations run.1.1 = [])
  /\ _last_status run.2 = Some status
  /\ (forall cb, _callbacks (add_callback cb m).2 = _callbacks m ++ [cb]).
Proof.
  intros Hf changed run.
  destruct (cycle_with_snapshot inp m m1 tr0 status Hf) as (_ & Hl & Hi).
  fold run in Hl, Hi.
  pose proof (_has_changed_differs status m) as Hd. fold changed in Hd.
  split; [| split; [| split; [exact Hl | reflexivity]]].
  - intros Hc. apply Hd in Hc. rewrite Hi, Hc. reflexivity.
  - intros Hn. rewrite Hi.
    destruct (_has_changed status m); [| reflexivity].
    exfalso. apply Hn, Hd. reflexivity.
Qed.

End PollingLoop.

(** A first offline pass notifies both subscribers; a pass after a
    snapshot that differs in the byte figures only notifies nobody; both
    store the new snapshot. *)
Lemma poll_cycle_change_detection_witness :
  let first := Monitor.cycle Samples.no_json Samples.offline_input
                 Samples.monitor_subscribed in
  let again := Monitor.cycle Samples.no_json Samples.offline_input
                 (Monitor.set_last_status Samples.earlier_status
                    Samples.monitor_subscribed) in
  invocations first.1.1
    = [("first", Samples.offline_status); ("second", Samples.offline_status)]
  /\ Monitor._last_status first.2 = Some Samples.offline_status
  /\ invocations again.1.1 = []
  /\ Monitor._last_status again.2 = Some Samples.offline_status.
Proof.
  intros first again.
  pose proof (poll_cycle_change_detection Samples.no_json
                Samples.offline_input Samples.monitor_subscribed
                Samples.monitor_subscribed
                [Log DEBUG (RunningCommand ["jotta-cli"; "status"; "--json"]);
                 Log WARNING DaemonOffline]
                Samples.offline_status eq_refl) as (H1 & _ & H3 & _).
  pose proof (poll_cycle_change_detection Samples.no_json
                Samples.offline_input
                (Monitor.set_last_status Samples.earlier_status
                   Samples.monitor_subscribed)
                (Monitor.set_last_status Samples.earlier_status
                   Samples.monitor_subscribed)
                [Log DEBUG (RunningCommand ["jotta-cli"; "status"; "--json"]);
                 Log WARNING DaemonOffline]
                Samples.offline_status eq_refl) as (_ & H2 & H4 & _).
  split; [exact (H1 I) | split; [exact H3 | split; [| exact H4]]].
  apply H2. intros [H | [H | [H | H]]]; apply H; reflexivity.
Defined.

Section Isolation.

Import Monitor CLI.

Variable json_loads : string -> pyval + string.

(** One pass ends by sleeping once; no exception leaves it and the
    running flag is as before. *)
Lemma cycle_continues (inp : cycle_input) (m : StatusMonitor) :
  let run := cycle json_loads inp m in
  run.1.2 = Ok tt
  /\ _running run.2 = _running m
  /\ length (sleeps run.1.1) = 1%nat.
Proof.
  unfold cycle, cycle_body.
  pose proof (_fetch_status_frame json_loads inp m) as Hfr.
  destruct (_fetch_status json_loads inp m) as [[tr0 [status | e]] m1];
    destruct Hfr as ([_ Hs] & _ & Hc & Hr).
  - destruct (_has_changed status m1).
    + destruct (notify_all (_callbacks (set_last_status status m1)) status)
        as (Hn1 & _ & Hn3).
      destruct (notify (_callbacks (set_last_status status m1)) status)
        as [trc rc].
      cbn in Hn1, Hn3. subst rc.
      pose proof (_adjust_interval_frame (state status)
                    (set_last_status status m1)) as Ha.
      destruct (_adjust_interval (state status) (set_last_status status m1))
        as [tri m3].
      destruct Ha as ([_ Hsi] & _ & Hr3). cbn.
      repeat split; [rewrite Hr3; exact Hr |].
      rewrite !sleeps_app. cbn. rewrite !sleeps_app, Hs, Hn3, Hsi.
      reflexivity.
    + pose proof (_adjust_interval_frame (state status)
                    (set_last_status status m1)) as Ha.
      destruct (_adjust_interval (state status) (set_last_status status m1))
        as [tri m3].
      destruct Ha as ([_ Hsi] & _ & Hr3). cbn.
      repeat split; [rewrite Hr3; exact Hr |].
      rewrite !sleeps_app, Hs, Hsi. reflexivity.
  - rewrite isinstance_Exception. cbn.
    repeat split; [exact Hr |].
    rewrite sleeps_app, Hs. reflexivity.
Qed.

(** While nobody calls [stop()], every pass is followed by the next. *)
Lemma loop_continues (inputs : list cycle_input) (m : StatusMonitor) :
  _running m = true ->
  Forall (fun inp => stop_requested inp = false) inputs ->
  let run := loop_from json_loads inputs m in
  run.1.2 = Ok tt
  /\ _running run.2 = true
  /\ length (sleeps run.1.1) = length inputs.
Proof.
  revert m. induction inputs as [| inp inputs IH]; intros m Hr Hall.
  - repeat split. exact Hr.
  - apply Forall_cons in Hall as [Hstop Hall].
    cbn [loop_from]. rewrite Hr.
    destruct (cycle_continues inp m) as (H1 & H2 & H3).
    destruct (cycle json_loads inp m) as [[tr r] m']. cbn in H1, H2, H3.
    subst r. rewrite Hstop.
    assert (Hr' : _running m' = true) by (rewrite H2; exact Hr).
    destruct (IH m' Hr' Hall) as (I1 & I2 & I3).
    destruct (loop_from json_loads inputs m') as [[tr' r'] m_end].
    cbn in *. repeat split; [exact I1 | exact I2 |].
    rewrite sleeps_app, length_app, H3, I3. reflexivity.
Qed.

(** C7. In every fan-out each subscriber is called, in registration
    order and with the same snapshot, whether or not an earlier one raised;
    what a subscriber raises is logged and does not leave the fan-out; the
    pass that contains the fan-out ends normally with the running flag
    unchanged, and as long as [stop()] is not called every pass is followed
    by another. *)
Theorem subscriber_exceptions_are_isolated (cbs : list callback)
    (status : SyncStatus) (inputs : list cycle_input) (m : StatusMonitor) :
  ((notify cbs status).2 = Ok tt
   /\ invocations (notify cbs status).1
      = map (fun cb => (cb_name cb, status)) cbs
   /\ forall cb e,
        cb ∈ cbs -> cb_call cb status = Some e ->
        Log ERROR (CallbackError (cb_name cb) e) ∈ (notify cbs status).1)
  /\ (forall inp,
        (cycle json_loads inp m).1.2 = Ok tt
        /\ _running (cycle json_loads inp m).2 = _running m)
  /\ (_running m = true ->
      Forall (fun inp => stop_requested inp = false) inputs ->
      (loop_from json_loads inputs m).1.2 = Ok tt
      /\ _running (loop_from json_loads inputs m).2 = true
      /\ length (sleeps (loop_from json_loads inputs m).1.1) = length inputs).
Proof.
  split; [| split].
  - destruct (notify_all cbs status) as (H1 & H2 & _).
    split; [exact H1 | split; [exact H2 |]].
    intros cb e. apply notify_logs.
  - intros inp. destruct (cycle_continues inp m) as (H1 & H2 & _). auto.
  - apply loop_continues.
Qed.

End Isolation.

(** Two subscribers, the first of which raises, over three passes. *)
Lemma subscriber_exceptions_are_isolated_witness :
  let cbs := [Samples.failing_listener "first"; Samples.listener "second"] in
  let inputs := [Samples.offline_input; Samples.offline_input;
                 Samples.offline_input] in
  let run := Monitor.loop_from Samples.no_json inputs
               Samples.monitor_subscribed in
  invocations (Monitor.notify cbs Samples.offline_status).1
    = [("first", Samples.offline_status); ("second", Samples.offline_status)]
  /\ Log ERROR (CallbackError "first" (Exn RuntimeError "listener failed"))
       ∈ (Monitor.notify cbs Samples.offline_status).1
  /\ run.1.2 = Ok tt
  /\ Monitor._running run.2 = true
  /\ length (sleeps run.1.1) = 3%nat.
Proof.
  intros cbs inputs run.
  destruct (subscriber_exceptions_are_isolated Samples.no_json cbs
              Samples.offline_status inputs Samples.monitor_subscribed)
    as ((_ & H2 & H3) & _ & H5).
  split; [exact H2 | split].
  - apply (H3 (Samples.failing_listener "first")).
    + left.
    + reflexivity.
  - apply H5.
    + reflexivity.
    + repeat constructor.
Defined.

(** ** Autostart *)

Section AutostartProperties.

Import Autostart.

Variable sys : platform.

(** Whatever the [try] block of [install_autostart] raises, a clause
    answers [(False, message)]. *)
Lemma install_clauses_answer (e : exn) (fs : filesystem) :
  exists l msg,
    handle install_clauses e fs = ([Log ERROR l], Ok (false, msg), fs).
Proof.
  unfold install_clauses. cbn [handle].
  destruct (isinstance e AutostartError); [cbn; eauto |].
  destruct (isinstance e PermissionError); [cbn; eauto |].
  rewrite isinstance_Exception. cbn. eauto.
Qed.

Lemma uninstall_clauses_answer (e : exn) (fs : filesystem) :
  exists l msg,
    handle uninstall_clauses e fs = ([Log ERROR l], Ok (false, msg), fs).
Proof.
  unfold uninstall_clauses. cbn [handle].
  destruct (isinstance e PermissionError); [cbn; eauto |].
  rewrite isinstance_Exception. cbn. eauto.
Qed.

(** C10. [install_autostart] and [uninstall_autostart] always return a
    pair: what their [try] block returns, or, when the block raises -- a
    [PermissionError] or anything else -- [(False, message)] with the file
    system as the block left it. When the home directory is known and the
    autostart file is absent, [uninstall_autostart] answers
    [(True, "Autostart is already disabled.")] and the file system is
    unchanged. *)
Theorem autostart_never_raises (fs : filesystem) :
  (exists tr p fs', install_autostart sys fs = (tr, Ok p, fs'))
  /\ (exists tr p fs', uninstall_autostart sys fs = (tr, Ok p, fs'))
  /\ (forall tr e fs',
        install_body sys fs = (tr, Raise e, fs') ->
        exists l msg,
          install_autostart sys fs
          = (tr ++ [Log ERROR l], Ok (false, msg), fs'))
  /\ (forall tr e fs',
        uninstall_body sys fs = (tr, Raise e, fs') ->
        exists l msg,
          uninstall_autostart sys fs
          = (tr ++ [Log ERROR l], Ok (false, msg), fs'))
  /\ (forall h,
        home sys = Ok h ->
        let dest := h ++ [".config"; "autostart"; "jotta-tray.desktop"] in
        files fs !! dest = None -> dest ∉ dirs fs ->
        uninstall_autostart sys fs
        = ([Log WARNING (AutostartFileNotFound (path_str dest))],
           Ok (true, "Autostart is already disabled."), fs)).
Proof.
  assert (Hi : forall tr e fs',
             install_body sys fs = (tr, Raise e, fs') ->
             exists l msg,
               install_autostart sys fs
               = (tr ++ [Log ERROR l], Ok (false, msg), fs')).
  { intros tr e fs' Hb. unfold install_autostart, try_except. rewrite Hb.
    destruct (install_clauses_answer e fs') as (l & msg & ->). eauto. }
  assert (Hu : forall tr e fs',
             uninstall_body sys fs = (tr, Raise e, fs') ->
             exists l msg,
               uninstall_autostart sys fs
               = (tr ++ [Log ERROR l], Ok (false, msg), fs')).
  { intros tr e fs' Hb. unfold uninstall_autostart, try_except. rewrite Hb.
    destruct (uninstall_clauses_answer e fs') as (l & msg & ->). eauto. }
  split; [| split; [| split; [exact Hi | split; [exact Hu |]]]].
  - destruct (install_body sys fs) as [[tr [p | e]] fs'] eqn:Hb.
    + unfold install_autostart, try_except. rewrite Hb. eauto.
    + destruct (Hi tr e fs' eq_refl) as (l & msg & ->). eauto.
  - destruct (uninstall_body sys fs) as [[tr [p | e]] fs'] eqn:Hb.
    + unfold uninstall_autostart, try_except. rewrite Hb. eauto.
    + destruct (Hu tr e fs' eq_refl) as (l & msg & ->). eauto.
  - intros h Hh dest Hf Hd.
    unfold uninstall_autostart, try_except, uninstall_body,
      get_autostart_file_path, get_autostart_dir, io_bind, io_lift, io_ret,
      exists_, io_log.
    rewrite Hh. cbn.
    replace (((h ++ [".config"]) ++ ["autostart"]) ++ ["jotta-tray.desktop"])
      with dest by (unfold dest; rewrite <- !app_assoc; reflexivity).
    rewrite Hf.
    rewrite (bool_decide_eq_false_2 (is_Some None)) by (intros [? ?]; discriminate).
    rewrite (bool_decide_eq_false_2 _ Hd). reflexivity.
Qed.

End AutostartProperties.

(** Removing an autostart file that is not there, and installing on a
    platform that refuses to create the directory. *)
Lemma autostart_never_raises_witness :
  Autostart.uninstall_autostart Samples.permissive Samples.disk
  = ([Log WARNING
        (AutostartFileNotFound "/home/u/.config/autostart/jotta-tray.desktop")],
     Ok (true, "Autostart is already disabled."), Samples.disk)
  /\ exists l msg,
       Autostart.install_autostart Samples.read_only Samples.disk
       = ([Log ERROR l], Ok (false, msg), Samples.disk).
Proof.
  split.
  - apply (proj2 (proj2 (proj2 (proj2
             (autostart_never_raises Samples.permissive Samples.disk))))
             ["home"; "u"]).
    + reflexivity.
    + reflexivity.
    + apply (bool_decide_eq_false_1
               (["home"; "u"; ".config"; "autostart"; "jotta-tray.desktop"]
                  ∈ Autostart.dirs Samples.disk)).
      vm_compute. reflexivity.
  - apply (proj1 (proj2 (proj2
             (autostart_never_raises Samples.read_only Samples.disk)))
             [] (Exn PermissionError "[Errno 13] Permission denied")).
    reflexivity.
Defined.

(** ** Binary64 rounding *)

Section Rounding.

Lemma two_neq_0 : ~ (2 == 0)%Q.
Proof. discriminate. Qed.

Lemma pow2_pos (e : Z) : (0 < pow2 e)%Q.
Proof. apply Qpower_0_lt. reflexivity. Qed.

Lemma pow2_add (a b : Z) : (pow2 (a + b) == pow2 a * pow2 b)%Q.
Proof. apply Qpower_plus, two_neq_0. Qed.

Lemma pow2_le (a b : Z) : a <= b -> (pow2 a <= pow2 b)%Q.
Proof. intros H. apply Qpower_le_compat_l; [exact H | discriminate]. Qed.

Lemma pow2_lt (a b : Z) : a < b -> (pow2 a < pow2 b)%Q.
Proof. intros H. apply Qpower_lt_compat_l; [exact H | reflexivity]. Qed.

Lemma pow2_lt_inv (a b : Z) : (pow2 a < pow2 b)%Q -> a < b.
Proof. intros H. apply (Qpower_lt_compat_l_inv 2); [exact H | reflexivity]. Qed.

Lemma pow2_Z (e : Z) : 0 <= e -> (pow2 e == inject_Z (2 ^ e))%Q.
Proof. intros H. unfold pow2. rewrite Zpower_Qpower by exact H. reflexivity. Qed.

(** A rational times its denominator is its numerator. *)
Lemma Q_fraction (x : Q) :
  (x * inject_Z (Zpos (Qden x)) == inject_Z (Qnum x))%Q.
Proof.
  destruct x as [n d]. unfold Qeq, inject_Z. cbn.
  rewrite Pos.mul_1_r. ring.
Qed.

Lemma Z_log2_bounds (p : Z) :
  0 < p ->
  (pow2 (Z.log2 p) <= inject_Z p)%Q /\ (inject_Z p < pow2 (Z.log2 p + 1))%Q.
Proof.
  intros Hp. pose proof (Z.log2_spec p Hp) as [H1 H2].
  pose proof (Z.log2_nonneg p) as H0.
  rewrite !pow2_Z by lia. rewrite <- Zle_Qle, <- Zlt_Qlt.
  replace (Z.log2 p + 1) with (Z.succ (Z.log2 p)) by lia. auto.
Qed.

(** [ilog2 x] is the binary exponent of [x]. *)
Lemma ilog2_spec (x : Q) :
  (0 < x)%Q -> (pow2 (ilog2 x) <= x)%Q /\ (x < pow2 (ilog2 x + 1))%Q.
Proof.
  intros Hx.
  assert (Hn : 0 < Qnum x).
  { destruct x as [n d]. unfold Qlt in Hx. cbn [Qnum Qden] in Hx.
    cbn [Qnum]. lia. }
  set (q := Zpos (Qden x)).
  assert (Hq : (0 < inject_Z q)%Q) by reflexivity.
  destruct (Z_log2_bounds (Qnum x) Hn) as [Ha1 Ha2].
  destruct (Z_log2_bounds q eq_refl) as [Hb1 Hb2].
  pose proof (Q_fraction x) as Hf. fold q in Hf.
  set (a := Z.log2 (Qnum x)) in *. set (b := Z.log2 q) in *.
  assert (Hlo : (pow2 (a - b - 1) < x)%Q).
  { apply (Qmult_lt_r _ _ (inject_Z q) Hq). rewrite Hf.
    apply Qlt_le_trans with (pow2 (a - b - 1) * pow2 (b + 1))%Q.
    - apply Qmult_lt_l; [apply pow2_pos | exact Hb2].
    - rewrite <- pow2_add. replace (a - b - 1 + (b + 1)) with a by lia.
      exact Ha1. }
  assert (Hhi : (x < pow2 (a - b + 1))%Q).
  { apply (Qmult_lt_r _ _ (inject_Z q) Hq). rewrite Hf.
    apply Qlt_le_trans with (pow2 (a - b + 1) * pow2 b)%Q.
    - rewrite <- pow2_add. replace (a - b + 1 + b) with (a + 1) by lia.
      exact Ha2.
    - apply Qmult_le_l; [apply pow2_pos | exact Hb1]. }
  unfold ilog2. fold q a b.
  destruct (Qle_bool (pow2 (a - b)) x) eqn:E.
  - apply Qle_bool_iff in E. split; assumption.
  - assert (Hlt : (x < pow2 (a - b))%Q).
    { apply Qnot_le_lt. intros Hle. apply Qle_bool_iff in Hle. congruence. }
    replace (a - b - 1 + 1) with (a - b) by lia.
    split; [apply Qlt_le_weak; exact Hlo | exact Hlt].
Qed.

Lemma ilog2_unique (x : Q) (a : Z) :
  (pow2 a <= x)%Q -> (x < pow2 (a + 1))%Q -> ilog2 x = a.
Proof.
  intros H1 H2.
  assert (Hx : (0 < x)%Q) by (eapply Qlt_le_trans; [apply pow2_pos | exact H1]).
  destruct (ilog2_spec x Hx) as [I1 I2].
  assert (ilog2 x < a + 1)
    by (apply pow2_lt_inv; eapply Qle_lt_trans; [exact I1 | exact H2]).
  assert (a < ilog2 x + 1)
    by (apply pow2_lt_inv; eapply Qle_lt_trans; [exact H1 | exact I2]).
  lia.
Qed.

(** Rounding an integer-valued rational gives that integer. *)
Lemma rne_integer (x : Q) (m : Z) : (x == inject_Z m)%Q -> rne x = m.
Proof.
  intros H. unfold Qeq, inject_Z in H. cbn in H.
  unfold rne. replace (Qnum x) with (m * Zpos (Qden x)) by lia.
  rewrite Z.div_mul, Z.mod_mul by lia.
  reflexivity.
Qed.

Lemma Qnum_pos (x : Q) : (0 < x)%Q -> exists p, Qnum x = Zpos p.
Proof.
  destruct x as [[| p | p] d]; unfold Qlt; cbn [Qnum Qden]; intros H;
    try lia.
  exists p. reflexivity.
Qed.

Lemma representable_pos (x : Q) : representable x -> (0 < x)%Q.
Proof.
  intros (m & e & Hm & _ & _ & ->).
  apply Qmult_lt_0_compat; [| apply pow2_pos].
  unfold Qlt. cbn [Qnum Qden inject_Z]. lia.
Qed.

Lemma representable_Qeq (x y : Q) :
  (x == y)%Q -> representable x -> representable y.
Proof.
  intros H (m & e & Hm & He1 & He2 & Hx).
  exists m, e. rewrite <- H. auto.
Qed.

(** A representable number lies in the binade of its exponent. *)
Lemma representable_bounds (x : Q) (m e : Z) :
  2 ^ 52 <= m < 2 ^ 53 -> (x == inject_Z m * pow2 e)%Q ->
  (pow2 (e + 52) <= x)%Q /\ (x < pow2 (e + 53))%Q.
Proof.
  intros [Hm1 Hm2] ->.
  rewrite !(Z.add_comm e), !pow2_add, (pow2_Z 52), (pow2_Z 53) by lia.
  split.
  - apply Qmult_le_r; [apply pow2_pos |]. rewrite <- Zle_Qle. exact Hm1.
  - apply Qmult_lt_r; [apply pow2_pos |]. rewrite <- Zlt_Qlt. exact Hm2.
Qed.

(** Rounding leaves a representable number as it is. *)
Lemma round_pos_representable (x : Q) :
  representable x -> round_pos x = Some (Qred x).
Proof.
  intros (m & e & Hm & He1 & He2 & Hx).
  destruct (representable_bounds x m e Hm Hx) as [Hlo Hhi].
  unfold round_pos.
  rewrite (ilog2_unique x (e + 52)) by
    (try replace (e + 52 + 1) with (e + 53) by lia; assumption).
  replace (Z.max (e + 52 - (prec - 1)) emin) with e
    by (unfold prec in *; lia).
  assert (Hr : rne (x / pow2 e) = m).
  { apply rne_integer. rewrite Hx. apply Qdiv_mult_l.
    intros H0. pose proof (pow2_pos e) as Hp. rewrite H0 in Hp.
    discriminate Hp. }
  rewrite Hr.
  rewrite (Qred_complete (inject_Z m * pow2 e) x) by (symmetry; exact Hx).
  destruct (Qle_bool (pow2 emax) (Qred x)) eqn:E; [| reflexivity].
  exfalso. apply Qle_bool_iff in E. rewrite Qred_correct in E.
  apply (Qlt_irrefl x). eapply Qlt_le_trans; [exact Hhi |].
  eapply Qle_trans; [| exact E].
  apply pow2_le. unfold prec in *. lia.
Qed.

Lemma round_representable (x : Q) :
  representable x -> round x = Some (Qred x).
Proof.
  intros H. destruct (Qnum_pos x (representable_pos x H)) as [p Hp].
  unfold round. rewrite Hp. apply round_pos_representable, H.
Qed.

(** Integers below [2^53] are representable. *)
Lemma representable_small_int (n : Z) :
  0 < n < 2 ^ 53 -> representable (inject_Z n).
Proof.
  intros [Hn1 Hn2].
  pose proof (Z.log2_spec n Hn1) as [Hl1 Hl2].
  pose proof (Z.log2_nonneg n) as Hl0.
  assert (Hk : Z.log2 n < 53) by (apply Z.log2_lt_pow2; lia).
  set (k := Z.log2 n) in *.
  assert (Hs : 2 ^ k * 2 ^ (52 - k) = 2 ^ 52)
    by (rewrite <- Z.pow_add_r by lia; f_equal; lia).
  assert (Hs' : 2 ^ Z.succ k * 2 ^ (52 - k) = 2 ^ 53)
    by (rewrite <- Z.pow_add_r by lia; f_equal; lia).
  assert (Hp : 0 < 2 ^ (52 - k)) by (apply Z.pow_pos_nonneg; lia).
  exists (n * 2 ^ (52 - k)), (k - 52).
  split; [| split; [unfold emin; lia | split; [unfold prec, emax; lia |]]].
  - split.
    + rewrite <- Hs. apply Z.mul_le_mono_nonneg_r; lia.
    + rewrite <- Hs'. apply Z.mul_lt_mono_pos_r; lia.
  - rewrite inject_Z_mult, <- (pow2_Z (52 - k)) by lia.
    rewrite <- Qmult_assoc, <- pow2_add.
    replace (52 - k + (k - 52)) with 0 by lia.
    change (pow2 0) with 1%Q. ring.
Qed.

Lemma Qred_inject_Z (n : Z) : Qred (inject_Z n) = inject_Z n.
Proof.
  unfold Qred, inject_Z.
  pose proof (Z.ggcd_gcd n 1) as Hg.
  pose proof (Z.ggcd_correct_divisors n 1) as Hd.
  destruct (Z.ggcd n 1) as [g [a b]]. cbn in Hg, Hd.
  rewrite Z.gcd_1_r in Hg. subst g. destruct Hd as [Ha Hb].
  replace a with n by lia. replace b with 1 by lia. reflexivity.
Qed.

Lemma of_int_small (n : Z) :
  0 < n < 2 ^ 53 -> of_int n = Ok (FFin (inject_Z n)).
Proof.
  intros H. unfold of_int.
  rewrite (round_representable _ (representable_small_int n H)).
  rewrite Qred_inject_Z. reflexivity.
Qed.

(** Division by [1024.0] is exact on representable numbers from [1024.0]
    on. *)
Lemma fdiv_1024_exact (w : Q) :
  representable w -> (1024 <= w)%Q ->
  fdiv (FFin w) (FFin 1024) = Ok (FFin (Qred (w / 1024)))
  /\ representable (Qred (w / 1024)).
Proof.
  intros (m & e & Hm & He1 & He2 & Hw) Hge.
  destruct (representable_bounds w m e Hm Hw) as [_ Hhi].
  assert (He : -43 < e).
  { assert (10 < e + 53); [| lia].
    apply pow2_lt_inv. eapply Qle_lt_trans; [| exact Hhi]. exact Hge. }
  assert (Hrep : representable (w / 1024)).
  { exists m, (e - 10).
    split; [exact Hm | split; [unfold emin; lia | split; [lia |]]].
    rewrite Hw. unfold Qdiv. rewrite <- Qmult_assoc.
    apply Qmult_comp; [reflexivity |].
    replace e with ((e - 10) + 10) at 1 by lia.
    rewrite pow2_add. change (pow2 10) with 1024%Q. field. }
  split.
  - unfold fdiv. change (is_zero 1024) with false. cbn iota.
    unfold fround. rewrite (round_representable _ Hrep). reflexivity.
  - apply (representable_Qeq (w / 1024)); [| exact Hrep].
    symmetry. apply Qred_correct.
Qed.

End Rounding.

Section RoundingIntegers.

Lemma compare_scale (u v p : Z) : 0 < p -> (u * p ?= v * p) = (u ?= v).
Proof.
  intros Hp. destruct (Z.compare_spec u v) as [-> | H | H].
  - apply Z.compare_refl.
  - apply Z.compare_lt_iff. nia.
  - apply Z.compare_gt_iff. nia.
Qed.

(** [rne] depends on the value of its argument only. *)
Lemma rne_compat (x y : Q) : (x == y)%Q -> rne x = rne y.
Proof.
  destruct x as [a b], y as [c d]. unfold Qeq, rne. cbn [Qnum Qden].
  intros H.
  assert (Hq : a / Zpos b = c / Zpos d).
  { rewrite <- (Z.div_mul_cancel_r a (Zpos b) (Zpos d)) by lia.
    rewrite <- (Z.div_mul_cancel_r c (Zpos d) (Zpos b)) by lia.
    rewrite H. f_equal. lia. }
  assert (Hr : (2 * (a mod Zpos b) ?= Zpos b) = (2 * (c mod Zpos d) ?= Zpos d)).
  { rewrite <- (compare_scale _ _ (Zpos d)) by lia.
    rewrite <- (compare_scale (2 * (c mod Zpos d)) _ (Zpos b)) by lia.
    rewrite <- !Z.mul_assoc.
    rewrite <- (Z.mul_mod_distr_r a (Zpos b) (Zpos d)) by lia.
    rewrite <- (Z.mul_mod_distr_r c (Zpos d) (Zpos b)) by lia.
    rewrite H. rewrite (Z.mul_comm (Zpos d) (Zpos b)). reflexivity. }
  rewrite Hq, Hr. reflexivity.
Qed.

(** [rne] is the floor, or the floor plus one when the remainder reaches
    one half. *)
Lemma rne_floor_or_next (a : Z) (b : positive) :
  rne (a # b) = a / Zpos b
  \/ (rne (a # b) = a / Zpos b + 1 /\ Zpos b <= 2 * (a mod Zpos b)).
Proof.
  unfold rne. cbn [Qnum Qden].
  destruct (2 * (a mod Zpos b) ?= Zpos b) eqn:E.
  - apply Z.compare_eq in E.
    destruct (Z.even (a / Zpos b)); [left | right; split; [| lia]];
      reflexivity.
  - left. reflexivity.
  - right. split; [reflexivity |]. apply Z.compare_gt_iff in E. lia.
Qed.

Lemma inject_Z_div_pow2 (n e : Z) :
  0 <= e -> (inject_Z n / pow2 e == n # Z.to_pos (2 ^ e))%Q.
Proof.
  intros He. rewrite pow2_Z by exact He.
  assert (Hp : 0 < 2 ^ e) by (apply Z.pow_pos_nonneg; lia).
  unfold Qeq, Qdiv, Qmult, Qinv, inject_Z. cbn [Qnum Qden].
  destruct (2 ^ e) as [| p | p] eqn:E; try lia.
  cbn. lia.
Qed.

(** The significand that rounding an integer of at least 54 bits yields,
    and the exponent that goes with it. *)
Lemma round_large_int (n : Z) :
  2 ^ 53 <= n -> n < 2 ^ 1024 - 2 ^ 970 ->
  exists m e,
    round_pos (inject_Z n) = Some (Qred (inject_Z m * pow2 e))
    /\ 2 ^ 52 <= m <= 2 ^ 53 /\ 1 <= e <= 971
    /\ (e = 971 -> m < 2 ^ 53).
Proof.
  intros Hlo Hhi.
  assert (Hn : 0 < n) by (pose proof (Z.pow_pos_nonneg 2 53); lia).
  pose proof (Z.log2_spec n Hn) as [Hl1 Hl2].
  assert (Hk1 : 53 <= Z.log2 n) by (apply Z.log2_le_pow2; lia).
  assert (Hk2 : Z.log2 n < 1024).
  { apply Z.log2_lt_pow2; [lia |]. pose proof (Z.pow_pos_nonneg 2 970). lia. }
  set (k := Z.log2 n) in *. set (e := k - 52).
  assert (HE : 0 < 2 ^ e) by (apply Z.pow_pos_nonneg; lia).
  assert (Hs : 2 ^ 52 * 2 ^ e = 2 ^ k)
    by (rewrite <- Z.pow_add_r by lia; f_equal; lia).
  assert (Hs' : 2 ^ 53 * 2 ^ e = 2 ^ Z.succ k)
    by (rewrite <- Z.pow_add_r by lia; f_equal; lia).
  assert (Hq1 : 2 ^ 52 <= n / 2 ^ e)
    by (apply Z.div_le_lower_bound; lia).
  assert (Hq2 : n / 2 ^ e < 2 ^ 53)
    by (apply Z.div_lt_upper_bound; lia).
  assert (Hilog : ilog2 (inject_Z n) = k).
  { apply ilog2_unique; apply Z_log2_bounds; exact Hn. }
  assert (Hrne : rne (inject_Z n / pow2 e) = rne (n # Z.to_pos (2 ^ e)))
    by (apply rne_compat, inject_Z_div_pow2; lia).
  assert (Hpos : Zpos (Z.to_pos (2 ^ e)) = 2 ^ e) by (apply Z2Pos.id; lia).
  set (m := rne (n # Z.to_pos (2 ^ e))) in *.
  assert (Hm : 2 ^ 52 <= m <= 2 ^ 53 /\ (e = 971 -> m < 2 ^ 53)).
  { destruct (rne_floor_or_next n (Z.to_pos (2 ^ e))) as [Hf | [Hf Hhalf]];
      fold m in Hf; rewrite Hpos in *.
    - lia.
    - split; [lia |]. intros He971.
      pose proof (Z.div_mod n (2 ^ e) ltac:(lia)) as Hdm.
      assert (Ht : 2 ^ 1024 = 2 ^ 53 * 2 ^ e)
        by (rewrite He971, <- Z.pow_add_r by lia; reflexivity).
      assert (Hh : 2 * 2 ^ 970 = 2 ^ e)
        by (rewrite He971; change 2 with (2 ^ 1) at 1;
            rewrite <- Z.pow_add_r by lia; reflexivity).
      assert (n / 2 ^ e <> 2 ^ 53 - 1); [| lia].
      intros Heq. rewrite Heq in Hdm. rewrite Ht in Hhi.
      clear - Hdm Hhi Hh Hhalf.
      generalize dependent (2 ^ e). generalize dependent (2 ^ 970).
      generalize dependent (n mod 2 ^ e).
      intros. lia. }
  exists m, e.
  split; [| split; [tauto | split; [lia | tauto]]].
  unfold round_pos. rewrite Hilog.
  replace (Z.max (k - (prec - 1)) emin) with e
    by (unfold prec, emin, e; lia).
  rewrite Hrne.
  destruct (Qle_bool (pow2 emax) (Qred (inject_Z m * pow2 e))) eqn:E;
    [| reflexivity].
  exfalso. apply Qle_bool_iff in E. rewrite Qred_correct in E.
  apply (Qlt_irrefl (pow2 emax)). eapply Qle_lt_trans; [exact E |].
  destruct (Z.eq_dec e 971) as [He971 | Hne].
  - destruct Hm as [_ Hm]. specialize (Hm He971). rewrite He971.
    apply Qlt_le_trans with (inject_Z (2 ^ 53) * pow2 971)%Q.
    + apply Qmult_lt_r; [apply pow2_pos |]. rewrite <- Zlt_Qlt. exact Hm.
    + rewrite <- (pow2_Z 53), <- pow2_add by lia. apply pow2_le. unfold emax. lia.
  - apply Qle_lt_trans with (inject_Z (2 ^ 53) * pow2 e)%Q.
    + apply Qmult_le_r; [apply pow2_pos |]. rewrite <- Zle_Qle. lia.
    + rewrite <- (pow2_Z 53), <- pow2_add by lia. apply pow2_lt.
      unfold emax, e in *. lia.
Qed.

End RoundingIntegers.

(** ** Byte formatting *)

Section FormatBytes.

Import Utils.

(** [float(n)] for a positive integer in the range of the type: the value
    is representable, exact below [2^53] and at least [2^53] from there
    on. *)
Lemma of_int_positive (n : Z) :
  0 < n -> n < 2 ^ 1024 - 2 ^ 970 ->
  exists v,
    of_int n = Ok (FFin v) /\ representable v
    /\ (n < 2 ^ 53 -> v = inject_Z n)
    /\ (2 ^ 53 <= n -> (pow2 53 <= v)%Q).
Proof.
  intros Hn Hhi. destruct (Z_lt_le_dec n (2 ^ 53)) as [Hs | Hl].
  - exists (inject_Z n). rewrite of_int_small by lia.
    split; [reflexivity | split; [apply representable_small_int; lia |]].
    split; [reflexivity | lia].
  - destruct (round_large_int n Hl Hhi) as (m & e & Hr & Hm & He & Hm').
    set (v := Qred (inject_Z m * pow2 e)) in *.
    assert (Hv : (v == inject_Z m * pow2 e)%Q) by apply Qred_correct.
    exists v. unfold of_int, round.
    destruct n as [| p | p]; try lia. cbn [Qnum inject_Z].
    change (round_pos (Zpos p # 1)) with (round_pos (inject_Z (Zpos p))).
    rewrite Hr.
    split; [reflexivity | split; [| split; [lia |]]].
    + destruct (Z.eq_dec m (2 ^ 53)) as [Hm53 | Hne].
      * exists (2 ^ 52), (e + 1).
        split; [lia | split; [unfold emin; lia |]].
        split; [unfold prec, emax; lia |].
        rewrite Hv, Hm53, pow2_add.
        change (pow2 1) with 2%Q.
        change (2 ^ 53) with (2 ^ 52 * 2). rewrite inject_Z_mult.
        change (inject_Z 2) with 2%Q. ring.
      * exists m, e.
        split; [lia | split; [unfold emin; lia |]].
        split; [unfold prec, emax; lia | exact Hv].
    + intros _. rewrite Hv.
      apply Qle_trans with (inject_Z (2 ^ 52) * pow2 1)%Q.
      * rewrite <- (pow2_Z 52), <- pow2_add by lia. apply pow2_le. lia.
      * apply Qle_trans with (inject_Z m * pow2 1)%Q.
        -- apply Qmult_le_r; [apply pow2_pos |]. rewrite <- Zle_Qle. lia.
        -- apply Qmult_le_l.
           ++ unfold Qlt. cbn [Qnum Qden inject_Z].
              pose proof (Z.pow_pos_nonneg 2 52). lia.
           ++ apply pow2_le. lia.
Qed.

(** The loop of [format_bytes] on a representable value that needs [j]
    more divisions: it divides [j] times, exactly, and stops. *)
Lemma scale_loop_steps (j : nat) :
  forall (fuel : nat) (w : Q) (idx : nat),
    representable w ->
    (pow2 (10 * Z.of_nat j) <= w)%Q ->
    (w < pow2 (10 * (Z.of_nat j + 1)))%Q \/ (idx + j = 5)%nat ->
    (idx + j <= 5)%nat -> (j < fuel)%nat ->
    exists w',
      (w' == w / pow2 (10 * Z.of_nat j))%Q
      /\ scale_loop fuel (FFin w) idx = Ok (FFin w', (idx + j)%nat).
Proof.
  induction j as [| j IH]; intros fuel w idx Hrep Hlo Hstop Hidx Hfuel.
  - exists w. split.
    + change (pow2 (10 * Z.of_nat 0)) with 1%Q. field.
    + destruct fuel as [| fuel]; [lia |]. cbn [scale_loop].
      rewrite Nat.add_0_r.
      destruct Hstop as [Hlt | Heq].
      * assert (E : fge (FFin w) (FFin 1024) = false).
        { cbn [fge]. destruct (Qle_bool 1024 w) eqn:E; [| reflexivity].
          apply Qle_bool_iff in E. exfalso.
          apply (Qlt_irrefl w). eapply Qlt_le_trans; [exact Hlt | exact E]. }
        rewrite E. reflexivity.
      * rewrite Nat.add_0_r in Heq. subst idx.
        rewrite andb_false_r. reflexivity.
  - destruct fuel as [| fuel]; [lia |]. cbn [scale_loop].
    assert (Hge : (1024 <= w)%Q).
    { eapply Qle_trans; [| exact Hlo].
      change 1024%Q with (pow2 10). apply pow2_le. lia. }
    assert (E : fge (FFin w) (FFin 1024) = true)
      by (cbn [fge]; apply Qle_bool_iff; exact Hge).
    assert (E' : (idx <? length units - 1)%nat = true)
      by (apply Nat.ltb_lt; cbn; lia).
    rewrite E, E'. cbn [andb].
    destruct (fdiv_1024_exact w Hrep Hge) as [Hdiv Hrep'].
    rewrite Hdiv. cbn [mbind result_bind Py.bind].
    set (w1 := Qred (w / 1024)) in *.
    assert (Hw1 : (w1 == w / 1024)%Q) by apply Qred_correct.
    assert (Hsplit : forall t : Z,
               (pow2 (10 * (t + 1)) == pow2 (10 * t) * 1024)%Q).
    { intros t. replace (10 * (t + 1)) with (10 * t + 10) by lia.
      rewrite pow2_add. reflexivity. }
    destruct (IH fuel w1 (S idx) Hrep') as (w' & Hw' & Hloop).
    + rewrite Hw1. apply Qle_shift_div_l; [reflexivity |].
      rewrite <- Hsplit.
      replace (Z.of_nat j + 1) with (Z.of_nat (S j)) by lia. exact Hlo.
    + destruct Hstop as [Hlt | Heq]; [left | right; lia].
      rewrite Hw1. apply Qlt_shift_div_r; [reflexivity |].
      rewrite <- Hsplit.
      replace (Z.of_nat j + 1) with (Z.of_nat (S j)) by lia. exact Hlt.
    + lia.
    + lia.
    + exists w'. split.
      * rewrite Hw', Hw1.
        replace (Z.of_nat (S j)) with (Z.of_nat j + 1) by lia.
        rewrite Hsplit. field.
        intros H0. pose proof (pow2_pos (10 * Z.of_nat j)) as Hp.
        rewrite H0 in Hp. discriminate Hp.
      * rewrite Hloop. f_equal. f_equal. lia.
Qed.

End FormatBytes.

Section FormatBytesSpec.

Import Utils.

Lemma is_neg_compat (x y : Q) : (x == y)%Q -> is_neg x = is_neg y.
Proof.
  destruct x as [a b], y as [c d]. unfold Qeq, is_neg. cbn [Qnum Qden].
  intros H. destruct (Z.ltb_spec a 0), (Z.ltb_spec c 0); try reflexivity; nia.
Qed.

(** The rendering of a float depends on its value only. *)
Lemma format_fixed_compat (x y : Q) (d : nat) :
  (x == y)%Q -> format_fixed x d = format_fixed y d.
Proof.
  intros H. unfold format_fixed.
  rewrite (is_neg_compat x y H).
  rewrite (rne_compat (Qabs x * inject_Z (10 ^ Z.of_nat d))
             (Qabs y * inject_Z (10 ^ Z.of_nat d)))
    by (rewrite H; reflexivity).
  reflexivity.
Qed.

Lemma is_digit_digit_char (z : Z) :
  0 <= z < 10 -> is_digit (digit_char z) = true.
Proof.
  intros H.
  assert (E : z = 0 \/ z = 1 \/ z = 2 \/ z = 3 \/ z = 4 \/ z = 5 \/ z = 6
              \/ z = 7 \/ z = 8 \/ z = 9) by lia.
  repeat (destruct E as [-> | E]; [reflexivity |]). subst z. reflexivity.
Qed.

Lemma all_digits_pad (d : nat) :
  forall (r : Z) (acc : string),
    all_digits acc = true -> all_digits (pad_digits d r acc) = true.
Proof.
  induction d as [| d IH]; intros r acc H; [exact H |].
  cbn [pad_digits]. apply IH. cbn [all_digits].
  rewrite is_digit_digit_char by (apply Z.mod_pos_bound; lia). exact H.
Qed.

Lemma length_pad (d : nat) :
  forall (r : Z) (acc : string),
    String.length (pad_digits d r acc) = (d + String.length acc)%nat.
Proof.
  induction d as [| d IH]; intros r acc; [reflexivity |].
  cbn [pad_digits]. rewrite IH. cbn [String.length]. lia.
Qed.

Lemma all_digits_go (fuel : nat) :
  forall (n : Z) (acc : string),
    all_digits acc = true -> all_digits (digits_go fuel n acc) = true.
Proof.
  induction fuel as [| fuel IH]; intros n acc H; [exact H |].
  cbn [digits_go].
  assert (H' : all_digits (String (digit_char (n mod 10)) acc) = true).
  { cbn [all_digits].
    rewrite is_digit_digit_char by (apply Z.mod_pos_bound; lia). exact H. }
  destruct (n / 10 =? 0); [exact H' | apply IH, H'].
Qed.

Lemma all_digits_str_nonneg (n : Z) : all_digits (str_nonneg n) = true.
Proof. apply all_digits_go. reflexivity. Qed.

Lemma digit_char_value (z : Z) :
  0 <= z < 10 -> Z.of_nat (nat_of_ascii (digit_char z)) - 48 = z.
Proof.
  intros H.
  assert (E : z = 0 \/ z = 1 \/ z = 2 \/ z = 3 \/ z = 4 \/ z = 5 \/ z = 6
              \/ z = 7 \/ z = 8 \/ z = 9) by lia.
  repeat (destruct E as [-> | E]; [reflexivity |]). subst z. reflexivity.
Qed.

(** Reading back the digits that [digits_go] writes in front of [acc]
    gives the number, provided the fuel covers its digits. *)
Lemma int_of_digits_go (fuel : nat) :
  forall (n : Z) (acc : string),
    0 <= n < 2 ^ Z.of_nat fuel ->
    int_of_digits (digits_go fuel n acc) = int_of_digits_from n acc.
Proof.
  unfold int_of_digits.
  induction fuel as [| fuel IH]; intros n acc Hn.
  - cbn in Hn. replace n with 0 by lia. reflexivity.
  - cbn [digits_go].
    pose proof (Z.mod_pos_bound n 10 ltac:(lia)) as Hm.
    pose proof (Z.div_mod n 10 ltac:(lia)) as Hdm.
    destruct (Z.eqb_spec (n / 10) 0) as [E | E].
    + cbn [int_of_digits_from]. rewrite digit_char_value by exact Hm.
      f_equal. lia.
    + rewrite IH.
      * cbn [int_of_digits_from]. rewrite digit_char_value by exact Hm.
        f_equal. lia.
      * rewrite Nat2Z.inj_succ, Z.pow_succ_r in Hn by lia.
        split; [apply Z.div_pos; lia |].
        apply Z.div_lt_upper_bound; lia.
Qed.

(** [str_nonneg] prints its argument. *)
Lemma int_of_digits_str_nonneg (n : Z) :
  0 <= n -> int_of_digits (str_nonneg n) = n.
Proof.
  intros Hn. unfold str_nonneg. rewrite int_of_digits_go; [reflexivity |].
  split; [exact Hn |].
  rewrite Nat2Z.inj_succ, Z2Nat.id by apply Z.log2_nonneg.
  destruct (Z.eq_dec n 0) as [-> | Hne]; [reflexivity |].
  apply Z.log2_spec. lia.
Qed.

(** [pad_digits] prints the last [d] digits of its argument. *)
Lemma int_of_digits_pad (d : nat) :
  forall (r : Z) (acc : string),
    0 <= r ->
    int_of_digits (pad_digits d r acc)
    = int_of_digits_from (r mod 10 ^ Z.of_nat d) acc.
Proof.
  unfold int_of_digits.
  induction d as [| d IH]; intros r acc Hr.
  - cbn. rewrite Z.mod_1_r. reflexivity.
  - cbn [pad_digits]. rewrite IH by (apply Z.div_pos; lia).
    cbn [int_of_digits_from].
    rewrite digit_char_value by (apply Z.mod_pos_bound; lia).
    f_equal. rewrite Nat2Z.inj_succ, Z.pow_succ_r by lia.
    assert (Hp : 0 < 10 ^ Z.of_nat d) by (apply Z.pow_pos_nonneg; lia).
    rewrite (Z.rem_mul_r r 10 (10 ^ Z.of_nat d)) by lia. lia.
Qed.

Lemma rne_nonneg (x : Q) : (0 <= x)%Q -> 0 <= rne x.
Proof.
  destruct x as [a b]. unfold Qle. cbn [Qnum Qden]. intros Ha.
  assert (0 <= a / Zpos b) by (apply Z.div_pos; lia).
  destruct (rne_floor_or_next a b) as [-> | [-> _]]; lia.
Qed.

(** The shape of [f"{x:.{d}f}"] for [x > 0]: the digits of the integral
    part, and for [d > 0] a point and exactly [d] more digits; together
    they spell [x * 10^d] rounded to the nearest integer, ties to even. *)
Lemma format_fixed_shape (x : Q) (d : nat) :
  (0 < x)%Q ->
  exists ip fp,
    format_fixed x d
    = ip +:+ match d with O => "" | S _ => "." +:+ fp end
    /\ all_digits ip = true /\ all_digits fp = true
    /\ String.length fp = d
    /\ int_of_digits ip * 10 ^ Z.of_nat d + int_of_digits fp
       = rne (x * inject_Z (10 ^ Z.of_nat d)).
Proof.
  intros Hx. unfold format_fixed.
  assert (Hneg : is_neg x = false).
  { destruct (Qnum_pos x Hx) as [p Ep]. unfold is_neg. rewrite Ep.
    reflexivity. }
  rewrite Hneg.
  assert (Hp : 0 < 10 ^ Z.of_nat d) by (apply Z.pow_pos_nonneg; lia).
  rewrite (rne_compat (Qabs x * inject_Z (10 ^ Z.of_nat d))
             (x * inject_Z (10 ^ Z.of_nat d)))
    by (rewrite Qabs_pos by (apply Qlt_le_weak, Hx); reflexivity).
  set (scaled := rne (x * inject_Z (10 ^ Z.of_nat d))).
  assert (Hs : 0 <= scaled).
  { apply rne_nonneg. apply Qmult_le_0_compat; [apply Qlt_le_weak, Hx |].
    unfold Qle. cbn [Qnum Qden inject_Z]. lia. }
  exists (str_nonneg (scaled / 10 ^ Z.of_nat d)),
    (pad_digits d (scaled mod 10 ^ Z.of_nat d) "").
  split; [reflexivity |].
  split; [apply all_digits_str_nonneg |].
  split; [apply all_digits_pad; reflexivity |].
  split; [rewrite length_pad; cbn; lia |].
  rewrite int_of_digits_str_nonneg by (apply Z.div_pos; lia).
  rewrite int_of_digits_pad by (apply Z.mod_pos_bound; lia).
  cbn [int_of_digits_from]. rewrite Z.mod_mod by lia.
  pose proof (Z.div_mod scaled (10 ^ Z.of_nat d) ltac:(lia)). lia.
Qed.

Lemma pow2_1024 (k : nat) :
  (pow2 (10 * Z.of_nat k) == inject_Z (1024 ^ Z.of_nat k))%Q.
Proof.
  rewrite pow2_Z by lia. rewrite Z.pow_mul_r by lia. reflexivity.
Qed.

(** The bytes tier. *)
Lemma format_bytes_B (n d : Z) :
  0 <= n < 1024 -> format_bytes n d = Ok (str_int n +:+ " B").
Proof.
  intros [H0 H1]. unfold format_bytes.
  assert (E0 : (n <? 0) = false) by (apply Z.ltb_ge; lia). rewrite E0.
  assert (Hv : of_int n = Ok (FFin (inject_Z n))).
  { destruct (Z.eq_dec n 0) as [-> | Hne]; [reflexivity |].
    apply of_int_small. pose proof (Z.pow_pos_nonneg 2 53). 
    assert (1024 < 2 ^ 53) by reflexivity. lia. }
  rewrite Hv. cbn [mbind result_bind Py.bind].
  assert (E : fge (FFin (inject_Z n)) (FFin 1024) = false).
  { cbn [fge]. destruct (Qle_bool 1024 (inject_Z n)) eqn:E; [| reflexivity].
    apply Qle_bool_iff in E. change 1024%Q with (inject_Z 1024) in E.
    rewrite <- Zle_Qle in E. lia. }
  cbn [length units scale_loop]. rewrite E. cbn [andb].
  cbn [mbind result_bind Py.bind Nat.eqb nth].
  unfold trunc. cbn [Qnum Qden inject_Z]. rewrite Z.quot_1_r. reflexivity.
Qed.

(** The tiers above bytes. *)
Lemma format_bytes_tier (n d : Z) (k : nat) :
  n < 2 ^ 1024 - 2 ^ 970 -> 0 <= d ->
  (1 <= k <= 5)%nat ->
  1024 ^ Z.of_nat k <= n ->
  ((k < 5)%nat -> n < 1024 ^ (Z.of_nat k + 1)) ->
  exists v,
    of_int n = Ok (FFin v)
    /\ (n < 2 ^ 53 -> v = inject_Z n)
    /\ (0 < v / inject_Z (1024 ^ Z.of_nat k))%Q
    /\ format_bytes n d
       = Ok (format_fixed (v / inject_Z (1024 ^ Z.of_nat k)) (Z.to_nat d)
               +:+ " " +:+ nth k units "").
Proof.
  intros Hhi Hd Hk Hlo Hup.
  assert (Hp : 0 < 1024 ^ Z.of_nat k) by (apply Z.pow_pos_nonneg; lia).
  assert (Hn : 0 < n) by lia.
  destruct (of_int_positive n Hn Hhi) as (v & Hv & Hrep & Hsmall & Hlarge).
  assert (Hk50 : 1024 ^ Z.of_nat k <= 2 ^ 50).
  { change (2 ^ 50) with (1024 ^ 5). apply Z.pow_le_mono_r; lia. }
  assert (Hlo' : (pow2 (10 * Z.of_nat k) <= v)%Q).
  { destruct (Z_lt_le_dec n (2 ^ 53)) as [Hs | Hl].
    - rewrite (Hsmall Hs), pow2_1024, <- Zle_Qle. exact Hlo.
    - eapply Qle_trans; [| apply Hlarge, Hl]. apply pow2_le. lia. }
  assert (Hup' : (v < pow2 (10 * (Z.of_nat k + 1)))%Q \/ (0 + k = 5)%nat).
  { destruct (Nat.eq_dec k 5%nat) as [-> | Hne]; [right; reflexivity | left].
    assert (Hk5 : (k < 5)%nat) by lia. specialize (Hup Hk5).
    assert (H50 : 1024 ^ (Z.of_nat k + 1) <= 2 ^ 50).
    { change (2 ^ 50) with (1024 ^ 5). apply Z.pow_le_mono_r; lia. }
    assert (Hs : n < 2 ^ 53).
    { assert (2 ^ 50 < 2 ^ 53) by reflexivity. lia. }
    rewrite (Hsmall Hs).
    replace (Z.of_nat k + 1) with (Z.of_nat (S k)) by lia.
    rewrite pow2_1024, <- Zlt_Qlt.
    replace (Z.of_nat (S k)) with (Z.of_nat k + 1) by lia. exact Hup. }
  destruct (scale_loop_steps k (length units) v 0%nat Hrep Hlo' Hup')
    as (w & Hw & Hloop); [lia | cbn; lia |].
  rewrite pow2_1024 in Hw.
  assert (Hvpos : (0 < v / inject_Z (1024 ^ Z.of_nat k))%Q).
  { apply Qlt_shift_div_l.
    - unfold Qlt. cbn [Qnum Qden inject_Z]. lia.
    - rewrite Qmult_0_l. apply representable_pos, Hrep. }
  exists v. split; [exact Hv | split; [exact Hsmall | split]].
  - exact Hvpos.
  - unfold format_bytes.
    assert (E0 : (n <? 0) = false) by (apply Z.ltb_ge; lia). rewrite E0.
    rewrite Hv. cbn [mbind result_bind Py.bind]. rewrite Hloop.
    cbn [mbind result_bind Py.bind]. cbn [Nat.add].
    assert (Ek : Nat.eqb k 0 = false) by (apply Nat.eqb_neq; lia).
    rewrite Ek.
    assert (Edp : (d <? 0) = false) by (apply Z.ltb_ge; lia). rewrite Edp.
    cbn [format_float].
    rewrite (format_fixed_compat w _ (Z.to_nat d) Hw). reflexivity.
Qed.

End FormatBytesSpec.

Section FormatBytesClaim.

Import Utils.

(** C8 (as amended). For every integer below [2^1024 - 2^970] -- the
    integers that [float] accepts -- [format_bytes] answers ["0 B"] for a
    negative input; the decimal digits of the input followed by [" B"]
    below 1024; and otherwise, with [k] the number of divisions by 1024
    that bring the input below 1024, capped at 5 for [PB], the value
    [float(n) / 1024^k] printed with [decimal_places] decimals (ties to
    even, no point when there are none) followed by the [k]-th unit. With
    the default of one decimal, 1024 gives "1.0 KB", 1073741824 gives
    "1.0 GB" and 500 gives "500 B". *)
Theorem format_bytes_units (n d : Z) :
  n < 2 ^ 1024 - 2 ^ 970 ->
  (n < 0 -> format_bytes n d = Ok "0 B")
  /\ (0 <= n < 1024 ->
      format_bytes n d = Ok (str_int n +:+ " B")
      /\ all_digits (str_int n) = true
      /\ int_of_digits (str_int n) = n)
  /\ (forall k : nat,
        0 <= d -> (1 <= k <= 5)%nat ->
        1024 ^ Z.of_nat k <= n ->
        ((k < 5)%nat -> n < 1024 ^ (Z.of_nat k + 1)) ->
        exists v ip fp,
          of_int n = Ok (FFin v)
          /\ (n < 2 ^ 53 -> v = inject_Z n)
          /\ format_bytes n d
             = Ok (format_fixed (v / inject_Z (1024 ^ Z.of_nat k))
                     (Z.to_nat d) +:+ " " +:+ nth k units "")
          /\ format_fixed (v / inject_Z (1024 ^ Z.of_nat k)) (Z.to_nat d)
             = ip +:+ match Z.to_nat d with
                      | O => ""
                      | S _ => "." +:+ fp
                      end
          /\ all_digits ip = true /\ all_digits fp = true
          /\ String.length fp = Z.to_nat d
          /\ int_of_digits ip * 10 ^ d + int_of_digits fp
             = rne (v / inject_Z (1024 ^ Z.of_nat k) * inject_Z (10 ^ d)))
  /\ format_bytes 1024 default_decimal_places = Ok "1.0 KB"
  /\ format_bytes 1073741824 default_decimal_places = Ok "1.0 GB"
  /\ format_bytes 500 default_decimal_places = Ok "500 B".
Proof.
  intros Hhi.
  split; [| split; [| split; [| repeat split; vm_compute; reflexivity]]].
  - intros Hneg. unfold format_bytes.
    apply Z.ltb_lt in Hneg. rewrite Hneg. reflexivity.
  - intros Hb. split; [apply format_bytes_B, Hb |].
    unfold str_int.
    assert (E : (n <? 0) = false) by (apply Z.ltb_ge; lia).
    rewrite E.
    split; [apply all_digits_str_nonneg |].
    apply int_of_digits_str_nonneg. lia.
  - intros k Hd Hk Hlo Hup.
    destruct (format_bytes_tier n d k Hhi Hd Hk Hlo Hup)
      as (v & Hv & Hsmall & Hpos & Hfmt).
    destruct (format_fixed_shape _ (Z.to_nat d) Hpos)
      as (ip & fp & Hshape & Hip & Hfp & Hlen & Hval).
    rewrite Z2Nat.id in Hval by exact Hd.
    exists v, ip, fp. auto 10.
Qed.

End FormatBytesClaim.

(** The kilobyte tier at 1536 bytes with one decimal. *)
Lemma format_bytes_units_witness :
  exists v ip fp,
    of_int 1536 = Ok (FFin v)
    /\ (1536 < 2 ^ 53 -> v = inject_Z 1536)
    /\ Utils.format_bytes 1536 1
       = Ok (format_fixed (v / inject_Z (1024 ^ Z.of_nat 1)) (Z.to_nat 1)
               +:+ " " +:+ nth 1 Utils.units "")
    /\ format_fixed (v / inject_Z (1024 ^ Z.of_nat 1)) (Z.to_nat 1)
       = ip +:+ match Z.to_nat 1 with
                | O => ""
                | S _ => "." +:+ fp
                end
    /\ all_digits ip = true /\ all_digits fp = true
    /\ String.length fp = Z.to_nat 1
    /\ int_of_digits ip * 10 ^ 1 + int_of_digits fp
       = rne (v / inject_Z (1024 ^ Z.of_nat 1) * inject_Z (10 ^ 1)).
Proof.
  assert (H : 1536 < 2 ^ 1024 - 2 ^ 970) by reflexivity.
  apply (proj1 (proj2 (proj2 (format_bytes_units 1536 1 H))) 1%nat).
  - lia.
  - lia.
  - cbn. lia.
  - intros _. cbn. lia.
Defined.

(** C8 (as stated) fails for the integers that [float] rejects:
    [format_bytes(2**1024)] raises [OverflowError], and so does the first
    integer past the bound of the amended claim. *)
Lemma format_bytes_overflow_counterexample :
  Utils.format_bytes (2 ^ 1024) Utils.default_decimal_places
    = Raise (Exn OverflowError "int too large to convert to float")
  /\ Utils.format_bytes (2 ^ 1024 - 2 ^ 970) Utils.default_decimal_places
     = Raise (Exn OverflowError "int too large to convert to float").
Proof. split; vm_compute; reflexivity. Qed.

(** * Further properties of the code *)

(** ** The gateway's commands *)

Section GatewayContracts.

Import CLI.

Variable json_loads : string -> pyval + string.
Variable self : CLIInterface.

(** [run_status] returns a payload exactly when the command completed
    with exit code 0 and its output decodes to that payload. *)
Theorem run_status_payload_iff (o : proc_outcome) (v : pyval) :
  (run_status json_loads self o).2 = Ok v
  <-> exists p, o = ProcCompleted p /\ returncode p = 0
                /\ json_loads (stdout p) = inl v.
Proof.
  unfold run_status, on_timeout, _run_command. split.
  - destruct o as [e | p].
    + destruct (isinstance e FileNotFoundError); [cbn; discriminate |].
      destruct (isinstance e TimeoutExpired) eqn:Ht; cbn; rewrite ?Ht;
        discriminate.
    + destruct (Z.eqb_spec (returncode p) 0) as [Hrc | Hrc]; cbn [negb].
      * destruct (json_loads (stdout p)) as [w | msg] eqn:Ej; cbn.
        -- intros [= <-]. eauto.
        -- discriminate.
      * destruct (contains _ _ || contains _ _); cbn; discriminate.
  - intros (p & -> & Hrc & Hj). rewrite Hrc, Hj. reflexivity.
Qed.

(** Whatever [run_status] raises is a [JottaCLIError] (the class itself,
    [DaemonOfflineError] or [CLINotFoundError]), unless [subprocess.run]
    itself raised something other than a missing executable or a timeout,
    which passes through unchanged. *)
Theorem run_status_raises_gateway_errors (o : proc_outcome) :
  match (run_status json_loads self o).2 with
  | Ok _ => True
  | Raise e =>
      isinstance e JottaCLIError = true
      \/ (o = ProcRaised e /\ isinstance e FileNotFoundError = false
          /\ isinstance e TimeoutExpired = false)
  end.
Proof.
  unfold run_status, on_timeout, _run_command.
  destruct o as [e | p].
  - destruct (isinstance e FileNotFoundError) eqn:Hf;
      [cbn; left; reflexivity |].
    destruct (isinstance e TimeoutExpired) eqn:Ht; cbn; rewrite ?Ht;
      [left; reflexivity | right; auto].
  - destruct (negb (returncode p =? 0)).
    + destruct (contains _ _ || contains _ _); cbn; left; reflexivity.
    + destruct (json_loads (stdout p)); cbn; [exact I | left; reflexivity].
Qed.

(** A completed status command is reported as [DaemonOfflineError]
    exactly when it failed and its error text, trimmed and in lower case,
    contains "connection refused" or "not running"; every other failure
    is a plain [JottaCLIError] that carries the trimmed error text. *)
Theorem run_status_failure_classes (p : CompletedProcess) :
  returncode p <> 0 ->
  (run_status json_loads self (ProcCompleted p)).2
  = if reports_offline p
    then Raise (Exn DaemonOfflineError "Jotta daemon is not running")
    else Raise (Exn JottaCLIError
                  ("jotta-cli status failed: " +:+ strip (stderr p))).
Proof.
  intros Hrc. unfold run_status, on_timeout, _run_command, reports_offline.
  apply Z.eqb_neq in Hrc. rewrite Hrc. cbn [negb].
  destruct (contains _ _ || contains _ _); reflexivity.
Qed.

(** [check_available] does not raise when the command completes, when
    the executable is missing or when the timeout expires; it answers
    [False] exactly when the executable is missing or the daemon is
    reported offline -- and so [True] also after a timeout, an
    undecodable output or any other failure of the command. *)
Theorem check_available_false_iff (o : proc_outcome) :
  subprocess_outcome o ->
  exists b,
    (check_available json_loads self o).2 = Ok b
    /\ (b = false
        <-> (exists e, o = ProcRaised e /\ exn_class_of e = FileNotFoundError)
            \/ (exists p, o = ProcCompleted p /\ returncode p <> 0
                          /\ reports_offline p = true)).
Proof.
  intros Ho. unfold check_available, run_status, on_timeout, _run_command,
    reports_offline.
  destruct o as [[c msg] | p]; cbn in Ho.
  - destruct Ho as [-> | ->]; cbn.
    + exists false. split; [reflexivity |]. split; [| reflexivity].
      intros _. left. eauto.
    + exists true. split; [reflexivity |]. split; [discriminate |].
      intros [(e & [= <-] & He) | (p & Hp & _)]; discriminate.
  - destruct (Z.eqb_spec (returncode p) 0) as [Hrc | Hrc]; cbn [negb].
    + exists true. split.
      * destruct (json_loads (stdout p)); reflexivity.
      * split; [discriminate |].
        intros [(e & He & _) | (q & [= <-] & Hq & _)]; [discriminate | lia].
    + destruct (contains _ _ || contains _ _) eqn:Eoff; cbn.
      * exists false. split; [reflexivity |]. split; [| reflexivity].
        intros _. right. exists p. auto.
      * exists true. split; [reflexivity |]. split; [discriminate |].
        intros [(e & He & _) | (q & [= <-] & _ & Hq)]; [discriminate |].
        rewrite Eoff in Hq. discriminate.
Qed.

(** [run_pause] and [run_resume] return only [True], and do so exactly
    when their command completed with exit code 0. *)
Theorem pause_resume_succeed_iff (o : proc_outcome) (b : bool) :
  ((run_pause self o).2 = Ok b
   <-> b = true /\ exists p, o = ProcCompleted p /\ returncode p = 0)
  /\ ((run_resume self o).2 = Ok b
      <-> b = true /\ exists p, o = ProcCompleted p /\ returncode p = 0).
Proof.
  unfold run_pause, run_resume, on_timeout, _run_command.
  split; split.
  1, 3: destruct o as [e | p];
    [ destruct (isinstance e FileNotFoundError); [cbn; discriminate |];
      destruct (isinstance e TimeoutExpired) eqn:Ht; cbn; rewrite ?Ht;
      discriminate
    | destruct (Z.eqb_spec (returncode p) 0) as [Hrc | Hrc]; cbn;
      [intros [= <-]; eauto | discriminate] ].
  1, 2: intros (-> & p & -> & Hrc); rewrite Hrc; reflexivity.
Qed.

End GatewayContracts.

Section LogFile.

Import CLI.

Variable self : CLIInterface.

Lemma first_line_no_newline (s : string) : has_newline (first_line s) = false.
Proof.
  induction s as [| c s IH]; [reflexivity |].
  cbn [first_line]. destruct (Ascii.eqb c "010") eqn:E; [reflexivity |].
  cbn [has_newline]. rewrite E, IH. reflexivity.
Qed.

(** [get_logfile_path] returns a path exactly when the command completed
    with exit code 0, the first line of its trimmed output is not empty
    and a file exists under that name; the path is that line, so it has no
    line feed. *)
Theorem get_logfile_path_some_iff (path_exists : string -> bool)
    (o : proc_outcome) (path : string) :
  ((get_logfile_path self path_exists o).2 = Ok (Some path)
   <-> exists p, o = ProcCompleted p /\ returncode p = 0
                 /\ path = first_line (strip (stdout p))
                 /\ path <> "" /\ path_exists path = true)
  /\ ((get_logfile_path self path_exists o).2 = Ok (Some path) ->
      has_newline path = false).
Proof.
  assert (H : (get_logfile_path self path_exists o).2 = Ok (Some path)
              <-> exists p, o = ProcCompleted p /\ returncode p = 0
                            /\ path = first_line (strip (stdout p))
                            /\ path <> "" /\ path_exists path = true).
  { unfold get_logfile_path, on_timeout, _run_command. split.
    - destruct o as [e | p].
      + destruct (isinstance e FileNotFoundError); [cbn; discriminate |].
        destruct (isinstance e TimeoutExpired) eqn:Ht; cbn; rewrite ?Ht;
          discriminate.
      + destruct (Z.eqb_spec (returncode p) 0) as [Hrc | Hrc]; cbn [negb];
          [| cbn; discriminate].
        destruct (String.eqb_spec (first_line (strip (stdout p))) "")
          as [He | He]; cbn [negb andb]; [cbn; discriminate |].
        destruct (path_exists (first_line (strip (stdout p)))) eqn:Hex;
          cbn; [| discriminate].
        intros [= <-]. exists p. auto.
    - intros (p & -> & Hrc & -> & Hne & Hex). rewrite Hrc. cbn [negb].
      apply String.eqb_neq in Hne. rewrite Hne, Hex. reflexivity. }
  split; [exact H |].
  intros Hs. apply H in Hs as (p & _ & _ & -> & _).
  apply first_line_no_newline.
Qed.

End LogFile.

(** ** The monitor beyond the claims *)

Section MonitorMore.

Import Monitor CLI.

Variable json_loads : string -> pyval + string.

Lemma _get_quota_keeps_interval (p : pyval) (t : datetime) (m : StatusMonitor) :
  _current_interval (_get_quota p t m).2 = _current_interval m.
Proof.
  unfold _get_quota.
  destruct (_cached_quota m);
    [destruct (t - _last_quota_check m <? timedelta_seconds QUOTA_CACHE_TTL) |];
    try destruct (read_quota p) as [[u tot] | e]; reflexivity.
Qed.

Lemma fetch_live_keeps_interval (inp : cycle_input) (m : StatusMonitor) :
  _current_interval (fetch_live json_loads inp m).2 = _current_interval m.
Proof.
  unfold fetch_live.
  destruct (run_status json_loads (cli m) (proc inp)) as [tr [v | e]];
    [| reflexivity].
  destruct (_determine_state v) as [st | e]; [| reflexivity].
  pose proof (_get_quota_keeps_interval v (now_quota inp) m) as Hq.
  destruct (_get_quota v (now_quota inp) m) as [[tq [[u t] | e]] m'];
    exact Hq.
Qed.

Lemma _fetch_status_keeps_interval (inp : cycle_input) (m : StatusMonitor) :
  _current_interval (_fetch_status json_loads inp m).2 = _current_interval m.
Proof.
  unfold _fetch_status.
  pose proof (fetch_live_keeps_interval inp m) as H.
  destruct (fetch_live json_loads inp m) as [[tr [s | e]] m']; [exact H |].
  destruct (isinstance e DaemonOfflineError); [| exact H].
  destruct (fetch_offline inp m'). exact H.
Qed.

Lemma _adjust_interval_sets (st : string) (m : StatusMonitor) :
  _current_interval (_adjust_interval st m).2
  = if String.eqb st "syncing" then ACTIVE_INTERVAL
    else if String.eqb st "offline" then OFFLINE_INTERVAL
    else IDLE_INTERVAL.
Proof.
  unfold _adjust_interval.
  destruct (Z.eqb_spec
              (if String.eqb st "syncing" then ACTIVE_INTERVAL
               else if String.eqb st "offline" then OFFLINE_INTERVAL
               else IDLE_INTERVAL) (_current_interval m)) as [E | E];
    cbn [negb]; [symmetry; exact E | reflexivity].
Qed.

(** A pass that produces a snapshot sleeps once, for 2 seconds when the
    snapshot says [syncing], 30 when it says [offline] and 10 otherwise,
    whatever the interval was before; the monitor keeps that interval. *)
Theorem cycle_adapts_interval (inp : cycle_input) (m m1 : StatusMonitor)
    (tr0 : list event) (status : SyncStatus) :
  _fetch_status json_loads inp m = (tr0, Ok status, m1) ->
  let run := cycle json_loads inp m in
  let interval :=
    if String.eqb (state status) "syncing" then 2
    else if String.eqb (state status) "offline" then 30
    else 10 in
  sleeps run.1.1 = [interval] /\ _current_interval run.2 = interval.
Proof.
  intros Hf run interval. subst run. unfold cycle, cycle_body.
  pose proof (_fetch_status_frame json_loads inp m) as Hfr.
  rewrite Hf in *. destruct Hfr as ([_ Hs] & _).
  assert (Hadj : forall mm,
             let '(tri, m3) := _adjust_interval (state status) mm in
             sleeps tri = [] /\ _current_interval m3 = interval).
  { intros mm. pose proof (_adjust_interval_sets (state status) mm) as Hi.
    pose proof (_adjust_interval_frame (state status) mm) as Ha.
    destruct (_adjust_interval (state status) mm) as [tri m3].
    destruct Ha as ([_ Hsi] & _). split; [exact Hsi | exact Hi]. }
  destruct (_has_changed status m1).
  - destruct (notify_all (_callbacks (set_last_status status m1)) status)
      as (Hn1 & _ & Hn3).
    destruct (notify (_callbacks (set_last_status status m1)) status)
      as [trc rc].
    cbn in Hn1, Hn3. subst rc.
    specialize (Hadj (set_last_status status m1)).
    destruct (_adjust_interval (state status) (set_last_status status m1))
      as [tri m3].
    destruct Hadj as [Hsi Hi]. cbn. split; [| exact Hi].
    rewrite !sleeps_app. cbn. rewrite !sleeps_app, Hs, Hn3, Hsi, Hi.
    reflexivity.
  - specialize (Hadj (set_last_status status m1)).
    destruct (_adjust_interval (state status) (set_last_status status m1))
      as [tri m3].
    destruct Hadj as [Hsi Hi]. cbn. split; [| exact Hi].
    rewrite !sleeps_app, Hs, Hsi, Hi. reflexivity.
Qed.

(** When the status query fails with anything but [DaemonOfflineError]
    -- a timeout, a missing executable, an undecodable output -- the pass
    logs the error, calls no subscriber, sleeps for the current interval
    and leaves the monitor exactly as it was: the previous snapshot is
    kept. *)
Theorem cycle_keeps_state_on_failure (inp : cycle_input) (m : StatusMonitor)
    (tr : list event) (e : exn) :
  run_status json_loads (cli m) (proc inp) = (tr, Raise e) ->
  isinstance e DaemonOfflineError = false ->
  cycle json_loads inp m
  = (tr ++ [Log ERROR (MonitorLoopError e); Sleep (_current_interval m)],
     Ok tt, m)
  /\ invocations (tr ++ [Log ERROR (MonitorLoopError e);
                         Sleep (_current_interval m)]) = [].
Proof.
  intros Hrun He.
  pose proof (run_status_quiet json_loads (cli m) (proc inp)) as [Hq _].
  rewrite Hrun in Hq. cbn in Hq.
  split.
  - unfold cycle, cycle_body, _fetch_status, fetch_live.
    rewrite Hrun, He. rewrite isinstance_Exception. reflexivity.
  - rewrite invocations_app, Hq. reflexivity.
Qed.

(** [start] twice starts one thread: the second call only logs a warning
    and changes nothing. [stop] on a stopped monitor does nothing, and
    otherwise clears the running flag and nothing else. *)
Theorem start_stop_idempotent (m : StatusMonitor) :
  _running (start m).2 = true
  /\ start (start m).2 = ([Log WARNING MonitorAlreadyRunning], (start m).2)
  /\ _running (stop m).2 = false
  /\ stop (stop m).2 = ([], (stop m).2)
  /\ (stop (start m).2).2 = set_running false m
  /\ _callbacks (stop m).2 = _callbacks m
  /\ _last_status (stop m).2 = _last_status m.
Proof.
  unfold start, stop. destruct m as [c r cbs ls lq cq ci].
  destruct r; cbn; repeat split.
Qed.

End MonitorMore.

Section MonitorLoopStop.

Import Monitor CLI.

Variable json_loads : string -> pyval + string.

Lemma loop_from_stopped (inputs : list cycle_input) (m : StatusMonitor) :
  _running m = false -> inputs <> [] ->
  loop_from json_loads inputs m = ([Log DEBUG MonitorLoopExited], Ok tt, m).
Proof.
  intros Hr Hne. destruct inputs as [| inp rest]; [congruence |].
  cbn [loop_from]. rewrite Hr. reflexivity.
Qed.

(** Once [stop()] is called during a pass, that pass still ends with its
    sleep and is the last one: after [n] undisturbed passes and the one in
    which [stop()] arrives the loop has slept [n + 1] times, the running
    flag is off and the loop leaves with its closing log line instead of
    polling again. *)
Theorem loop_exits_after_stop (before : list cycle_input) (inp : cycle_input)
    (after : list cycle_input) (m : StatusMonitor) :
  _running m = true ->
  Forall (fun i => stop_requested i = false) before ->
  stop_requested inp = true ->
  after <> [] ->
  let run := loop_from json_loads (before ++ inp :: after) m in
  run.1.2 = Ok tt
  /\ _running run.2 = false
  /\ length (sleeps run.1.1) = S (length before)
  /\ last run.1.1 = Some (Log DEBUG MonitorLoopExited).
Proof.
  revert m. induction before as [| b before IH];
    intros m Hr Hall Hstop Hafter; cbn [app loop_from]; rewrite Hr.
  - destruct (cycle_continues json_loads inp m) as (H1 & H2 & H3).
    destruct (cycle json_loads inp m) as [[tr r] m']. cbn in H1, H2, H3.
    subst r. rewrite Hstop.
    rewrite (loop_from_stopped after (set_running false m'))
      by (reflexivity || exact Hafter).
    cbn. repeat split.
    + rewrite sleeps_app, length_app, H3. reflexivity.
    + rewrite last_snoc. reflexivity.
  - apply Forall_cons in Hall as [Hb Hall].
    destruct (cycle_continues json_loads b m) as (H1 & H2 & H3).
    destruct (cycle json_loads b m) as [[tr r] m']. cbn in H1, H2, H3.
    subst r. rewrite Hb.
    assert (Hr' : _running m' = true) by (rewrite H2; exact Hr).
    specialize (IH m' Hr' Hall Hstop Hafter). cbn zeta in IH.
    destruct (loop_from json_loads (before ++ inp :: after) m')
      as [[tr' r'] m_end].
    cbn in *. destruct IH as (I1 & I2 & I3 & I4).
    repeat split; [exact I1 | exact I2 | |].
    + rewrite sleeps_app, length_app, H3, I3. reflexivity.
    + destruct tr' as [| ev tr']; [discriminate I4 |].
      rewrite last_app_cons. exact I4.
Qed.

End MonitorLoopStop.

Section SnapshotInvariant.

Import Monitor CLI Utils.

Variable json_loads : string -> pyval + string.

(** The size of the transfer map that the snapshot counts. *)
Lemma transfer_count_nonneg (v : pyval) :
  0 <= match v with PDict d => PyVal.dict_len d | _ => 0 end.
Proof. destruct v; unfold PyVal.dict_len; lia. Qed.

(** What [_determine_state] answers, against the transfer counts that
    [_fetch_status] takes from the same payload. *)
Lemma _determine_state_counts (payload : pyval) (st : string) :
  _determine_state payload = Ok st ->
  st = "paused"
  \/ exists state_data uploading downloading,
       PyVal.get payload "State" (PDict ∅) = Ok state_data
       /\ PyVal.get state_data "Uploading" (PDict ∅) = Ok uploading
       /\ PyVal.get state_data "Downloading" (PDict ∅) = Ok downloading
       /\ ((st = "syncing"
            /\ 0 < match uploading with PDict d => PyVal.dict_len d | _ => 0 end
                  + match downloading with PDict d => PyVal.dict_len d | _ => 0 end)
           \/ (st = "idle"
               /\ match uploading with PDict d => PyVal.dict_len d | _ => 0 end = 0
               /\ match downloading with PDict d => PyVal.dict_len d | _ => 0 end = 0)).
Proof.
  unfold _determine_state. intros H.
  destruct (PyVal.get payload "Sync" (PDict ∅)) as [sync |] eqn:Es;
    [| discriminate H]. cbn in H.
  destruct (PyVal.get sync "Enabled" (PBool true)) as [en |] eqn:Ee;
    [| discriminate H]. cbn in H.
  destruct (negb (PyVal.truthy en)); [injection H as <-; left; reflexivity |].
  destruct (PyVal.get payload "State" (PDict ∅)) as [sd |] eqn:Ed;
    [| discriminate H]. cbn in H.
  unfold parse_sync_state in H.
  destruct (PyVal.get sd "Uploading" (PDict ∅)) as [up |] eqn:Eu;
    [| discriminate H]. cbn in H.
  destruct (PyVal.get sd "Downloading" (PDict ∅)) as [dn |] eqn:Edn;
    [| discriminate H]. cbn in H.
  right. exists sd, up, dn.
  split; [first [reflexivity | assumption] |].
  split; [assumption | split; [assumption |]].
  pose proof (transfer_count_nonneg up) as Hu.
  pose proof (transfer_count_nonneg dn) as Hd.
  destruct up, dn; cbn in H |- *;
    repeat match type of H with
           | context [0 <? ?x] => destruct (Z.ltb_spec 0 x)
           end; cbn in H; injection H as <-;
    first [ left; split; [reflexivity | lia]
          | right; split; [reflexivity | lia] ].
Qed.

(** The states and counts of the snapshots that [_fetch_status]
    produces. *)
Lemma snapshot_profile (inp : cycle_input) (m m1 : StatusMonitor)
    (tr : list event) (s : SyncStatus) :
  _fetch_status json_loads inp m = (tr, Ok s, m1) ->
  0 <= uploading_count s /\ 0 <= downloading_count s
  /\ (state s = "paused"
      \/ (state s = "syncing"
          /\ 0 < uploading_count s + downloading_count s)
      \/ (state s = "idle"
          /\ uploading_count s = 0 /\ downloading_count s = 0)
      \/ (state s = "offline"
          /\ uploading_count s = 0 /\ downloading_count s = 0
          /\ quota_warning s = false)).
Proof.
  intros Hf.
  unfold _fetch_status in Hf.
    destruct (fetch_live json_loads inp m) as [[tl [sl | e]] ml] eqn:El.
    - injection Hf as _ <- _. unfold fetch_live in El.
      destruct (run_status json_loads (cli m) (proc inp)) as [tr0 [v | e]];
        [| discriminate El].
      destruct (_determine_state v) as [st | e] eqn:Est; [| discriminate El].
      destruct (_get_quota v (now_quota inp) m) as [[tq [[u t] | e]] m'];
        [| discriminate El].
      injection El as _ El _.
      destruct (PyVal.get v "Sync" (PDict ∅)) as [sync |];
        [| discriminate El]. cbn in El.
      destruct (PyVal.get sync "Count" (PDict ∅)) as [lc |];
        [| discriminate El]. cbn in El.
      destruct (PyVal.get sync "RemoteCount" (PDict ∅)) as [rc |];
        [| discriminate El]. cbn in El.
      destruct (_determine_state_counts v st Est)
        as [Hp | (sd & up & dn & Hsd & Hup & Hdn & Hst)].
      2: { rewrite Hsd in El. cbn in El. rewrite Hup in El. cbn in El.
        rewrite Hdn in El. cbn in El.
        destruct (detect_quota_warning u t default_threshold_percent)
          as [w |]; [| discriminate El]. cbn in El.
        destruct (PyVal.get lc "Files" (PInt 0)) as [lf |];
          [| discriminate El]. cbn in El.
        destruct (PyVal.get rc "Files" (PInt 0)) as [rf |];
          [| discriminate El]. cbn in El.
        injection El as <-. cbn.
        pose proof (transfer_count_nonneg up).
        pose proof (transfer_count_nonneg dn).
        split; [assumption | split; [assumption |]].
        tauto. }
      + destruct (PyVal.get v "State" (PDict ∅)) as [sd |];
          [| discriminate El]. cbn in El.
        destruct (PyVal.get sd "Uploading" (PDict ∅)) as [up |];
          [| discriminate El]. cbn in El.
        destruct (PyVal.get sd "Downloading" (PDict ∅)) as [dn |];
          [| discriminate El]. cbn in El.
        destruct (detect_quota_warning u t default_threshold_percent)
          as [w |]; [| discriminate El]. cbn in El.
        destruct (PyVal.get lc "Files" (PInt 0)) as [lf |];
          [| discriminate El]. cbn in El.
        destruct (PyVal.get rc "Files" (PInt 0)) as [rf |];
          [| discriminate El]. cbn in El.
        injection El as <-. cbn.
        pose proof (transfer_count_nonneg up).
        pose proof (transfer_count_nonneg dn). auto.
    - destruct (isinstance e DaemonOfflineError); [| discriminate Hf].
      unfold fetch_offline in Hf.
      destruct (default (PInt 0, PInt 0) (_cached_quota ml)) as [u t].
      injection Hf as _ <- _. cbn. split; [lia | split; [lia |]].
      right. right. right. auto.
Qed.

(** Every snapshot that [_fetch_status] produces has one of the states
    [idle], [syncing], [paused], [offline] -- never [error] -- and its
    counts agree with it: [syncing] comes with a transfer in flight, [idle]
    and [offline] with none; the counts are never negative. *)
Theorem snapshot_state_invariant (inp : cycle_input) (m m1 : StatusMonitor)
    (tr : list event) (s : SyncStatus) :
  _fetch_status json_loads inp m = (tr, Ok s, m1) ->
  0 <= uploading_count s /\ 0 <= downloading_count s
  /\ (state s = "paused"
      \/ (state s = "syncing"
          /\ 0 < uploading_count s + downloading_count s)
      \/ (state s = "idle"
          /\ uploading_count s = 0 /\ downloading_count s = 0)
      \/ (state s = "offline"
          /\ uploading_count s = 0 /\ downloading_count s = 0
          /\ quota_warning s = false))
  /\ state s <> "error".
Proof.
  intros Hf. destruct (snapshot_profile inp m m1 tr s Hf) as (H1 & H2 & H3).
  split; [exact H1 | split; [exact H2 |]].
  split; [exact H3 |].
  destruct H3 as [-> | [[-> _] | [[-> _] | [-> _]]]]; discriminate.
Qed.



End SnapshotInvariant.

(** ** Autostart beyond the claims *)

Section AutostartMore.

Import Autostart.

Variable sys : platform.

Lemma with_parents_self (p : list string) : p <> [] -> p ∈ with_parents p.
Proof.
  induction p as [| c p IH]; [congruence |]. intros _. cbn [with_parents].
  destruct p as [| c' p]; [left |].
  right. apply list_elem_of_fmap. exists (c' :: p). split; [reflexivity |].
  apply IH. discriminate.
Qed.

Lemma with_parents_length (p q : list string) :
  q ∈ with_parents p -> (length q <= length p)%nat.
Proof.
  revert q. induction p as [| c p IH]; intros q Hq; cbn [with_parents] in Hq.
  - inversion Hq.
  - apply elem_of_cons in Hq as [-> | Hq]; [cbn; lia |].
    apply list_elem_of_fmap in Hq as (q' & -> & Hq').
    specialize (IH q' Hq'). cbn. lia.
Qed.

Lemma autostart_paths (h : list string) :
  ((h ++ [".config"]) ++ ["autostart"] = autostart_dir_of h)
  /\ (((h ++ [".config"]) ++ ["autostart"]) ++ ["jotta-tray.desktop"]
      = autostart_file_of h)
  /\ parent (autostart_file_of h) = autostart_dir_of h
  /\ (autostart_file_of h ∉ with_parents (autostart_dir_of h))
  /\ (autostart_dir_of h ∈ with_parents (autostart_dir_of h)).
Proof.
  unfold autostart_dir_of, autostart_file_of, parent.
  repeat split.
  - rewrite <- app_assoc. reflexivity.
  - rewrite <- !app_assoc. reflexivity.
  - change [".config"; "autostart"; "jotta-tray.desktop"]
      with ([".config"; "autostart"] ++ ["jotta-tray.desktop"]).
    rewrite app_assoc. apply removelast_last.
  - intros Hin. apply with_parents_length in Hin.
    rewrite !length_app in Hin. cbn in Hin. lia.
  - apply with_parents_self. destruct h; discriminate.
Qed.

Lemma io_bind_ok {A B} (m : io A) (k : A -> io B) (fs fs' : filesystem)
    (tr : list event) (a : A) :
  m fs = (tr, Ok a, fs') ->
  io_bind m k fs = (let '(tr', r', fs'') := k a fs' in (tr ++ tr', r', fs'')).
Proof. intros H. unfold io_bind. rewrite H. reflexivity. Qed.

Lemma io_bind_raise {A B} (m : io A) (k : A -> io B) (fs fs' : filesystem)
    (tr : list event) (e : exn) :
  m fs = (tr, Raise e, fs') -> io_bind m k fs = (tr, Raise e, fs').
Proof. intros H. unfold io_bind. rewrite H. reflexivity. Qed.

Lemma get_autostart_dir_ok (fs : filesystem) (h : list string) :
  home sys = Ok h -> get_autostart_dir sys fs = ([], Ok (autostart_dir_of h), fs).
Proof.
  intros Hh. unfold get_autostart_dir, io_bind, io_lift, io_ret.
  rewrite Hh. cbn. rewrite (proj1 (autostart_paths h)). reflexivity.
Qed.

Lemma get_autostart_file_path_ok (fs : filesystem) (h : list string) :
  home sys = Ok h ->
  get_autostart_file_path sys fs = ([], Ok (autostart_file_of h), fs).
Proof.
  intros Hh. unfold get_autostart_file_path.
  rewrite (io_bind_ok _ _ _ _ _ _ (get_autostart_dir_ok fs h Hh)).
  unfold io_ret. cbn.
  destruct (autostart_paths h) as (Pd & Pf & _).
  rewrite <- Pd, Pf. reflexivity.
Qed.

Lemma get_autostart_file_path_raise (fs : filesystem) (e : exn) :
  home sys = Raise e -> get_autostart_file_path sys fs = ([], Raise e, fs).
Proof.
  intros Hh. unfold get_autostart_file_path, get_autostart_dir, io_bind,
    io_lift. rewrite Hh. reflexivity.
Qed.

Lemma exists_file (fs : filesystem) (p : list string) (content : string) :
  files fs !! p = Some content -> exists_ p fs = ([], Ok true, fs).
Proof.
  intros H. unfold exists_. rewrite H.
  rewrite bool_decide_eq_true_2 by (eexists; reflexivity). reflexivity.
Qed.

Lemma exists_absent (fs : filesystem) (p : list string) :
  files fs !! p = None -> p ∉ dirs fs -> exists_ p fs = ([], Ok false, fs).
Proof.
  intros H Hd. unfold exists_. rewrite H.
  rewrite bool_decide_eq_false_2 by (intros [x Hx]; discriminate).
  rewrite (bool_decide_eq_false_2 _ Hd). reflexivity.
Qed.

Lemma get_desktop_file_path_ok (fs : filesystem) (content : string) :
  files fs !! template_of (module_dir sys) = Some content ->
  get_desktop_file_path sys fs = ([], Ok (template_of (module_dir sys)), fs).
Proof.
  intros H. unfold get_desktop_file_path.
  fold (template_of (module_dir sys)).
  rewrite (io_bind_ok _ _ _ _ _ _ (exists_file fs _ content H)).
  reflexivity.
Qed.

(** What one successful [install_autostart] leaves behind. *)
Lemma install_autostart_run (fs : filesystem) (h : list string)
    (content : string) :
  refuses_nothing sys ->
  home sys = Ok h ->
  files fs !! template_of (module_dir sys) = Some content ->
  Forall (fun q => files fs !! q = None) (with_parents (autostart_dir_of h)) ->
  autostart_file_of h ∉ dirs fs ->
  install_autostart sys fs
  = ([Log DEBUG (AutostartDirectory (path_str (autostart_dir_of h)));
      Log INFO (AutostartInstalled (path_str (autostart_file_of h)))],
     Ok (true,
         "Autostart enabled successfully." +:+ newline
           +:+ "Desktop file installed to:" +:+ newline
           +:+ path_str (autostart_file_of h)),
     {| files := <[autostart_file_of h := content]> (files fs);
        dirs := dirs fs ∪ list_to_set (with_parents (autostart_dir_of h)) |}).
Proof.
  intros (Hmk & Hcp & _) Hh Htpl Hfree Hnd.
  destruct (autostart_paths h) as (_ & _ & Pp & Pn & Ps).
  set (fs1 := {| files := files fs;
                 dirs := dirs fs
                         ∪ list_to_set (with_parents (autostart_dir_of h)) |}).
  assert (Hmkdir : mkdir sys (autostart_dir_of h) fs = ([], Ok tt, fs1)).
  { unfold mkdir. rewrite Hmk. rewrite bool_decide_eq_false_2; [reflexivity |].
    rewrite Exists_exists. intros (q & Hq & [x Hx]).
    rewrite Forall_forall in Hfree. rewrite (Hfree q) in Hx; [discriminate |].
    exact Hq. }
  assert (Hcopy : copy2 sys (template_of (module_dir sys))
                    (autostart_file_of h) fs1
                  = ([], Ok tt,
                     {| files := <[autostart_file_of h := content]> (files fs);
                        dirs := dirs fs1 |})).
  { unfold copy2. rewrite Hcp. cbn [files fs1]. rewrite Htpl, Pp.
    rewrite bool_decide_eq_true_2
      by (apply elem_of_union_r, elem_of_list_to_set, Ps).
    rewrite bool_decide_eq_false_2; [reflexivity |].
    intros Hin. cbn in Hin.
    apply elem_of_union in Hin as [Hin | Hin]; [exact (Hnd Hin) |].
    apply elem_of_list_to_set in Hin. exact (Pn Hin). }
  unfold install_autostart, try_except, install_body.
  rewrite (io_bind_ok _ _ _ _ _ _ (get_desktop_file_path_ok fs content Htpl)).
  rewrite (io_bind_ok _ _ _ _ _ _ (get_autostart_file_path_ok fs h Hh)).
  rewrite (io_bind_ok _ _ _ _ _ _ (get_autostart_dir_ok fs h Hh)).
  rewrite (io_bind_ok _ _ _ _ _ _ Hmkdir).
  unfold io_log at 1. unfold io_bind at 1.
  rewrite (io_bind_ok _ _ _ _ _ _ Hcopy).
  reflexivity.
Qed.


(** Installing and then removing brings the files back: when the
    autostart file did not exist before, [uninstall_autostart] after a
    successful [install_autostart] reports success, leaves exactly the
    files that were there before the installation, and
    [is_autostart_enabled] answers [False] again. The directories created
    on the way stay. *)
Theorem install_then_uninstall_restores (fs : filesystem) (h : list string)
    (content : string) :
  refuses_nothing sys ->
  home sys = Ok h ->
  files fs !! template_of (module_dir sys) = Some content ->
  Forall (fun q => files fs !! q = None) (with_parents (autostart_dir_of h)) ->
  autostart_file_of h ∉ dirs fs ->
  files fs !! autostart_file_of h = None ->
  let fs1 := (install_autostart sys fs).2 in
  let run := uninstall_autostart sys fs1 in
  run.1.2 = Ok (true, "Autostart disabled successfully.")
  /\ files run.2 = files fs
  /\ dirs run.2 = dirs fs1
  /\ (is_autostart_enabled sys run.2).1.2 = Ok false.
Proof.
  intros Hsys Hh Htpl Hfree Hnd Habs fs1 run. subst run fs1.
  rewrite (install_autostart_run fs h content Hsys Hh Htpl Hfree Hnd).
  cbn [snd].
  set (fs1 := {| files := <[autostart_file_of h := content]> (files fs);
                 dirs := dirs fs
                         ∪ list_to_set (with_parents (autostart_dir_of h)) |}).
  destruct Hsys as (_ & _ & Hul).
  destruct (autostart_paths h) as (_ & _ & _ & Pn & _).
  assert (Hlook : files fs1 !! autostart_file_of h = Some content)
    by apply lookup_insert_eq.
  assert (Hunlink : unlink sys (autostart_file_of h) fs1
                    = ([], Ok tt,
                       {| files := files fs; dirs := dirs fs1 |})).
  { unfold unlink. rewrite Hul, Hlook. cbn [files fs1].
    rewrite delete_insert_eq, delete_id by exact Habs. reflexivity. }
  assert (Hrun : uninstall_autostart sys fs1
                 = ([Log INFO (AutostartRemoved (path_str (autostart_file_of h)))],
                    Ok (true, "Autostart disabled successfully."),
                    {| files := files fs; dirs := dirs fs1 |})).
  { unfold uninstall_autostart, try_except, uninstall_body.
    rewrite (io_bind_ok _ _ _ _ _ _ (get_autostart_file_path_ok fs1 h Hh)).
    rewrite (io_bind_ok _ _ _ _ _ _ (exists_file fs1 _ content Hlook)).
    cbn [negb].
    rewrite (io_bind_ok _ _ _ _ _ _ Hunlink). reflexivity. }
  rewrite Hrun. cbn [fst snd files dirs].
  split; [reflexivity | split; [reflexivity | split; [reflexivity |]]].
  unfold is_autostart_enabled.
  rewrite (io_bind_ok _ _ _ _ _ _ (get_autostart_file_path_ok _ h Hh)).
  rewrite exists_absent; [reflexivity | exact Habs |].
  cbn [dirs fs1]. intros Hin.
  apply elem_of_union in Hin as [Hin | Hin]; [exact (Hnd Hin) |].
  apply elem_of_list_to_set in Hin. exact (Pn Hin).
Qed.

(** Without the bundled template [install_autostart] answers [False]
    with the text of the [AutostartError] and touches nothing: no directory
    is created. *)
Theorem install_without_template (fs : filesystem) :
  files fs !! template_of (module_dir sys) = None ->
  template_of (module_dir sys) ∉ dirs fs ->
  exists e,
    install_autostart sys fs
    = ([Log ERROR (AutostartInstallFailed e)], Ok (false, exn_str e), fs)
    /\ exn_class_of e = AutostartError
    /\ exn_str e
       = "Desktop file template not found at "
           +:+ path_str (template_of (module_dir sys)) +:+ ". "
           +:+ "This may indicate an incomplete installation.".
Proof.
  intros Hf Hd.
  exists (Exn AutostartError
            ("Desktop file template not found at "
               +:+ path_str (template_of (module_dir sys)) +:+ ". "
               +:+ "This may indicate an incomplete installation.")).
  split; [| split; reflexivity].
  assert (Hg : get_desktop_file_path sys fs
               = ([], Raise (Exn AutostartError
                     ("Desktop file template not found at "
                        +:+ path_str (template_of (module_dir sys)) +:+ ". "
                        +:+ "This may indicate an incomplete installation.")),
                  fs)).
  { unfold get_desktop_file_path. fold (template_of (module_dir sys)).
    rewrite (io_bind_ok _ _ _ _ _ _ (exists_absent fs _ Hf Hd)).
    reflexivity. }
  unfold install_autostart, try_except, install_body.
  rewrite (io_bind_raise _ _ _ _ _ _ Hg). reflexivity.
Qed.

End AutostartMore.

Section AutostartFrame.

Import Autostart.

Variable sys : platform.





(** When the platform refuses to remove the file, [uninstall_autostart]
    answers [False] and the disk is unchanged: autostart stays enabled. *)
Theorem uninstall_refused_keeps_file (fs : filesystem) (h : list string)
    (content : string) (e : exn) :
  home sys = Ok h ->
  files fs !! autostart_file_of h = Some content ->
  unlink_refused sys = Some e ->
  exists l msg,
    uninstall_autostart sys fs = ([Log ERROR l], Ok (false, msg), fs)
    /\ (is_autostart_enabled sys fs).1.2 = Ok true.
Proof.
  intros Hh Hf Hr.
  assert (Hb : uninstall_body sys fs = ([], Raise e, fs)).
  { unfold uninstall_body, get_autostart_file_path, get_autostart_dir,
      io_bind, io_lift, io_ret, exists_, unlink.
    rewrite Hh. destruct (autostart_paths h) as (Pd & Pf & _).
    cbn. rewrite Pf, Hf, Hr.
    rewrite bool_decide_eq_true_2 by (eexists; reflexivity). reflexivity. }
  unfold uninstall_autostart, try_except. rewrite Hb.
  unfold uninstall_clauses. cbn [handle].
  assert (He : (is_autostart_enabled sys fs).1.2 = Ok true).
  { unfold is_autostart_enabled, get_autostart_file_path, get_autostart_dir,
      io_bind, io_lift, io_ret, exists_.
    rewrite Hh. destruct (autostart_paths h) as (Pd & Pf & _).
    cbn. rewrite Pf, Hf.
    rewrite bool_decide_eq_true_2 by (eexists; reflexivity). reflexivity. }
  destruct (isinstance e PermissionError).
  - do 2 eexists. split; [reflexivity | exact He].
  - rewrite isinstance_Exception. do 2 eexists. split; [reflexivity | exact He].
Qed.

End AutostartFrame.

(** ** Application start beyond the claims *)

Section StartMore.

Import CLI.

Variable json_loads : string -> pyval + string.

Lemma CLINotFoundError_is_JottaCLIError (e : exn) :
  isinstance e CLINotFoundError = true -> isinstance e JottaCLIError = true.
Proof. destruct e as [[] ?]; cbn; intros H; try discriminate H; reflexivity. Qed.

(** The probe only logs, and what it raises is never a
    [CLINotFoundError]. *)
Lemma check_available_profile (c : CLIInterface) (o : proc_outcome) :
  let run := check_available json_loads c o in
  exits run.1 = false /\ shows_dialog run.1 = false
  /\ match run.2 with
     | Ok _ => True
     | Raise e => isinstance e CLINotFoundError = false
     end.
Proof.
  unfold check_available, run_status, on_timeout, _run_command.
  destruct o as [e | p].
  - destruct (isinstance e FileNotFoundError) eqn:Hf; [cbn; repeat split; try reflexivity; try assumption |].
    destruct (isinstance e TimeoutExpired) eqn:Ht; cbn; rewrite ?Ht; cbn;
      [repeat split; try reflexivity; try assumption |].
    destruct (isinstance e CLINotFoundError) eqn:Hc.
    + cbn. repeat split; try reflexivity; try assumption.
    + cbn [orb].
      destruct (isinstance e DaemonOfflineError); [cbn; repeat split; try reflexivity; try assumption |].
      destruct (isinstance e JottaCLIError); cbn; repeat split; try reflexivity; try assumption.
  - destruct (negb (returncode p =? 0)).
    + destruct (contains _ _ || contains _ _); cbn; repeat split; try reflexivity; try assumption.
    + destruct (json_loads (stdout p)); cbn; repeat split; try reflexivity; try assumption.
Qed.

Lemma check_available_total (c : CLIInterface) (o : proc_outcome) :
  subprocess_outcome o ->
  exists b, (check_available json_loads c o).2 = Ok b.
Proof.
  intros Ho. unfold check_available, run_status, on_timeout, _run_command.
  destruct o as [[cl msg] | p]; cbn in Ho.
  - destruct Ho as [-> | ->]; cbn; eauto.
  - destruct (negb (returncode p =? 0)).
    + destruct (contains _ _ || contains _ _); cbn; eauto.
    + destruct (json_loads (stdout p)); cbn; eauto.
Qed.

Lemma last_app_some {A} (l1 l2 : list A) (x : A) :
  last l2 = Some x -> last (l1 ++ l2) = Some x.
Proof.
  intros H. destruct l2 as [| y l2]; [discriminate H |].
  rewrite last_app_cons. exact H.
Qed.

Lemma exits_app (a b : list event) : exits (a ++ b) = exits a || exits b.
Proof. apply existsb_app. Qed.

Lemma shows_dialog_app (a b : list event) :
  shows_dialog (a ++ b) = shows_dialog a || shows_dialog b.
Proof. apply existsb_app. Qed.

(** Whatever the availability probe meets, [start] never shows the
    "Jotta CLI Not Found" dialog and never exits the process; when the
    command completes, when the executable is missing and when the timeout
    expires, it registers its subscriber, starts the monitor and enters
    the GTK main loop. *)
Theorem start_never_fatal (self : App.JottaTrayApp) (o : proc_outcome)
    (initial : option SyncStatus) :
  let run := App.start json_loads self o initial in
  exits run.1.1 = false
  /\ shows_dialog run.1.1 = false
  /\ (subprocess_outcome o ->
      run.1.2 = Ok None
      /\ last run.1.1 = Some GtkMain
      /\ Monitor._running (App.monitor run.2) = true
      /\ App._on_status_change ∈ Monitor._callbacks (App.monitor run.2)).
Proof.
  intros run. subst run. unfold App.start.
  pose proof (check_available_profile (App.app_cli self) o) as Hp.
  pose proof (check_available_total (App.app_cli self) o) as Hs.
  destruct (check_available json_loads (App.app_cli self) o) as [tr [b | e]];
    cbn [fst snd] in Hp; destruct Hp as (He & Hd & Hc).
  - unfold Monitor.add_callback, Monitor.start.
    destruct (Monitor._running _) eqn:Hr, b, initial; cbn [negb fst snd];
      rewrite ?exits_app, ?shows_dialog_app, ?He, ?Hd;
      (split; [reflexivity | split; [reflexivity |]]);
      intros _; cbn [App.monitor Monitor._running Monitor._callbacks
                       Monitor.set_callbacks Monitor.set_running];
      (split; [reflexivity | split; [| split]]);
      try (repeat apply last_app_some; reflexivity);
      try assumption; try reflexivity; apply elem_of_app; right; left.
  - rewrite Hc. cbn [fst snd]. rewrite ?exits_app, ?shows_dialog_app, ?He, ?Hd.
    split; [reflexivity | split; [reflexivity |]].
    intros Ho. destruct (Hs Ho) as [b Hb]. discriminate Hb.
Qed.

End StartMore.

(** ** Rounding between representable numbers *)

Section RoundingBounds.

(** [rne] does not cross an integer from below. *)
Lemma rne_le_int (x : Q) (N : Z) : (x <= inject_Z N)%Q -> rne x <= N.
Proof.
  destruct x as [a b]. unfold Qle. cbn [Qnum Qden inject_Z]. intros H.
  pose proof (Z.div_mod a (Zpos b) ltac:(lia)) as Hdm.
  pose proof (Z.mod_pos_bound a (Zpos b) ltac:(lia)) as Hm.
  destruct (rne_floor_or_next a b) as [-> | [-> Hhalf]]; nia.
Qed.

(** [rne x] reaches [N] as soon as [x] is past [N - 1/2], or at it when
    [N] is even. *)
Lemma rne_ge_half (x : Q) (N : Z) :
  (inject_Z (2 * N - 1) < 2 * x)%Q
  \/ ((inject_Z (2 * N - 1) <= 2 * x)%Q /\ Z.even N = true) ->
  N <= rne x.
Proof.
  destruct x as [a b]. unfold Qlt, Qle, rne. cbn [Qnum Qden inject_Z Qmult].
  intros H.
  pose proof (Z.div_mod a (Zpos b) ltac:(lia)) as Hdm.
  pose proof (Z.mod_pos_bound a (Zpos b) ltac:(lia)) as Hm.
  set (q := a / Zpos b) in *. set (r := a mod Zpos b) in *.
  assert (Hb : Zpos (1 * b) = Zpos b) by (f_equal; lia).
  rewrite Hb in H.
  destruct (Z.compare_spec (2 * r) (Zpos b)) as [E | E | E].
  - destruct (Z.even q) eqn:Eq.
    + destruct H as [H | [H Hev]]; [nia |].
      assert (q <> N - 1); [| nia].
      intros ->. replace N with (Z.succ (N - 1)) in Hev by lia.
      rewrite Z.even_succ in Hev. rewrite <- Z.negb_even in Hev.
      rewrite Eq in Hev. discriminate Hev.
    + destruct H as [H | [H _]]; nia.
  - destruct H as [H | [H _]]; nia.
  - destruct H as [H | [H _]]; nia.
Qed.

Lemma rne_ge_int (x : Q) (N : Z) : (inject_Z N <= x)%Q -> N <= rne x.
Proof.
  intros H. apply rne_ge_half. left.
  destruct x as [a b]. unfold Qlt, Qle in *.
  cbn [Qnum Qden inject_Z Qmult] in *.
  assert (Hb : Zpos (1 * b) = Zpos b) by (f_equal; lia).
  rewrite Hb. nia.
Qed.

Lemma pow2_neq_0 (e : Z) : ~ (pow2 e == 0)%Q.
Proof.
  intros H0. pose proof (pow2_pos e) as Hp. rewrite H0 in Hp.
  discriminate Hp.
Qed.

Lemma ilog2_lt (x : Q) (a : Z) :
  (0 < x)%Q -> (x < pow2 a)%Q -> ilog2 x < a.
Proof.
  intros Hx H. destruct (ilog2_spec x Hx) as [I1 _].
  apply pow2_lt_inv. eapply Qle_lt_trans; [exact I1 | exact H].
Qed.

Lemma ilog2_ge (x : Q) (a : Z) : (pow2 a <= x)%Q -> a <= ilog2 x.
Proof.
  intros H.
  assert (Hx : (0 < x)%Q) by (eapply Qlt_le_trans; [apply pow2_pos | exact H]).
  destruct (ilog2_spec x Hx) as [_ I2].
  assert (a < ilog2 x + 1); [| lia].
  apply pow2_lt_inv. eapply Qle_lt_trans; [exact H | exact I2].
Qed.

(** Rounding stays at or below a representable number that bounds the
    argument, and so never overflows there. *)
Lemma round_pos_le (x c : Q) :
  (0 < x)%Q -> (x <= c)%Q -> representable c ->
  exists r, round_pos x = Some r /\ (0 <= r)%Q /\ (r <= c)%Q.
Proof.
  intros Hx Hxc (m & e & Hm & He1 & He2 & Hc).
  destruct (representable_bounds c m e Hm Hc) as [_ Hchi].
  assert (Hlog : ilog2 x < e + 53)
    by (apply ilog2_lt; [exact Hx | eapply Qle_lt_trans; eassumption]).
  unfold round_pos.
  set (ex := Z.max (ilog2 x - (prec - 1)) emin).
  assert (Hex : ex <= e) by (unfold ex, prec in *; lia).
  set (N := m * 2 ^ (e - ex)).
  assert (HcN : (c == inject_Z N * pow2 ex)%Q).
  { rewrite Hc. unfold N. rewrite inject_Z_mult, <- (pow2_Z (e - ex)) by lia.
    rewrite <- Qmult_assoc, <- pow2_add. replace (e - ex + ex) with e by lia.
    reflexivity. }
  assert (Hle : rne (x / pow2 ex) <= N).
  { apply rne_le_int. apply Qle_shift_div_r; [apply pow2_pos |].
    rewrite <- HcN. exact Hxc. }
  assert (Hge : 0 <= rne (x / pow2 ex)).
  { apply rne_nonneg. apply Qle_shift_div_l; [apply pow2_pos |].
    rewrite Qmult_0_l. apply Qlt_le_weak, Hx. }
  set (mr := rne (x / pow2 ex)) in *.
  assert (Hrc : (inject_Z mr * pow2 ex <= c)%Q).
  { rewrite HcN. apply Qmult_le_r; [apply pow2_pos |].
    rewrite <- Zle_Qle. exact Hle. }
  destruct (Qle_bool (pow2 emax) (Qred (inject_Z mr * pow2 ex))) eqn:E.
  - exfalso. apply Qle_bool_iff in E. rewrite Qred_correct in E.
    apply (Qlt_irrefl c). eapply Qlt_le_trans; [exact Hchi |].
    eapply Qle_trans; [| eapply Qle_trans; [exact E | exact Hrc]].
    apply pow2_le. unfold prec in *. lia.
  - eexists. split; [reflexivity |]. rewrite Qred_correct. split; [| exact Hrc].
    apply Qmult_le_0_compat; [| apply Qlt_le_weak, pow2_pos].
    unfold Qle. cbn [Qnum Qden inject_Z]. lia.
Qed.

(** Rounding reaches the number [m * 2^e] from any argument in its binade
    or above that is past the midpoint below it -- or at the midpoint when
    [m] is even. *)
Lemma round_pos_ge_half (x : Q) (m e : Z) (r : Q) :
  2 ^ 52 <= m <= 2 ^ 53 -> emin <= e ->
  (pow2 (e + 52) <= x)%Q ->
  (inject_Z (2 * m - 1) * pow2 e < 2 * x)%Q
  \/ ((inject_Z (2 * m - 1) * pow2 e <= 2 * x)%Q /\ Z.even m = true) ->
  round_pos x = Some r ->
  (inject_Z m * pow2 e <= r)%Q.
Proof.
  intros Hm He Hbin Hhalf Hr.
  pose proof (ilog2_ge x (e + 52) Hbin) as Hlog.
  assert (Hx : (0 < x)%Q)
    by (eapply Qlt_le_trans; [apply pow2_pos | exact Hbin]).
  destruct (ilog2_spec x Hx) as [I1 _].
  unfold round_pos in Hr.
  replace (Z.max (ilog2 x - (prec - 1)) emin) with (ilog2 x - 52) in Hr
    by (unfold prec; lia).
  set (ex := ilog2 x - 52) in *.
  destruct (Qle_bool _ _); [discriminate Hr |].
  injection Hr as <-. rewrite Qred_correct.
  destruct (Z.eq_dec ex e) as [Heq | Hne].
  - rewrite Heq. apply Qmult_le_r; [apply pow2_pos |].
    rewrite <- Zle_Qle. apply rne_ge_half.
    assert (Hrw : (2 * (x / pow2 e) == 2 * x / pow2 e)%Q)
      by (field; apply pow2_neq_0).
    destruct Hhalf as [H | [H Hev]]; [left | right; split; [| exact Hev]];
      rewrite Hrw.
    + apply Qlt_shift_div_l; [apply pow2_pos | exact H].
    + apply Qle_shift_div_l; [apply pow2_pos | exact H].
  - assert (Hgt : e + 1 <= ex) by (unfold ex in *; lia).
    apply Qle_trans with (inject_Z (2 ^ 52) * pow2 ex)%Q.
    + apply Qle_trans with (inject_Z (2 ^ 53) * pow2 e)%Q.
      * apply Qmult_le_r; [apply pow2_pos |]. rewrite <- Zle_Qle. lia.
      * rewrite <- (pow2_Z 53), <- (pow2_Z 52), <- !pow2_add by lia.
        apply pow2_le. lia.
    + apply Qmult_le_r; [apply pow2_pos |].
      rewrite <- Zle_Qle. apply rne_ge_int.
      apply Qle_shift_div_l; [apply pow2_pos |].
      rewrite <- (pow2_Z 52), <- pow2_add by lia.
      replace (52 + ex) with (ilog2 x) by (unfold ex; lia). exact I1.
Qed.

End RoundingBounds.

(** ** The formatters beyond the claims *)

Section FormatBytesDomain.

Import Utils.

Lemma round_pos_some_lt (x r : Q) :
  round_pos x = Some r -> (r < pow2 emax)%Q.
Proof.
  unfold round_pos. destruct (Qle_bool _ _) eqn:E; [discriminate |].
  intros [= <-]. apply Qnot_le_lt. intros H.
  apply Qle_bool_iff in H. congruence.
Qed.

Lemma round_of_pos (x : Q) : (0 < x)%Q -> round x = round_pos x.
Proof.
  intros Hx. destruct (Qnum_pos x Hx) as [p Hp]. unfold round.
  rewrite Hp. reflexivity.
Qed.

Lemma inject_Z_pos (n : Z) : 0 < n -> (0 < inject_Z n)%Q.
Proof. intros H. unfold Qlt. cbn [Qnum Qden inject_Z]. lia. Qed.

(** [float(n)] overflows from [2^1024 - 2^970] on. *)
Lemma of_int_overflow (n : Z) :
  2 ^ 1024 - 2 ^ 970 <= n ->
  of_int n = Raise (Exn OverflowError "int too large to convert to float").
Proof.
  intros Hn.
  assert (Hbig : 2 ^ 1023 <= 2 ^ 1024 - 2 ^ 970) by (vm_compute; discriminate).
  assert (Hpos : 0 < n) by (pose proof (Z.pow_pos_nonneg 2 1023); lia).
  unfold of_int. rewrite round_of_pos by (apply inject_Z_pos, Hpos).
  destruct (round_pos (inject_Z n)) as [r |] eqn:Er; [| reflexivity].
  exfalso. pose proof (round_pos_some_lt _ _ Er) as Hlt.
  assert (Hge : (inject_Z (2 ^ 53) * pow2 971 <= r)%Q).
  { apply (round_pos_ge_half (inject_Z n) (2 ^ 53) 971 r).
    - lia.
    - unfold emin. lia.
    - rewrite pow2_Z by lia. rewrite <- Zle_Qle.
      change (971 + 52) with 1023. lia.
    - right. split; [| reflexivity].
      rewrite pow2_Z by lia. rewrite <- inject_Z_mult.
      change 2%Q with (inject_Z 2). rewrite <- inject_Z_mult, <- Zle_Qle.
      assert (E : (2 * 2 ^ 53 - 1) * 2 ^ 971 = 2 * (2 ^ 1024 - 2 ^ 970))
        by (vm_compute; reflexivity).
      rewrite E. lia.
    - exact Er. }
  apply (Qlt_irrefl r). eapply Qlt_le_trans; [exact Hlt |].
  eapply Qle_trans; [| exact Hge].
  rewrite <- (pow2_Z 53), <- pow2_add by lia. apply pow2_le.
  unfold emax. lia.
Qed.

(** Below the bound [format_bytes] returns a string. *)
Lemma format_bytes_total (n d : Z) :
  n < 2 ^ 1024 - 2 ^ 970 -> 0 <= d -> exists s, format_bytes n d = Ok s.
Proof.
  intros Hn Hd.
  destruct (Z_lt_le_dec n 0) as [H0 | H0].
  { exists "0 B". unfold format_bytes. apply Z.ltb_lt in H0. rewrite H0.
    reflexivity. }
  destruct (Z_lt_le_dec n 1024) as [H1 | H1].
  { eexists. apply format_bytes_B. lia. }
  assert (Hk : exists k : nat,
             (1 <= k <= 5)%nat /\ 1024 ^ Z.of_nat k <= n
             /\ ((k < 5)%nat -> n < 1024 ^ (Z.of_nat k + 1))).
  { destruct (Z_lt_le_dec n (1024 ^ 2)) as [H2 | H2];
      [exists 1%nat; repeat split; try lia; cbn; lia |].
    destruct (Z_lt_le_dec n (1024 ^ 3)) as [H3 | H3];
      [exists 2%nat; repeat split; try lia; cbn; lia |].
    destruct (Z_lt_le_dec n (1024 ^ 4)) as [H4 | H4];
      [exists 3%nat; repeat split; try lia; cbn; lia |].
    destruct (Z_lt_le_dec n (1024 ^ 5)) as [H5 | H5];
      [exists 4%nat; repeat split; try lia; cbn; lia |].
    exists 5%nat. repeat split; try lia; cbn; lia. }
  destruct Hk as (k & Hk & Hlo & Hup).
  destruct (format_bytes_tier n d k Hn Hd Hk Hlo Hup) as (v & _ & _ & _ & Hf).
  eexists. exact Hf.
Qed.

(** With a non-negative [decimal_places], [format_bytes] returns a string
    exactly for the integers below [2^1024 - 2^970]; from there on it
    raises [OverflowError]. *)
Theorem format_bytes_returns_iff (n d : Z) :
  0 <= d ->
  ((exists s, format_bytes n d = Ok s) <-> n < 2 ^ 1024 - 2 ^ 970)
  /\ (2 ^ 1024 - 2 ^ 970 <= n ->
      format_bytes n d
      = Raise (Exn OverflowError "int too large to convert to float")).
Proof.
  intros Hd.
  assert (Hover : 2 ^ 1024 - 2 ^ 970 <= n ->
                  format_bytes n d
                  = Raise (Exn OverflowError
                             "int too large to convert to float")).
  { intros Hn. unfold format_bytes.
    assert (Hbig : 0 <= 2 ^ 1024 - 2 ^ 970) by (vm_compute; discriminate).
    assert (E : (n <? 0) = false) by (apply Z.ltb_ge; lia).
    rewrite E, (of_int_overflow n Hn). reflexivity. }
  split; [| exact Hover].
  split.
  - intros [s Hs]. destruct (Z_lt_le_dec n (2 ^ 1024 - 2 ^ 970)) as [H | H];
      [exact H |].
    rewrite (Hover H) in Hs. discriminate Hs.
  - intros Hn. apply format_bytes_total; assumption.
Qed.

End FormatBytesDomain.

Section QuotaWarning.

Import Utils.

Lemma representable_intro (c : Q) (m e : Z) :
  2 ^ 52 <= m < 2 ^ 53 -> emin <= e -> e + prec <= emax ->
  (c == inject_Z m * pow2 e)%Q -> representable c.
Proof. intros. exists m, e. auto. Qed.

(** The quotient of two non-negative integers, as [true division]
    computes it: rounded, and squeezed between the representable numbers
    that bound the exact quotient. *)
Lemma truediv_ints (used total : Z) :
  0 < used -> 0 < total -> used < 2 ^ 1023 ->
  exists r,
    PyVal.truediv (PInt used) (PInt total) = Ok (FFin r)
    /\ round_pos (inject_Z used / inject_Z total) = Some r.
Proof.
  intros Hu Ht Hb. unfold PyVal.truediv. cbn [PyVal.as_number].
  assert (E : (total =? 0) = false) by (apply Z.eqb_neq; lia). rewrite E.
  assert (Hx : (0 < inject_Z used / inject_Z total)%Q).
  { apply Qlt_shift_div_l; [apply inject_Z_pos, Ht |].
    rewrite Qmult_0_l. apply inject_Z_pos, Hu. }
  rewrite round_of_pos by exact Hx.
  destruct (round_pos_le (inject_Z used / inject_Z total) (pow2 1023) Hx)
    as (r & Hr & _ & _).
  - apply Qle_shift_div_r; [apply inject_Z_pos, Ht |].
    apply Qle_trans with (pow2 1023 * 1)%Q.
    + rewrite Qmult_1_r, pow2_Z by lia. rewrite <- Zle_Qle. lia.
    + apply Qmult_le_l; [apply pow2_pos |].
      change 1%Q with (inject_Z 1). rewrite <- Zle_Qle. lia.
  - apply (representable_intro _ (2 ^ 52) 971);
      [lia | unfold emin; lia | unfold prec, emax; lia |].
    rewrite <- (pow2_Z 52), <- pow2_add by lia. reflexivity.
  - exists r. rewrite Hr. auto.
Qed.

(** [detect_quota_warning] with the default threshold never hides a full
    quota and never cries wolf: for integers with [0 <= used < 2^1023] and
    [total > 0] it answers [True] whenever [used] is at least 90% of
    [total] and [False] whenever [used] is at most 89.9% of [total]; with
    [total == 0] it answers [False] whatever [used] is. *)
Theorem detect_quota_warning_thresholds (used total : Z) (anything : pyval) :
  detect_quota_warning anything (PInt 0) default_threshold_percent = Ok false
  /\ (0 < total -> 0 <= used < 2 ^ 1023 ->
      (90 * total <= 100 * used ->
       detect_quota_warning (PInt used) (PInt total) default_threshold_percent
       = Ok true)
      /\ (1000 * used <= 899 * total ->
          detect_quota_warning (PInt used) (PInt total)
            default_threshold_percent
          = Ok false)).
Proof.
  split; [reflexivity |].
  intros Ht [Hu0 Hub].
  assert (Ez : PyVal.eq_zero (PInt total) = false)
    by (cbn; apply Z.eqb_neq; lia).
  assert (Htq : (0 < inject_Z total)%Q) by (apply inject_Z_pos, Ht).
  split.
  - intros H90.
    assert (Hu : 0 < used) by lia.
    destruct (truediv_ints used total Hu Ht Hub) as (r & Hdiv & Hr).
    unfold detect_quota_warning. rewrite Ez, Hdiv.
    cbn [mbind result_bind Py.bind fmul].
    set (x := (inject_Z used / inject_Z total)%Q) in *.
    assert (Hx : (9 # 10 <= x)%Q).
    { apply Qle_shift_div_l; [exact Htq |].
      unfold Qle. cbn [Qnum Qden Qmult inject_Z]. lia. }
    assert (Hr9 : (inject_Z 8106479329266893 * pow2 (-53) <= r)%Q).
    { apply (round_pos_ge_half x 8106479329266893 (-53) r).
      - vm_compute. split; discriminate.
      - unfold emin. lia.
      - eapply Qle_trans; [| exact Hx]. vm_compute. discriminate.
      - left. apply Qlt_le_trans with (2 * (9 # 10))%Q; [reflexivity |].
        apply Qmult_le_l; [reflexivity | exact Hx].
      - exact Hr. }
    assert (Hr100 : (inject_Z 8106479329266893 * pow2 (-53) * 100
                     <= r * 100)%Q)
      by (apply Qmult_le_r; [reflexivity | exact Hr9]).
    assert (Hrpos : (0 < r * 100)%Q)
      by (eapply Qlt_le_trans; [| exact Hr100]; reflexivity).
    unfold fround. rewrite round_of_pos by exact Hrpos.
    destruct (round_pos (r * 100)) as [p |] eqn:Ep.
    + cbn [fge default_threshold_percent]. f_equal. apply Qle_bool_iff.
      apply Qle_trans with (inject_Z 6333186975989760 * pow2 (-46))%Q;
        [vm_compute; discriminate |].
      apply (round_pos_ge_half (r * 100) 6333186975989760 (-46) p).
      * vm_compute. split; discriminate.
      * unfold emin. lia.
      * eapply Qle_trans; [| exact Hr100]. vm_compute. discriminate.
      * left. eapply Qlt_le_trans;
          [| apply Qmult_le_l; [reflexivity | exact Hr100]].
        reflexivity.
      * exact Ep.
    + assert (En : is_neg (r * 100) = false).
      { destruct (Qnum_pos _ Hrpos) as [q Eq]. unfold is_neg. rewrite Eq.
        reflexivity. }
      rewrite En. reflexivity.
  - intros H899. unfold detect_quota_warning. rewrite Ez.
    destruct (Z.eq_dec used 0) as [-> | Hne].
    { unfold PyVal.truediv. cbn [PyVal.as_number].
      assert (E : (total =? 0) = false) by (apply Z.eqb_neq; lia).
      rewrite E. destruct total as [| t | t]; try lia. reflexivity. }
    assert (Hu : 0 < used) by lia.
    destruct (truediv_ints used total Hu Ht Hub) as (r & Hdiv & Hr).
    rewrite Hdiv. cbn [mbind result_bind Py.bind fmul].
    set (x := (inject_Z used / inject_Z total)%Q) in *.
    assert (Hx : (0 < x)%Q).
    { apply Qlt_shift_div_l; [exact Htq |].
      rewrite Qmult_0_l. apply inject_Z_pos, Hu. }
    assert (Hxc : (x <= 921 # 1024)%Q).
    { apply Qle_shift_div_r; [exact Htq |].
      unfold Qle. cbn [Qnum Qden Qmult inject_Z]. lia. }
    destruct (round_pos_le x (921 # 1024) Hx Hxc) as (r' & Hr' & Hr0 & Hrc).
    { apply (representable_intro _ (921 * 2 ^ 43) (-53));
        [vm_compute; split; [discriminate | reflexivity]
        | unfold emin; lia | unfold prec, emax; lia | reflexivity]. }
    rewrite Hr in Hr'. injection Hr' as <-.
    unfold fround.
    destruct (Qnum (r * 100)) as [| q | q] eqn:Eq.
    + unfold round. rewrite Eq. reflexivity.
    + assert (Hrpos : (0 < r * 100)%Q)
        by (unfold Qlt; cbn [Qnum Qden]; rewrite Eq; reflexivity).
      rewrite round_of_pos by exact Hrpos.
      destruct (round_pos_le (r * 100) (23025 # 256) Hrpos)
        as (p & Hp & _ & Hpc).
      * apply Qle_trans with ((921 # 1024) * 100)%Q;
          [apply Qmult_le_r; [reflexivity | exact Hrc] |].
        vm_compute. discriminate.
      * apply (representable_intro _ (23025 * 2 ^ 38) (-46));
          [vm_compute; split; [discriminate | reflexivity]
          | unfold emin; lia | unfold prec, emax; lia | reflexivity].
      * rewrite Hp. cbn [fge default_threshold_percent]. f_equal.
        destruct (Qle_bool 90 p) eqn:E; [| reflexivity].
        apply Qle_bool_iff in E. exfalso.
        assert (H : (90 <= 23025 # 256)%Q)
          by (eapply Qle_trans; [exact E | exact Hpc]).
        vm_compute in H. apply H. reflexivity.
    + exfalso. assert (H : (0 <= r * 100)%Q)
        by (apply Qmult_le_0_compat; [exact Hr0 | discriminate]).
      unfold Qle in H. cbn [Qnum Qden] in H. rewrite Eq in H. lia.
Qed.

End QuotaWarning.

Section QuotaText.

Import Utils UtilsMore.

Lemma one_representable : representable 1.
Proof.
  apply (representable_intro _ (2 ^ 52) (-52));
    [lia | unfold emin; lia | unfold prec, emax; lia | reflexivity].
Qed.

Lemma hundred_representable : representable 100.
Proof.
  apply (representable_intro _ (100 * 2 ^ 46) (-46));
    [vm_compute; split; [discriminate | reflexivity]
    | unfold emin; lia | unfold prec, emax; lia | reflexivity].
Qed.

(** A ratio of at most one, times 100 as floats, is a percentage between
    0 and 100. *)
Lemma percentage_bounds (r : Q) :
  (0 <= r)%Q -> (r <= 1)%Q ->
  exists pct, fmul (FFin r) (FFin 100) = FFin pct
              /\ (0 <= pct)%Q /\ (pct <= 100)%Q.
Proof.
  intros Hr0 Hr1. cbn [fmul]. unfold fround.
  destruct (Qnum (r * 100)) as [| q | q] eqn:Eq.
  - unfold round. rewrite Eq. exists 0%Q. repeat split; discriminate.
  - assert (Hpos : (0 < r * 100)%Q)
      by (unfold Qlt; cbn [Qnum Qden]; rewrite Eq; reflexivity).
    rewrite round_of_pos by exact Hpos.
    destruct (round_pos_le (r * 100) 100 Hpos) as (p & Hp & Hp0 & Hp100).
    + apply Qle_trans with (1 * 100)%Q; [| discriminate].
      apply Qmult_le_r; [reflexivity | exact Hr1].
    + exact hundred_representable.
    + rewrite Hp. eauto.
  - exfalso. assert (H : (0 <= r * 100)%Q)
      by (apply Qmult_le_0_compat; [exact Hr0 | discriminate]).
    unfold Qle in H. cbn [Qnum Qden] in H. rewrite Eq in H. lia.
Qed.

(** [format_quota] answers "Unknown quota" and 0.0 when the total is 0,
    whatever is used. For [0 <= used <= total] with a positive total below
    [2^1023] it does not raise: the text is the two sizes as
    [format_bytes] prints them and the percentage without decimals, and
    the percentage it returns lies between 0 and 100 -- rounding never
    pushes it past 100. *)
Theorem format_quota_within_quota (used total : Z) :
  format_quota used 0 = Ok ("Unknown quota", FFin 0)
  /\ (0 <= used <= total -> 0 < total < 2 ^ 1023 ->
      exists used_str total_str pct,
        format_bytes used default_decimal_places = Ok used_str
        /\ format_bytes total default_decimal_places = Ok total_str
        /\ format_quota used total
           = Ok (used_str +:+ " / " +:+ total_str
                   +:+ " (" +:+ format_fixed pct 0 +:+ "%)",
                 FFin pct)
        /\ (0 <= pct)%Q /\ (pct <= 100)%Q).
Proof.
  split; [reflexivity |].
  intros [Hu0 Hut] [Ht0 Htb].
  assert (Hbound : 2 ^ 1023 < 2 ^ 1024 - 2 ^ 970) by (vm_compute; reflexivity).
  destruct (format_bytes_total used default_decimal_places) as [us Hus];
    [lia | unfold default_decimal_places; lia |].
  destruct (format_bytes_total total default_decimal_places) as [ts Hts];
    [lia | unfold default_decimal_places; lia |].
  assert (Hratio : exists r, PyVal.truediv (PInt used) (PInt total) = Ok (FFin r)
                             /\ (0 <= r)%Q /\ (r <= 1)%Q).
  { destruct (Z.eq_dec used 0) as [-> | Hne].
    - exists 0%Q. split; [| split; discriminate].
      unfold PyVal.truediv. cbn [PyVal.as_number].
      assert (E : (total =? 0) = false) by (apply Z.eqb_neq; lia).
      rewrite E. destruct total as [| t | t]; try lia. reflexivity.
    - assert (Hu : 0 < used) by lia.
      destruct (truediv_ints used total Hu Ht0 ltac:(lia)) as (r & Hdiv & Hr).
      exists r. split; [exact Hdiv |].
      destruct (round_pos_le (inject_Z used / inject_Z total) 1)
        as (r' & Hr' & Hr0 & Hr1).
      + apply Qlt_shift_div_l; [apply inject_Z_pos, Ht0 |].
        rewrite Qmult_0_l. apply inject_Z_pos, Hu.
      + apply Qle_shift_div_r; [apply inject_Z_pos, Ht0 |].
        rewrite Qmult_1_l, <- Zle_Qle. exact Hut.
      + exact one_representable.
      + rewrite Hr in Hr'. injection Hr' as <-. auto. }
  destruct Hratio as (r & Hdiv & Hr0 & Hr1).
  destruct (percentage_bounds r Hr0 Hr1) as (pct & Hpct & Hp0 & Hp100).
  exists us, ts, pct.
  split; [exact Hus | split; [exact Hts | split; [| auto]]].
  unfold format_quota.
  assert (E : (total =? 0) = false) by (apply Z.eqb_neq; lia).
  rewrite E, Hdiv. cbn [mbind result_bind Py.bind].
  rewrite Hpct, Hus, Hts. reflexivity.
Qed.

End QuotaText.

Section TransferSpeed.

Import Utils UtilsMore.

(** The loop of [format_transfer_speed] on a representable value that
    needs [j] more divisions. *)
Lemma speed_loop_steps (j : nat) :
  forall (fuel : nat) (w : Q) (idx : nat),
    representable w ->
    (pow2 (10 * Z.of_nat j) <= w)%Q ->
    (w < pow2 (10 * (Z.of_nat j + 1)))%Q \/ (idx + j = 3)%nat ->
    (idx + j <= 3)%nat -> (j < fuel)%nat ->
    exists w',
      (w' == w / pow2 (10 * Z.of_nat j))%Q
      /\ speed_loop fuel (FFin w) idx = Ok (FFin w', (idx + j)%nat).
Proof.
  induction j as [| j IH]; intros fuel w idx Hrep Hlo Hstop Hidx Hfuel.
  - exists w. split.
    + change (pow2 (10 * Z.of_nat 0)) with 1%Q. field.
    + destruct fuel as [| fuel]; [lia |]. cbn [speed_loop].
      rewrite Nat.add_0_r.
      destruct Hstop as [Hlt | Heq].
      * assert (E : fge (FFin w) (FFin 1024) = false).
        { cbn [fge]. destruct (Qle_bool 1024 w) eqn:E; [| reflexivity].
          apply Qle_bool_iff in E. exfalso.
          apply (Qlt_irrefl w). eapply Qlt_le_trans; [exact Hlt | exact E]. }
        rewrite E. reflexivity.
      * rewrite Nat.add_0_r in Heq. subst idx.
        rewrite andb_false_r. reflexivity.
  - destruct fuel as [| fuel]; [lia |]. cbn [speed_loop].
    assert (Hge : (1024 <= w)%Q).
    { eapply Qle_trans; [| exact Hlo].
      change 1024%Q with (pow2 10). apply pow2_le. lia. }
    assert (E : fge (FFin w) (FFin 1024) = true)
      by (cbn [fge]; apply Qle_bool_iff; exact Hge).
    assert (E' : (idx <? length speed_units - 1)%nat = true)
      by (apply Nat.ltb_lt; cbn; lia).
    rewrite E, E'. cbn [andb].
    destruct (fdiv_1024_exact w Hrep Hge) as [Hdiv Hrep'].
    rewrite Hdiv. cbn [mbind result_bind Py.bind].
    set (w1 := Qred (w / 1024)) in *.
    assert (Hw1 : (w1 == w / 1024)%Q) by apply Qred_correct.
    assert (Hsplit : forall t : Z,
               (pow2 (10 * (t + 1)) == pow2 (10 * t) * 1024)%Q).
    { intros t. replace (10 * (t + 1)) with (10 * t + 10) by lia.
      rewrite pow2_add. reflexivity. }
    destruct (IH fuel w1 (S idx) Hrep') as (w' & Hw' & Hloop).
    + rewrite Hw1. apply Qle_shift_div_l; [reflexivity |].
      rewrite <- Hsplit.
      replace (Z.of_nat j + 1) with (Z.of_nat (S j)) by lia. exact Hlo.
    + destruct Hstop as [Hlt | Heq]; [left | right; lia].
      rewrite Hw1. apply Qlt_shift_div_r; [reflexivity |].
      rewrite <- Hsplit.
      replace (Z.of_nat j + 1) with (Z.of_nat (S j)) by lia. exact Hlt.
    + lia.
    + lia.
    + exists w'. split.
      * rewrite Hw', Hw1.
        replace (Z.of_nat (S j)) with (Z.of_nat j + 1) by lia.
        rewrite Hsplit. field. apply pow2_neq_0.
      * rewrite Hloop. f_equal. f_equal. lia.
Qed.

Lemma trunc_floor (x : Q) :
  (0 <= x)%Q ->
  (inject_Z (trunc x) <= x)%Q /\ (x < inject_Z (trunc x + 1))%Q
  /\ 0 <= trunc x.
Proof.
  destruct x as [a b]. unfold Qle, Qlt, trunc. cbn [Qnum Qden inject_Z].
  intros Ha. rewrite Z.quot_div_nonneg by lia.
  pose proof (Z.div_mod a (Zpos b) ltac:(lia)) as Hdm.
  pose proof (Z.mod_pos_bound a (Zpos b) ltac:(lia)) as Hm.
  assert (0 <= a / Zpos b) by (apply Z.div_pos; lia).
  repeat split; nia.
Qed.

(** [format_transfer_speed] at its edges and across its units. A negative
    speed, minus infinity included, prints as "0 B/s"; a NaN is not
    clamped and raises [ValueError]; plus infinity prints as "inf GB/s".
    A finite speed below 1024 prints its integral part -- fractions of a
    byte are cut off, not rounded -- with "B/s". From 1024 on, a binary64
    speed is divided by 1024 exactly [k] times, [k] being the number of
    divisions that bring it below 1024, capped at 3 for "GB/s", and printed
    with [decimal_places] decimals and the [k]-th unit. *)
Theorem format_transfer_speed_cases (x : Q) (d : Z) :
  0 <= d ->
  format_transfer_speed FNan d
    = Raise (Exn ValueError "cannot convert float NaN to integer")
  /\ format_transfer_speed (FInf true) d = Ok "0 B/s"
  /\ format_transfer_speed (FInf false) d = Ok "inf GB/s"
  /\ ((x < 0)%Q -> format_transfer_speed (FFin x) d = Ok "0 B/s")
  /\ ((0 <= x)%Q -> (x < 1024)%Q ->
      format_transfer_speed (FFin x) d = Ok (str_int (trunc x) +:+ " B/s")
      /\ (inject_Z (trunc x) <= x)%Q /\ (x < inject_Z (trunc x + 1))%Q)
  /\ (forall k : nat,
        representable x -> (1 <= k <= 3)%nat ->
        (inject_Z (1024 ^ Z.of_nat k) <= x)%Q ->
        ((k < 3)%nat -> (x < inject_Z (1024 ^ (Z.of_nat k + 1)))%Q) ->
        format_transfer_speed (FFin x) d
        = Ok (format_fixed (x / inject_Z (1024 ^ Z.of_nat k)) (Z.to_nat d)
                +:+ " " +:+ nth k speed_units "")).
Proof.
  intros Hd.
  assert (Edp : (d <? 0) = false) by (apply Z.ltb_ge; lia).
  split; [reflexivity | split; [reflexivity | split]].
  { unfold format_transfer_speed. cbn. rewrite Edp. reflexivity. }
  split; [| split].
  - intros Hx. unfold format_transfer_speed, flt. cbn [fge].
    destruct (Qle_bool 0 x) eqn:E; [| reflexivity].
    apply Qle_bool_iff in E. exfalso.
    apply (Qlt_irrefl x). eapply Qlt_le_trans; [exact Hx | exact E].
  - intros Hx0 Hx1.
    destruct (trunc_floor x Hx0) as (Hf1 & Hf2 & _).
    split; [| split; assumption].
    unfold format_transfer_speed, flt. cbn [fge].
    assert (E0 : Qle_bool 0 x = true) by (apply Qle_bool_iff; exact Hx0).
    rewrite E0. cbn [negb length speed_units speed_loop].
    assert (E : fge (FFin x) (FFin 1024) = false).
    { cbn [fge]. destruct (Qle_bool 1024 x) eqn:E; [| reflexivity].
      apply Qle_bool_iff in E. exfalso.
      apply (Qlt_irrefl x). eapply Qlt_le_trans; [exact Hx1 | exact E]. }
    rewrite E. reflexivity.
  - intros k Hrep Hk Hlo Hup.
    pose proof (representable_pos x Hrep) as Hpos.
    assert (Hlo' : (pow2 (10 * Z.of_nat k) <= x)%Q)
      by (rewrite pow2_1024; exact Hlo).
    assert (Hup' : (x < pow2 (10 * (Z.of_nat k + 1)))%Q \/ (0 + k = 3)%nat).
    { destruct (Nat.eq_dec k 3%nat) as [-> | Hne]; [right; reflexivity | left].
      replace (Z.of_nat k + 1) with (Z.of_nat (S k)) by lia.
      rewrite pow2_1024.
      replace (Z.of_nat (S k)) with (Z.of_nat k + 1) by lia.
      apply Hup. lia. }
    destruct (speed_loop_steps k (length speed_units) x 0%nat Hrep Hlo' Hup')
      as (w & Hw & Hloop); [lia | cbn; lia |].
    rewrite pow2_1024 in Hw.
    unfold format_transfer_speed, flt. cbn [fge].
    assert (E0 : Qle_bool 0 x = true)
      by (apply Qle_bool_iff, Qlt_le_weak, Hpos).
    rewrite E0. cbn [negb]. rewrite Hloop.
    cbn [mbind result_bind Py.bind Nat.add].
    assert (Ek : Nat.eqb k 0 = false) by (apply Nat.eqb_neq; lia).
    rewrite Ek, Edp. cbn [format_float].
    rewrite (format_fixed_compat w _ (Z.to_nat d) Hw). reflexivity.
Qed.

End TransferSpeed.

(** ** The tray handlers *)

Section TrayHandlers.

Import CLI Tray.

Variable json_loads : string -> pyval + string.

(** What [run_pause] and [run_resume] do when the command completes,
    the executable is missing or the timeout expires: one command line,
    and success or a [JottaCLIError]. *)
Lemma simple_command_profile (c : CLIInterface) (o : proc_outcome) :
  subprocess_outcome o ->
  let ok := match o with
            | ProcCompleted p => returncode p =? 0
            | ProcRaised _ => false
            end in
  (exists tr r,
     run_pause c o = (tr, r)
     /\ commands_run (map Gateway tr) = [[cli_path c; "pause"]]
     /\ dialogs (map Gateway tr) = []
     /\ (if ok then r = Ok true
         else exists e, r = Raise e /\ isinstance e JottaCLIError = true))
  /\ (exists tr r,
        run_resume c o = (tr, r)
        /\ commands_run (map Gateway tr) = [[cli_path c; "resume"]]
        /\ dialogs (map Gateway tr) = []
        /\ (if ok then r = Ok true
            else exists e, r = Raise e /\ isinstance e JottaCLIError = true)).
Proof.
  intros Ho. unfold run_pause, run_resume, on_timeout, _run_command.
  destruct o as [[cl msg] | p]; cbn in Ho |- *.
  - destruct Ho as [-> | ->]; cbn; split;
      do 2 eexists; (split; [reflexivity |]);
      (split; [reflexivity | split; [reflexivity |]]);
      eexists; split; reflexivity.
  - destruct (returncode p =? 0); cbn; split;
      do 2 eexists; (split; [reflexivity |]);
      (split; [reflexivity | split; [reflexivity |]]);
      try reflexivity; eexists; split; reflexivity.
Qed.

Lemma commands_run_app (a b : list ui_event) :
  commands_run (a ++ b) = commands_run a ++ commands_run b.
Proof.
  induction a as [| ev a IH]; [reflexivity |].
  destruct ev as [ev | | |];
    [destruct ev as [l m | | | | | | |]; [destruct l; destruct m |..] |..];
    cbn; rewrite IH; reflexivity.
Qed.

Lemma dialogs_app (a b : list ui_event) :
  dialogs (a ++ b) = dialogs a ++ dialogs b.
Proof.
  induction a as [| ev a IH]; [reflexivity |].
  destruct ev; cbn; rewrite IH; reflexivity.
Qed.

(** A click on the pause/resume item does not raise when the command
    completes, the executable is missing or the timeout expires. It runs
    exactly one command: [resume] when the last
    snapshot shown is paused -- that is, when the item is labelled "Resume
    Backup" -- and [pause] otherwise, also before any snapshot arrived.
    It shows no dialog when the command exits with code 0, and otherwise
    exactly one, titled "Action Failed". *)
Theorem pause_resume_click (self : TrayWidget) (o : proc_outcome) :
  subprocess_outcome o ->
  let run := _on_pause_resume self o in
  let command :=
    match _current_status self with
    | Some status =>
        if String.eqb (_update_pause_resume_item status) "Resume Backup"
        then "resume" else "pause"
    | None => "pause"
    end in
  run.2 = Ok tt
  /\ commands_run run.1 = [[cli_path (cli self); command]]
  /\ (match o with
      | ProcCompleted p => returncode p = 0
      | ProcRaised _ => False
      end -> dialogs run.1 = [])
  /\ (~ match o with
        | ProcCompleted p => returncode p = 0
        | ProcRaised _ => False
        end -> exists text, dialogs run.1 = [("Action Failed", text)]).
Proof.
  intros Ho run command. subst run command.
  destruct (simple_command_profile (cli self) o Ho)
    as [(trp & rp & Ep & Cp & Dp & Rp) (trr & rr & Er & Cr & Dr & Rr)].
  assert (Hok : match o with
                | ProcCompleted p => returncode p =? 0
                | ProcRaised _ => false
                end = true
                <-> match o with
                    | ProcCompleted p => returncode p = 0
                    | ProcRaised _ => False
                    end).
  { destruct o as [e | p]; [split; [discriminate | tauto] |].
    apply Z.eqb_eq. }
  unfold _on_pause_resume, _update_pause_resume_item.
  destruct (_current_status self) as [status |];
    [destruct (String.eqb (state status) "paused") |];
    cbn [String.eqb Ascii.eqb Bool.eqb andb];
    rewrite ?Ep, ?Er;
    destruct (match o with
              | ProcCompleted p => returncode p =? 0
              | ProcRaised _ => false
              end) eqn:Eok;
    repeat match goal with
           | H : ?r = Ok true |- _ => rewrite H; clear H
           | H : exists e, _ = Raise e /\ _ |- _ =>
               destruct H as (e & -> & He); rewrite He
           end;
    cbn [fst snd]; rewrite ?commands_run_app, ?dialogs_app, ?Cp, ?Cr, ?Dp, ?Dr;
    cbn [commands_run dialogs app _show_error_dialog];
    (split; [reflexivity | split; [reflexivity | split]]);
    try (intros _; reflexivity);
    try (intros Hn; exfalso; apply Hn, Hok; reflexivity);
    try (intros Hy; apply Hok in Hy; discriminate Hy);
    try (intros _; eexists; reflexivity).
Qed.

End TrayHandlers.

Section TrayLogs.

Import CLI Tray.






End TrayLogs.

Section TrayIcons.

Import CLI Monitor Tray.

Variable json_loads : string -> pyval + string.

(** Every state that [_fetch_status] puts in a snapshot has an icon of its
    own in [ICON_STATES], named ["jotta-"] followed by the state; the
    fallback of [_get_icon_name], the idle icon, is used for no snapshot
    of the monitor but only for a state that is none of the five known
    ones. *)
Theorem snapshot_icon (inp : cycle_input) (m m1 : StatusMonitor)
    (tr : list event) (s : SyncStatus) :
  (_fetch_status json_loads inp m = (tr, Ok s, m1) ->
   ICON_STATES !! state s = Some ("jotta-" +:+ state s)
   /\ _get_icon_name (state s) = "jotta-" +:+ state s)
  /\ (forall st, st ∉ ["idle"; "syncing"; "paused"; "error"; "offline"] ->
        _get_icon_name st = "jotta-idle").
Proof.
  split.
  - intros Hf.
    destruct (snapshot_profile json_loads inp m m1 tr s Hf)
      as (_ & _ & [E | [[E _] | [[E _] | [E _]]]]);
      rewrite E; split; reflexivity.
  - intros st Hst. unfold _get_icon_name, ICON_STATES.
    rewrite !lookup_insert_ne, lookup_singleton_ne; [reflexivity |..];
      intros <-; apply Hst; set_solver.
Qed.

End TrayIcons.

(** ** The properties at sample inputs *)

Import MoreSamples.

(** A decodable answer of the status command. *)
Lemma run_status_payload_iff_witness :
  (CLI.run_status (decodes_to syncing_payload) CLI.default_cli
     (CLI.ProcCompleted (printed "{}"))).2
  = Ok syncing_payload.
Proof.
  apply (proj2 (run_status_payload_iff (decodes_to syncing_payload)
                  CLI.default_cli (CLI.ProcCompleted (printed "{}"))
                  syncing_payload)).
  exists (printed "{}"). split; [reflexivity | split; reflexivity].
Defined.

(** The refused connection is reported as an offline daemon. *)
Lemma run_status_failure_classes_witness :
  (CLI.run_status Samples.no_json CLI.default_cli
     (CLI.ProcCompleted refused_process)).2
  = Raise (Exn DaemonOfflineError "Jotta daemon is not running").
Proof.
  apply (run_status_failure_classes Samples.no_json CLI.default_cli
           refused_process).
  cbn. lia.
Defined.

(** After a timeout [check_available] answers, and not with [False]. *)
Lemma check_available_false_iff_witness :
  exists b,
    (CLI.check_available Samples.no_json CLI.default_cli
       timed_out).2
    = Ok b
    /\ (b = false
        <-> (exists e, timed_out = CLI.ProcRaised e
                       /\ exn_class_of e = FileNotFoundError)
            \/ (exists p, timed_out = CLI.ProcCompleted p
                          /\ CLI.returncode p <> 0
                          /\ reports_offline p = true)).
Proof.
  apply (check_available_false_iff Samples.no_json CLI.default_cli timed_out).
  right. reflexivity.
Defined.

(** A pause command that exits with code 0. *)
Lemma pause_resume_succeed_iff_witness :
  (CLI.run_pause CLI.default_cli (CLI.ProcCompleted (printed ""))).2 = Ok true.
Proof.
  apply (proj2 (proj1 (pause_resume_succeed_iff CLI.default_cli
                         (CLI.ProcCompleted (printed "")) true))).
  split; [reflexivity |].
  exists (printed ""). split; reflexivity.
Defined.

(** The path printed by the [logfile] command, without its line feed. *)
Lemma get_logfile_path_some_iff_witness :
  has_newline "/home/u/.jottad/jottabackup.log" = false.
Proof.
  apply (proj2 (get_logfile_path_some_iff CLI.default_cli (fun _ => true)
                  logfile_printed "/home/u/.jottad/jottabackup.log")).
  vm_compute. reflexivity.
Defined.

(** A pass that finds an upload in flight sleeps for 2 seconds. *)
Lemma cycle_adapts_interval_witness :
  let run := Monitor.cycle (decodes_to syncing_payload) live_input
               (Monitor.__init__ CLI.default_cli) in
  sleeps run.1.1 = [2] /\ Monitor._current_interval run.2 = 2.
Proof.
  apply (cycle_adapts_interval (decodes_to syncing_payload) live_input
           (Monitor.__init__ CLI.default_cli)
           (Monitor.set_quota (PInt 95, PInt 100) 1000
              (Monitor.__init__ CLI.default_cli))
           [Log DEBUG (RunningCommand ["jotta-cli"; "status"; "--json"]);
            Log DEBUG StatusRetrieved;
            Log DEBUG (QuotaUpdated (PInt 95) (PInt 100))]
           syncing_status).
  vm_compute. reflexivity.
Defined.

(** A pass whose status command times out. *)
Lemma cycle_keeps_state_on_failure_witness :
  Monitor.cycle Samples.no_json timeout_input Samples.monitor_subscribed
  = ([Log DEBUG (RunningCommand ["jotta-cli"; "status"; "--json"]);
      Log ERROR (CommandTimedOut 5 ["jotta-cli"; "status"; "--json"])]
       ++ [Log ERROR
             (MonitorLoopError
                (Exn JottaCLIError
                   "Status command timed out - daemon may be unresponsive"));
           Sleep (Monitor._current_interval Samples.monitor_subscribed)],
     Ok tt, Samples.monitor_subscribed).
Proof.
  apply (cycle_keeps_state_on_failure Samples.no_json timeout_input
           Samples.monitor_subscribed
           [Log DEBUG (RunningCommand ["jotta-cli"; "status"; "--json"]);
            Log ERROR (CommandTimedOut 5 ["jotta-cli"; "status"; "--json"])]
           (Exn JottaCLIError
              "Status command timed out - daemon may be unresponsive")).
  - vm_compute. reflexivity.
  - reflexivity.
Defined.

(** [stop()] arrives during the second of three scheduled passes. *)
Lemma loop_exits_after_stop_witness :
  let run := Monitor.loop_from Samples.no_json
               ([Samples.offline_input]
                  ++ stopping_input :: [Samples.offline_input])
               Samples.monitor_subscribed in
  run.1.2 = Ok tt
  /\ Monitor._running run.2 = false
  /\ length (sleeps run.1.1) = 2%nat
  /\ last run.1.1 = Some (Log DEBUG MonitorLoopExited).
Proof.
  apply (loop_exits_after_stop Samples.no_json [Samples.offline_input]
           stopping_input [Samples.offline_input]
           Samples.monitor_subscribed).
  - reflexivity.
  - constructor; [reflexivity | constructor].
  - reflexivity.
  - discriminate.
Defined.

(** The snapshot of a pass that finds an upload in flight. *)
Lemma snapshot_state_invariant_witness :
  0 <= uploading_count syncing_status
  /\ 0 <= downloading_count syncing_status
  /\ (state syncing_status = "paused"
      \/ (state syncing_status = "syncing"
          /\ 0 < uploading_count syncing_status
                 + downloading_count syncing_status)
      \/ (state syncing_status = "idle"
          /\ uploading_count syncing_status = 0
          /\ downloading_count syncing_status = 0)
      \/ (state syncing_status = "offline"
          /\ uploading_count syncing_status = 0
          /\ downloading_count syncing_status = 0
          /\ quota_warning syncing_status = false))
  /\ state syncing_status <> "error".
Proof.
  apply (snapshot_state_invariant (decodes_to syncing_payload) live_input
           (Monitor.__init__ CLI.default_cli)
           (Monitor.set_quota (PInt 95, PInt 100) 1000
              (Monitor.__init__ CLI.default_cli))
           [Log DEBUG (RunningCommand ["jotta-cli"; "status"; "--json"]);
            Log DEBUG StatusRetrieved;
            Log DEBUG (QuotaUpdated (PInt 95) (PInt 100))]
           syncing_status).
  vm_compute. reflexivity.
Defined.



(** Installing on the sample disk and removing again. *)
Lemma install_then_uninstall_restores_witness :
  let fs1 := (Autostart.install_autostart Samples.permissive Samples.disk).2 in
  let run := Autostart.uninstall_autostart Samples.permissive fs1 in
  run.1.2 = Ok (true, "Autostart disabled successfully.")
  /\ Autostart.files run.2 = Autostart.files Samples.disk
  /\ Autostart.dirs run.2 = Autostart.dirs fs1
  /\ (Autostart.is_autostart_enabled Samples.permissive run.2).1.2 = Ok false.
Proof.
  apply (install_then_uninstall_restores Samples.permissive Samples.disk
           ["home"; "u"] "[Desktop Entry]").
  - split; [reflexivity | split; reflexivity].
  - reflexivity.
  - vm_compute. reflexivity.
  - vm_compute. repeat constructor.
  - apply (bool_decide_eq_false_1
             (autostart_file_of ["home"; "u"] ∈ Autostart.dirs Samples.disk)).
    vm_compute. reflexivity.
  - vm_compute. reflexivity.
Defined.

(** Installing from a disk without the template. *)
Lemma install_without_template_witness :
  exists e,
    Autostart.install_autostart Samples.permissive bare_disk
    = ([Log ERROR (AutostartInstallFailed e)], Ok (false, exn_str e),
       bare_disk)
    /\ exn_class_of e = AutostartError
    /\ exn_str e
       = "Desktop file template not found at "
           +:+ Autostart.path_str
                 (template_of (Autostart.module_dir Samples.permissive))
           +:+ ". "
           +:+ "This may indicate an incomplete installation.".
Proof.
  apply (install_without_template Samples.permissive bare_disk).
  - vm_compute. reflexivity.
  - apply (bool_decide_eq_false_1
             (template_of (Autostart.module_dir Samples.permissive)
                ∈ Autostart.dirs bare_disk)).
    vm_compute. reflexivity.
Defined.


(** Removing on a platform that refuses to remove files. *)
Lemma uninstall_refused_keeps_file_witness :
  exists l msg,
    Autostart.uninstall_autostart sticky disk_installed
    = ([Log ERROR l], Ok (false, msg), disk_installed)
    /\ (Autostart.is_autostart_enabled sticky disk_installed).1.2 = Ok true.
Proof.
  apply (uninstall_refused_keeps_file sticky disk_installed ["home"; "u"]
           "[Desktop Entry]"
           (Exn PermissionError "[Errno 13] Permission denied")).
  - reflexivity.
  - vm_compute. reflexivity.
  - reflexivity.
Defined.

(** Starting without the executable. *)
Lemma start_never_fatal_witness :
  let run := App.start Samples.no_json App.__init__ missing None in
  run.1.2 = Ok None
  /\ last run.1.1 = Some GtkMain
  /\ Monitor._running (App.monitor run.2) = true
  /\ App._on_status_change ∈ Monitor._callbacks (App.monitor run.2).
Proof.
  apply (proj2 (proj2 (start_never_fatal Samples.no_json App.__init__
                         missing None))).
  left. reflexivity.
Defined.

(** The first integer that [float] rejects. *)
Lemma format_bytes_returns_iff_witness :
  Utils.format_bytes (2 ^ 1024 - 2 ^ 970) 1
  = Raise (Exn OverflowError "int too large to convert to float").
Proof.
  assert (H : 0 <= 1) by lia.
  apply (proj2 (format_bytes_returns_iff (2 ^ 1024 - 2 ^ 970) 1 H)).
  apply Z.le_refl.
Defined.

(** 95 of 100 bytes. *)
Lemma detect_quota_warning_thresholds_witness :
  Utils.detect_quota_warning (PInt 95) (PInt 100)
    Utils.default_threshold_percent
  = Ok true.
Proof.
  assert (H1 : 0 < 100) by lia.
  assert (H2 : 0 <= 95 < 2 ^ 1023).
  { split; [lia | apply Z.ltb_lt; vm_compute; reflexivity]. }
  apply (proj1 (proj2 (detect_quota_warning_thresholds 95 100 PNone) H1 H2)).
  lia.
Defined.

(** 45 of 100 GB. *)
Lemma format_quota_within_quota_witness :
  exists used_str total_str pct,
    Utils.format_bytes 48318382080 Utils.default_decimal_places = Ok used_str
    /\ Utils.format_bytes 107374182400 Utils.default_decimal_places
       = Ok total_str
    /\ UtilsMore.format_quota 48318382080 107374182400
       = Ok (used_str +:+ " / " +:+ total_str
               +:+ " (" +:+ format_fixed pct 0 +:+ "%)",
             FFin pct)
    /\ (0 <= pct)%Q /\ (pct <= 100)%Q.
Proof.
  apply (proj2 (format_quota_within_quota 48318382080 107374182400)).
  - lia.
  - split; [lia | apply Z.ltb_lt; vm_compute; reflexivity].
Defined.

(** One mebibyte per second, with one decimal. *)
Lemma format_transfer_speed_cases_witness :
  UtilsMore.format_transfer_speed (FFin (inject_Z 1048576)) 1
  = Ok (format_fixed (inject_Z 1048576 / inject_Z (1024 ^ Z.of_nat 2))
          (Z.to_nat 1)
          +:+ " " +:+ nth 2 UtilsMore.speed_units "").
Proof.
  assert (H : 0 <= 1) by lia.
  apply (proj2 (proj2 (proj2 (proj2 (proj2
           (format_transfer_speed_cases (inject_Z 1048576) 1 H)))))
           2%nat).
  - apply representable_small_int.
    split; [lia | apply Z.ltb_lt; vm_compute; reflexivity].
  - lia.
  - apply Z.leb_le. vm_compute. reflexivity.
  - intros _. apply Z.ltb_lt. vm_compute. reflexivity.
Defined.

(** A click while the tray shows a paused snapshot and the daemon
    refuses the connection. *)
Lemma pause_resume_click_witness :
  let run := Tray._on_pause_resume tray_paused Samples.refused in
  run.2 = Ok tt
  /\ Tray.commands_run run.1 = [["jotta-cli"; "resume"]]
  /\ (1 = 0 -> Tray.dialogs run.1 = [])
  /\ (1 <> 0 -> exists text, Tray.dialogs run.1 = [("Action Failed", text)]).
Proof.
  apply (pause_resume_click tray_paused Samples.refused).
  exact I.
Defined.


(** The icon of a snapshot that says [syncing]. *)
Lemma snapshot_icon_witness :
  Tray.ICON_STATES !! state syncing_status
  = Some ("jotta-" +:+ state syncing_status)
  /\ Tray._get_icon_name (state syncing_status)
     = "jotta-" +:+ state syncing_status.
Proof.
  apply (proj1 (snapshot_icon (decodes_to syncing_payload) live_input
                  (Monitor.__init__ CLI.default_cli)
                  (Monitor.set_quota (PInt 95, PInt 100) 1000
                     (Monitor.__init__ CLI.default_cli))
                  [Log DEBUG (RunningCommand ["jotta-cli"; "status"; "--json"]);
                   Log DEBUG StatusRetrieved;
                   Log DEBUG (QuotaUpdated (PInt 95) (PInt 100))]
                  syncing_status)).
  vm_compute. reflexivity.
Defined.
